(** * Peer collaboration ranking and feedback assignment

    A shallow embedding of the ranking and assignment engine of the feedback
    platform: [services/peer-ranker.ts], [services/collaboration-tracker.ts],
    [services/feedback-assigner.ts] and the cycle auto-close of the reminder
    system in [services/structured-prompts.ts], over the relational schema of
    [config/migrate.ts].

    Conventions of the embedding.
    - A table is the list of its rows, in storage order.  SQL INTEGER columns
      are [Z], TEXT columns are [string], nullable columns are [option].
    - DATETIME columns and JavaScript [Date] values are [Z], the number of
      milliseconds since the epoch; the clock ([Date.now()], [datetime('now')])
      is the section variable [now], read once by a method.  A DATETIME column
      holds text.  Where the code reads such a text back with [new Date], the
      [Z] is the instant it reads: the instant written for an ISO string with
      its zone, as [toISOString()] gives it, and for the zoneless text of
      SQLite ([datetime('now')], [CURRENT_TIMESTAMP]) in a process whose local
      time is UTC.  Where the code compares the text of SQLite with an ISO
      string the comparison is that of the texts ([sql_text_after_iso]).
    - JavaScript numbers and SQL REAL values are exact rationals ([Q]); the
      rounding of IEEE doubles is not modelled.  A weight that is not a number
      and the NaN it gives are in [PeerRankerJs].
    - An [async] method is a function in the monad [M]: it threads the database
      and may throw.  A throw keeps the database as it was at that point: the
      code opens no transaction. *)

From Stdlib Require Import ZArith QArith Qround List String DecimalString Bool Lia.
From Stdlib Require Import Sorted Permutation.
Import ListNotations.

Local Open Scope string_scope.
Local Open Scope list_scope.
Local Open Scope Z_scope.

(** ** The relational schema ([config/migrate.ts]) *)

Record Employee : Type := mkEmployee {
  emp_id : Z;
  emp_manager_id : option Z;
  emp_is_manager : Z
}.

Record Collaboration : Type := mkCollaboration {
  col_employee_id : Z;
  col_peer_id : Z;
  col_interaction_type : string;
  col_interaction_count : Z;
  col_total_minutes : Z;
  col_last_interaction : Z
}.

Record PeerRankingRow : Type := mkPeerRankingRow {
  pr_employee_id : Z;
  pr_peer_id : Z;
  pr_collaboration_score : Q;
  pr_rank_position : Z;
  pr_calculated_at : Z
}.

Record FeedbackCycle : Type := mkFeedbackCycle {
  cyc_id : string;
  cyc_name : string;
  cyc_type : string;
  cyc_start_date : Z;
  cyc_end_date : Z;
  cyc_status : string
}.

Record FeedbackRequest : Type := mkFeedbackRequest {
  req_id : Z;
  req_requester_id : Z;
  req_provider_id : Z;
  req_cycle_id : string;
  req_request_type : string;
  req_status : string;
  req_assigned_at : Z;
  req_due_date : Z;
  req_completed_at : option Z;
  req_reminder_count : Z;
  req_last_reminder_at : option Z
}.

Record FeedbackResponse : Type := mkFeedbackResponse {
  resp_request_id : Z;
  resp_requester_id : Z;
  resp_provider_id : Z;
  resp_submitted_at : Z
}.

(** The database.  [feedback_requests_seq] is the AUTOINCREMENT counter of
    [feedback_requests]: the largest row id handed out so far. *)
Record DB : Type := mkDB {
  employees : list Employee;
  collaborations : list Collaboration;
  peer_rankings : list PeerRankingRow;
  feedback_cycles : list FeedbackCycle;
  feedback_requests : list FeedbackRequest;
  feedback_requests_seq : Z;
  feedback_responses : list FeedbackResponse
}.

Definition set_collaborations (t : list Collaboration) (db : DB) : DB :=
  mkDB (employees db) t (peer_rankings db) (feedback_cycles db)
       (feedback_requests db) (feedback_requests_seq db) (feedback_responses db).

Definition set_peer_rankings (t : list PeerRankingRow) (db : DB) : DB :=
  mkDB (employees db) (collaborations db) t (feedback_cycles db)
       (feedback_requests db) (feedback_requests_seq db) (feedback_responses db).

Definition set_feedback_cycles (t : list FeedbackCycle) (db : DB) : DB :=
  mkDB (employees db) (collaborations db) (peer_rankings db) t
       (feedback_requests db) (feedback_requests_seq db) (feedback_responses db).

Definition set_feedback_requests (t : list FeedbackRequest) (seq : Z) (db : DB) : DB :=
  mkDB (employees db) (collaborations db) (peer_rankings db) (feedback_cycles db)
       t seq (feedback_responses db).

(** ** Asynchronous methods: state and exceptions *)

Inductive result (A : Type) : Type :=
| Ok (a : A)
| Err (msg : string).
Arguments Ok {A} a.
Arguments Err {A} msg.

Definition M (A : Type) : Type := DB -> DB * result A.

Definition ret {A} (a : A) : M A := fun db => (db, Ok a).

Definition throw {A} (msg : string) : M A := fun db => (db, Err msg).

Definition bind {A B} (m : M A) (k : A -> M B) : M B :=
  fun db =>
    match m db with
    | (db', Ok a) => k a db'
    | (db', Err msg) => (db', Err msg)
    end.

Definition gets {A} (f : DB -> A) : M A := fun db => (db, Ok (f db)).

Definition modify (f : DB -> DB) : M unit := fun db => (f db, Ok tt).

Declare Scope async_scope.
Delimit Scope async_scope with async.
Notation "x <- m ;; k" := (bind m (fun x => k))
  (at level 61, m at next level, right associativity) : async_scope.
Notation "m ;;; k" := (bind m (fun _ => k))
  (at level 61, right associativity) : async_scope.
Local Open Scope async_scope.

(** [for (const x of xs) { acc = body(acc, x) }], with the local variables
    the loop body updates gathered in [acc]. *)
Fixpoint for_of {A B} (xs : list A) (body : B -> A -> M B) (acc : B) : M B :=
  match xs with
  | [] => ret acc
  | x :: xs' => acc' <- body acc x ;; for_of xs' body acc'
  end.

(** ** JavaScript built-ins used by the services *)

(** [Math.max(a, b)] on two numbers. *)
Definition Math_max (a b : Q) : Q := if Qle_bool a b then b else a.

(** [Math.ceil(n / d)] for an integer numerator and a positive integer
    denominator. *)
Definition Math_ceil_div (n d : Z) : Z := - ((- n) / d).

(** [Array.prototype.sort(cmp)].  The sort is stable (ECMAScript 2019): an
    element is placed before the first element it does not compare greater
    than, so elements that compare equal keep their array order.  [cmp]
    returns a number whose sign decides. *)
Fixpoint sort_insert {A} (cmp : A -> A -> Q) (x : A) (l : list A) : list A :=
  match l with
  | [] => [x]
  | y :: l' => if Qle_bool (cmp x y) 0 then x :: y :: l' else y :: sort_insert cmp x l'
  end.

Definition Array_sort {A} (cmp : A -> A -> Q) (l : list A) : list A :=
  fold_right (sort_insert cmp) [] l.

(** [arr.slice(0, n)]: a negative [n] counts from the end of the array. *)
Definition Array_slice0 {A} (l : list A) (n : Z) : list A :=
  if n <? 0 then firstn (Z.to_nat (Z.of_nat (List.length l) + n)) l
  else firstn (Z.to_nat n) l.

(** *** Objects keyed by numbers

    An object used as a map from numeric ids, as the list of its own
    properties in the order [Object.entries] enumerates them: first the keys
    that are array indices (integers between 0 and 2^32 - 2), in ascending
    numeric order, then the other keys in the order they were created. *)
Definition is_array_index (k : Z) : bool := (0 <=? k) && (k <? 2 ^ 32 - 1).

Section JsObject.
Context {V : Type}.

Definition JsObject : Type := list (Z * V).

Fixpoint obj_get (k : Z) (o : JsObject) : option V :=
  match o with
  | [] => None
  | (k', v) :: o' => if k =? k' then Some v else obj_get k o'
  end.

(** Creating the property [k], which the object does not have yet. *)
Fixpoint obj_define (k : Z) (v : V) (o : JsObject) : JsObject :=
  match o with
  | [] => [(k, v)]
  | (k', v') :: o' =>
      if is_array_index k && (negb (is_array_index k') || (k <? k'))
      then (k, v) :: (k', v') :: o'
      else (k', v') :: obj_define k v o'
  end.

(** Writing the property [k], which the object has: its place is kept. *)
Fixpoint obj_replace (k : Z) (v : V) (o : JsObject) : JsObject :=
  match o with
  | [] => []
  | (k', v') :: o' =>
      if k =? k' then (k', v) :: o' else (k', v') :: obj_replace k v o'
  end.

(** [o[k] = v] *)
Definition obj_set (k : Z) (v : V) (o : JsObject) : JsObject :=
  match obj_get k o with
  | Some _ => obj_replace k v o
  | None => obj_define k v o
  end.

(** [Object.entries(o)] *)
Definition Object_entries (o : JsObject) : list (Z * V) := o.
End JsObject.
Arguments JsObject V : clear implicits.

(** ** SQL built-ins used by the queries *)

(** [LIMIT n]: SQLite reads a negative limit as no limit. *)
Definition sql_limit {A} (n : Z) (rows : list A) : list A :=
  if n <? 0 then rows else firstn (Z.to_nat n) rows.

(** [ORDER BY key ASC] on an integer key; rows with equal keys keep their
    storage order. *)
Definition sql_order_by_asc {A} (key : A -> Z) (rows : list A) : list A :=
  Array_sort (fun a b => inject_Z (key a - key b)) rows.

(** [SUM(x)] is NULL over no rows. *)
Definition sql_sum (xs : list Z) : option Z :=
  match xs with
  | [] => None
  | _ => Some (fold_left Z.add xs 0)
  end.

(** [a / b] on REAL operands: NULL when an operand is NULL or the divisor is
    zero. *)
Definition sql_div (a b : option Q) : option Q :=
  match a, b with
  | Some x, Some y => if Qeq_bool y 0 then None else Some (x / y)%Q
  | _, _ => None
  end.

Definition sql_mul (a b : option Q) : option Q :=
  match a, b with
  | Some x, Some y => Some (x * y)%Q
  | _, _ => None
  end.

(** [ROUND(x, 2)]: to the nearest hundredth, halves away from zero. *)
Definition round_half_away (x : Q) : Z :=
  if Qle_bool 0 x then Qfloor (x + (1 # 2)) else - Qfloor (- x + (1 # 2)).

Definition sql_round2 (a : option Q) : option Q :=
  match a with
  | Some x => Some (inject_Z (round_half_away (x * 100)) / 100)%Q
  | None => None
  end.

(** [stored > ?] and [stored < ?] between a DATETIME column that holds the
    text [CURRENT_TIMESTAMP] wrote, ['YYYY-MM-DD HH:MM:SS'] in UTC, and a
    parameter that is the text of [toISOString()],
    ['YYYY-MM-DDTHH:MM:SS.sssZ'].  SQLite compares the two as text: they
    differ within the date, or they agree on it and then the space of the
    stored text sorts before the ['T'] of the parameter.  So the stored text
    is greater exactly when its UTC date is later, whatever the times of day.
    Both instants are milliseconds since the epoch, in the years 0000 to
    9999. *)
Definition sql_text_after_iso (stored parameter : Z) : bool :=
  parameter / (1000 * 60 * 60 * 24) <? stored / (1000 * 60 * 60 * 24).

(** ** [services/collaboration-tracker.ts] *)

Module CollaborationTracker.
Section WithClock.
Variable now : Z.

Definition same_pair_and_type (employeeId peerId : Z) (type : string)
    (c : Collaboration) : bool :=
  (col_employee_id c =? employeeId) && (col_peer_id c =? peerId)
  && String.eqb (col_interaction_type c) type.

(** [INSERT INTO collaborations ... ON CONFLICT(employee_id, peer_id,
    interaction_type) DO UPDATE SET interaction_count = interaction_count + ?,
    total_minutes = total_minutes + ?, last_interaction = datetime('now')] *)
Fixpoint upsert (employeeId peerId : Z) (type : string) (count minutes : Z)
    (rows : list Collaboration) : list Collaboration :=
  match rows with
  | [] => [mkCollaboration employeeId peerId type count minutes now]
  | c :: rows' =>
      if same_pair_and_type employeeId peerId type c
      then mkCollaboration employeeId peerId type
             (col_interaction_count c + count) (col_total_minutes c + minutes) now
           :: rows'
      else c :: upsert employeeId peerId type count minutes rows'
  end.

(** The two statements are run with the clock value of the call: both rows
    are stamped [now]. *)
Definition recordInteraction (employeeId peerId : Z) (type : string)
    (count minutes : Z) : M unit :=
  modify (fun db =>
    set_collaborations (upsert employeeId peerId type count minutes (collaborations db)) db) ;;;
  (* Record reverse interaction (bidirectional) *)
  modify (fun db =>
    set_collaborations (upsert peerId employeeId type count minutes (collaborations db)) db).
End WithClock.
End CollaborationTracker.

(** ** [services/peer-ranker.ts] *)

Module PeerRanker.

Record CollaborationMetric : Type := mkMetric {
  peer_id : Z;
  interaction_type : string;
  interaction_count : Z;
  total_minutes : Z;
  last_interaction : Z
}.

Record PeerRanking : Type := mkRanking {
  rk_peer_id : Z;
  collaboration_score : Q;
  rank_position : Z
}.

(** The own properties of the [WEIGHTS] object literal.  The properties it
    inherits from [Object.prototype] are in [PeerRankerJs]: this module is
    the ranker on the interaction types whose weight is a number
    ([rankPeers_numeric]). *)
Definition WEIGHTS (type : string) : option Z :=
  if String.eqb type "chat" then Some 1
  else if String.eqb type "meeting" then Some 3
  else if String.eqb type "task" then Some 5
  else if String.eqb type "file" then Some 2
  else None.

(** [this.WEIGHTS[metric.interaction_type] || 1] *)
Definition weight_of (type : string) : Z :=
  match WEIGHTS type with
  | Some w => if w =? 0 then 1 else w
  | None => 1
  end.

Section WithClock.
Variable now : Z.

(** [last_interaction] is the instant [new Date(m.last_interaction)] reads;
    the days since then are a fraction, and the score is exact. *)
Definition calculateCollaborationScore (metrics : list CollaborationMetric) : Q :=
  let score :=
    fold_left
      (fun (score : Q) (metric : CollaborationMetric) =>
         let weight := weight_of (interaction_type metric) in
         (score + (inject_Z (interaction_count metric * weight)
                   + inject_Z (total_minutes metric) / 10))%Q)
      metrics 0%Q in
  match metrics with
  | [] => score
  | m :: ms =>
      let mostRecentInteraction :=
        fold_left Z.max (map last_interaction ms) (last_interaction m) in
      let daysSinceLastInteraction :=
        (inject_Z (now - mostRecentInteraction)
         / inject_Z (1000 * 60 * 60 * 24))%Q in
      let recencyMultiplier :=
        Math_max (1 # 2) (1 - daysSinceLastInteraction / 90)%Q in
      (score * recencyMultiplier)%Q
  end.

(** [SELECT peer_id, interaction_type, SUM(interaction_count),
    SUM(total_minutes), MAX(last_interaction) FROM collaborations
    WHERE employee_id = ? GROUP BY peer_id, interaction_type]:
    one row per group, the groups in the order their first row is met. *)
Definition same_group (c : Collaboration) (g : CollaborationMetric) : bool :=
  (col_peer_id c =? peer_id g)
  && String.eqb (col_interaction_type c) (interaction_type g).

Fixpoint group_add (c : Collaboration) (groups : list CollaborationMetric)
    : list CollaborationMetric :=
  match groups with
  | [] => [mkMetric (col_peer_id c) (col_interaction_type c)
             (col_interaction_count c) (col_total_minutes c)
             (col_last_interaction c)]
  | g :: groups' =>
      if same_group c g
      then mkMetric (peer_id g) (interaction_type g)
             (interaction_count g + col_interaction_count c)
             (total_minutes g + col_total_minutes c)
             (Z.max (last_interaction g) (col_last_interaction c))
           :: groups'
      else g :: group_add c groups'
  end.

Definition query_collaborations (employeeId : Z) (db : DB)
    : list CollaborationMetric :=
  fold_left (fun groups c => group_add c groups)
    (filter (fun c => col_employee_id c =? employeeId) (collaborations db)) [].

(** [if (!peerMetrics[id]) peerMetrics[id] = []; peerMetrics[id].push(collab)] *)
Definition group_by_peer (peerMetrics : JsObject (list CollaborationMetric))
    (collab : CollaborationMetric) : JsObject (list CollaborationMetric) :=
  let peerMetrics :=
    match obj_get (peer_id collab) peerMetrics with
    | None => obj_set (peer_id collab) [] peerMetrics
    | Some _ => peerMetrics
    end in
  match obj_get (peer_id collab) peerMetrics with
  | Some metrics => obj_replace (peer_id collab) (metrics ++ [collab]) peerMetrics
  | None => peerMetrics
  end.

(** [rankings.forEach((ranking, index) => ranking.rank_position = index + 1)] *)
Fixpoint assign_rank_positions (index : Z) (rankings : list PeerRanking)
    : list PeerRanking :=
  match rankings with
  | [] => []
  | ranking :: rest =>
      mkRanking (rk_peer_id ranking) (collaboration_score ranking) (index + 1)
      :: assign_rank_positions (index + 1) rest
  end.

Definition saveRankings (employeeId : Z) (rankings : list PeerRanking) : M unit :=
  (* Delete existing rankings for this employee *)
  modify (fun db =>
    set_peer_rankings
      (filter (fun r => negb (pr_employee_id r =? employeeId)) (peer_rankings db)) db) ;;;
  (* Insert new rankings *)
  for_of rankings
    (fun (_ : unit) ranking =>
       modify (fun db =>
         set_peer_rankings
           (peer_rankings db
            ++ [mkPeerRankingRow employeeId (rk_peer_id ranking)
                  (collaboration_score ranking) (rank_position ranking) now]) db))
    tt.

(** The array [rankPeers] builds before it saves it. *)
Definition computeRankings (employeeId : Z) (db : DB) : list PeerRanking :=
  let collaborations := query_collaborations employeeId db in
  (* Group by peer *)
  let peerMetrics := fold_left group_by_peer collaborations [] in
  (* Calculate scores and rank *)
  let rankings :=
    map (fun '(peerId, metrics) =>
           mkRanking peerId (calculateCollaborationScore metrics) 0)
        (Object_entries peerMetrics) in
  (* Sort by score (highest first) *)
  let rankings :=
    Array_sort (fun a b => (collaboration_score b - collaboration_score a)%Q)
      rankings in
  (* Assign rank positions *)
  assign_rank_positions 0 rankings.

Definition rankPeers (employeeId : Z) : M (list PeerRanking) :=
  rankings <- gets (computeRankings employeeId) ;;
  saveRankings employeeId rankings ;;;
  ret rankings.

(** [SELECT pr.*, ... FROM peer_rankings pr JOIN employees e ON pr.peer_id = e.id
    WHERE pr.employee_id = ? ORDER BY pr.rank_position ASC LIMIT ?] *)
Definition getRankedPeers (employeeId : Z) (limit : Z) : M (list PeerRankingRow) :=
  gets (fun db =>
    let joined :=
      flat_map
        (fun r => map (fun _ => r)
                    (filter (fun e => pr_peer_id r =? emp_id e) (employees db)))
        (filter (fun r => pr_employee_id r =? employeeId) (peer_rankings db)) in
    sql_limit limit (sql_order_by_asc pr_rank_position joined)).

Definition rankAllPeers : M unit :=
  employees <- gets (fun db => map emp_id (employees db)) ;;
  for_of employees (fun (_ : unit) id => rankPeers id ;;; ret tt) tt.
End WithClock.
End PeerRanker.

(** ** [services/feedback-assigner.ts] *)

Module FeedbackAssigner.

Record CreateFeedbackRequestDTO : Type := mkDTO {
  requester_id : Z;
  provider_id : Z;
  cycle_id : string;
  request_type : string;
  due_date : Z
}.

(** [{ id: result.lastID, ...requestData }] *)
Record Assignment : Type := mkAssignment {
  id : Z;
  requestData : CreateFeedbackRequestDTO
}.

(** The fields of [CreateFeedbackCycleDTO] that reach the columns modelled;
    [config] and [created_by] are stored as given and the engine never reads
    them back. *)
Record CreateFeedbackCycleDTO : Type := mkCycleDTO {
  name : string;
  type : option string;
  start_date : Z;
  end_date : Z
}.

Record CycleStats : Type := mkCycleStats {
  total_requests : Z;
  completed_count : option Z;
  pending_count : option Z;
  overdue_count : option Z;
  completion_rate : option Q
}.

(** JavaScript truthiness of a nullable number: [null], [undefined] and [0]
    are falsy. *)
Definition truthy (v : option Z) : bool :=
  match v with
  | Some n => negb (n =? 0)
  | None => false
  end.

Section WithEnvironment.
Variable now : Z.

(** [`cycle_${Date.now()}`] *)
Definition new_cycle_id : string :=
  "cycle_" ++ NilZero.string_of_int (Z.to_int now).

(** [INSERT INTO feedback_cycles (...) VALUES (?, ?, ?, ?, ?, 'active', ?, ?)];
    [id] is the primary key, so the INSERT is refused when the id is taken. *)
Definition createCycle (cycleData : CreateFeedbackCycleDTO) : M string :=
  let cycleId := new_cycle_id in
  fun db =>
    if existsb (fun c => String.eqb (cyc_id c) cycleId) (feedback_cycles db)
    then (db, Err "UNIQUE constraint failed: feedback_cycles.id")
    else
      (set_feedback_cycles
         (feedback_cycles db
          ++ [mkFeedbackCycle cycleId (name cycleData)
                (match type cycleData with
                 | Some t => if String.eqb t "" then "peer" else t
                 | None => "peer"
                 end)
                (start_date cycleData) (end_date cycleData) "active"]) db,
       Ok cycleId).

(** The storage layer: [run] rejects its promise when the database reports
    an error for the statement.  [storage_rejects d] says whether the INSERT
    of the request [d] is refused. *)
Variable storage_rejects : CreateFeedbackRequestDTO -> bool.

(** [INSERT INTO feedback_requests (requester_id, provider_id, cycle_id,
    request_type, due_date, assigned_at) VALUES (?, ?, ?, ?, ?,
    datetime('now'))] with [requestData.request_type || 'peer'] for the
    type; the other columns take their defaults.  Returns [lastID]. *)
Definition run_insert_feedback_request (d : CreateFeedbackRequestDTO) : M Z :=
  fun db =>
    if storage_rejects d then (db, Err "storage error")
    else
      let lastID := feedback_requests_seq db + 1 in
      (set_feedback_requests
         (feedback_requests db
          ++ [mkFeedbackRequest lastID (requester_id d) (provider_id d)
                (cycle_id d)
                (if String.eqb (request_type d) "" then "peer" else request_type d)
                "pending" now (due_date d) None 0 None])
         lastID db,
       Ok lastID).

Definition createFeedbackRequest (requestData : CreateFeedbackRequestDTO)
    : M Assignment :=
  lastID <- run_insert_feedback_request requestData ;;
  ret (mkAssignment lastID requestData).

(** [thirtyDaysAgo.setDate(thirtyDaysAgo.getDate() - 30)] moves the local
    calendar date back by thirty days: thirty days of 24 hours where the
    local clock is not changed in between, as in UTC.  [submitted_at] is
    written by [CURRENT_TIMESTAMP] and compared, as text, with
    [thirtyDaysAgo.toISOString()]. *)
Definition filterRecentFeedback (peers : list PeerRankingRow) (requesterId : Z)
    : M (list PeerRankingRow) :=
  let thirtyDaysAgo := now - 30 * (1000 * 60 * 60 * 24) in
  recentProviders <-
    gets (fun db =>
      map resp_provider_id
        (filter (fun r => (resp_requester_id r =? requesterId)
                          && sql_text_after_iso (resp_submitted_at r) thirtyDaysAgo)
           (feedback_responses db))) ;;
  let recentProviderIds := recentProviders in
  ret (filter
         (fun peer => negb (existsb (Z.eqb (pr_peer_id peer)) recentProviderIds))
         peers).

(** [SELECT id FROM feedback_requests WHERE requester_id = ? AND
    provider_id = ? AND cycle_id = ?] *)
Definition same_assignment (requesterId providerId : Z) (cycleId : string)
    (r : FeedbackRequest) : bool :=
  (req_requester_id r =? requesterId) && (req_provider_id r =? providerId)
  && String.eqb (req_cycle_id r) cycleId.

Definition checkExistingAssignment (requesterId providerId : Z)
    (cycleId : string) : M bool :=
  gets (fun db =>
    existsb (same_assignment requesterId providerId cycleId)
      (feedback_requests db)).

Definition getCycle (cycleId : string) : M (option FeedbackCycle) :=
  gets (fun db =>
    find (fun c => String.eqb (cyc_id c) cycleId) (feedback_cycles db)).

(** The body of the loop [for (const employee of employees)]. *)
Definition assignForEmployee (cycleId : string) (cycle : FeedbackCycle)
    (peersPerEmployee : Z) (include360 : bool)
    (assignments : list Assignment) (employee : Employee)
    : M (list Assignment) :=
  (* Get top ranked peers (excluding self) *)
  rankedPeers <-
    PeerRanker.getRankedPeers (emp_id employee) (peersPerEmployee + 10) ;;
  (* Filter out peers who already provided feedback recently *)
  availablePeers <- filterRecentFeedback rankedPeers (emp_id employee) ;;
  (* Select top N peers *)
  let selectedPeers := Array_slice0 availablePeers peersPerEmployee in
  (* Create peer feedback requests *)
  assignments <-
    for_of selectedPeers
      (fun assignments peer =>
         exists_ <-
           checkExistingAssignment (emp_id employee) (pr_peer_id peer) cycleId ;;
         if negb exists_ then
           assignment <-
             createFeedbackRequest
               (mkDTO (emp_id employee) (pr_peer_id peer) cycleId "peer"
                  (cyc_end_date cycle)) ;;
           ret (assignments ++ [assignment])
         else ret assignments)
      assignments ;;
  (* If 360-degree feedback, add manager and direct reports *)
  if include360 then
    (* Add manager feedback *)
    assignments <-
      match emp_manager_id employee with
      | Some manager_id =>
          if truthy (Some manager_id) then
            managerExists <-
              checkExistingAssignment (emp_id employee) manager_id cycleId ;;
            if negb managerExists then
              managerAssignment <-
                createFeedbackRequest
                  (mkDTO (emp_id employee) manager_id cycleId "manager"
                     (cyc_end_date cycle)) ;;
              ret (assignments ++ [managerAssignment])
            else ret assignments
          else ret assignments
      | None => ret assignments
      end ;;
    (* Add upward feedback (from direct reports) *)
    if negb (emp_is_manager employee =? 0) then
      reports <-
        gets (fun db =>
          map emp_id
            (filter (fun e => match emp_manager_id e with
                              | Some m => m =? emp_id employee
                              | None => false
                              end)
               (employees db))) ;;
      for_of reports
        (fun assignments report =>
           reportExists <-
             checkExistingAssignment (emp_id employee) report cycleId ;;
           if negb reportExists then
             reportAssignment <-
               createFeedbackRequest
                 (mkDTO (emp_id employee) report cycleId "upward"
                    (cyc_end_date cycle)) ;;
             ret (assignments ++ [reportAssignment])
           else ret assignments)
        assignments
    else ret assignments
  else ret assignments.

Definition assignFeedbackRequests (cycleId : string) (peersPerEmployee : Z)
    (include360 : bool) : M (list Assignment) :=
  (* First, ensure all peer rankings are up to date *)
  PeerRanker.rankAllPeers now ;;;
  cycle <- getCycle cycleId ;;
  match cycle with
  | None => throw "Cycle not found"
  | Some cycle =>
      employees <- gets employees ;;
      for_of employees
        (assignForEmployee cycleId cycle peersPerEmployee include360) []
  end.

(** [UPDATE feedback_requests SET status = ?, completed_at = CASE WHEN ? =
    'completed' THEN datetime('now') ELSE completed_at END WHERE id = ?] *)
Definition updateRequestStatus (requestId : Z) (status : string) : M unit :=
  modify (fun db =>
    set_feedback_requests
      (map (fun r =>
              if req_id r =? requestId then
                mkFeedbackRequest (req_id r) (req_requester_id r)
                  (req_provider_id r) (req_cycle_id r) (req_request_type r)
                  status (req_assigned_at r) (req_due_date r)
                  (if String.eqb status "completed" then Some now
                   else req_completed_at r)
                  (req_reminder_count r) (req_last_reminder_at r)
              else r)
         (feedback_requests db))
      (feedback_requests_seq db) db).

(** [SUM(CASE WHEN status = ? THEN 1 ELSE 0 END)] *)
Definition sum_case_status (status : string) (rows : list FeedbackRequest)
    : option Z :=
  sql_sum (map (fun r => if String.eqb (req_status r) status then 1 else 0) rows).

Definition option_Z_to_Q (v : option Z) : option Q :=
  match v with
  | Some n => Some (inject_Z n)
  | None => None
  end.

Definition getCycleStats (cycleId : string) : M CycleStats :=
  gets (fun db =>
    let rows :=
      filter (fun r => String.eqb (req_cycle_id r) cycleId) (feedback_requests db) in
    let count := Z.of_nat (List.length rows) in
    mkCycleStats
      count
      (sum_case_status "completed" rows)
      (sum_case_status "pending" rows)
      (sum_case_status "overdue" rows)
      (sql_round2
         (sql_mul
            (sql_div (option_Z_to_Q (sum_case_status "completed" rows))
               (Some (inject_Z count)))
            (Some 100%Q)))).
End WithEnvironment.
End FeedbackAssigner.

(** ** The cycle auto-close of [ReminderSystem] ([services/structured-prompts.ts]) *)

Module ReminderSystem.

(** The value of [stats[0].completed / stats[0].total]: [null] counts as 0,
    and a division by zero gives [NaN] or an infinity. *)
Inductive jsnum : Type :=
| JNum (q : Q)
| JPosInf
| JNegInf
| JNaN.

Definition js_div (a : option Z) (b : Z) : jsnum :=
  let a := match a with Some n => n | None => 0 end in
  if b =? 0 then
    if a =? 0 then JNaN else if 0 <? a then JPosInf else JNegInf
  else JNum (inject_Z a / inject_Z b)%Q.

(** [x >= q]: false on [NaN]. *)
Definition js_ge (x : jsnum) (q : Q) : bool :=
  match x with
  | JNum v => Qle_bool q v
  | JPosInf => true
  | JNegInf => false
  | JNaN => false
  end.

Section WithClock.
Variable now : Z.

(** The test of the [if] in the loop body. *)
Definition shouldClose (cycle : FeedbackCycle) (db : DB) : bool :=
  (* Check if all requests are completed *)
  let rows :=
    filter (fun r => String.eqb (req_cycle_id r) (cyc_id cycle))
      (feedback_requests db) in
  let total := Z.of_nat (List.length rows) in
  let completed := FeedbackAssigner.sum_case_status "completed" rows in
  let completionRate := js_div completed total in
  (* If 90% or more completed, or 7 days past end date, close the cycle *)
  let daysPastEnd :=
    Math_ceil_div (now - cyc_end_date cycle) (1000 * 60 * 60 * 24) in
  js_ge completionRate (9 # 10) || (7 <=? daysPastEnd).

(** [UPDATE feedback_cycles SET status = ? WHERE id = ?] *)
Definition update_cycle_status (status : string) (cycleId : string) : M unit :=
  modify (fun db =>
    set_feedback_cycles
      (map (fun c =>
              if String.eqb (cyc_id c) cycleId then
                mkFeedbackCycle (cyc_id c) (cyc_name c) (cyc_type c)
                  (cyc_start_date c) (cyc_end_date c) status
              else c)
         (feedback_cycles db)) db).

(** [end_date] is the text [createCycle] was given.  It is taken for the ISO
    string of an instant, as [toISOString()] writes it: then [end_date < ?]
    with [now.toISOString()] compares the instants and [new Date(end_date)]
    reads the instant back.  The [try] block never throws in this model, so
    the [catch] is not reached. *)
Definition autoCloseCycles : M unit :=
  (* Find cycles that have ended *)
  endedCycles <-
    gets (fun db =>
      filter (fun c => String.eqb (cyc_status c) "active"
                       && (cyc_end_date c <? now))
        (feedback_cycles db)) ;;
  for_of endedCycles
    (fun (_ : unit) cycle =>
       close <- gets (shouldClose cycle) ;;
       if close then update_cycle_status "completed" (cyc_id cycle)
       else ret tt)
    tt.
End WithClock.
End ReminderSystem.

(** ** Vocabulary of the statements *)

(** *** The collaboration score as the specification words it *)

Module ScoreFormula.
Definition weight (type : string) : Z :=
  if String.eqb type "chat" then 1
  else if String.eqb type "meeting" then 3
  else if String.eqb type "task" then 5
  else if String.eqb type "file" then 2
  else 1.

(** [interaction_count * weight(type) + total_minutes / 10] *)
Definition term (c : Collaboration) : Q :=
  (inject_Z (col_interaction_count c) * inject_Z (weight (col_interaction_type c))
   + inject_Z (col_total_minutes c) / 10)%Q.

Definition sum_terms (rows : list Collaboration) : Q :=
  fold_right (fun c s => (term c + s)%Q) 0%Q rows.

(** The single most recent [last_interaction] of a set of rows. *)
Definition later (a b : option Z) : option Z :=
  match a, b with
  | Some x, Some y => Some (Z.max x y)
  | Some x, None => Some x
  | None, _ => b
  end.

Definition most_recent (rows : list Collaboration) : option Z :=
  fold_right (fun c m => later (Some (col_last_interaction c)) m) None rows.

(** [max(0.5, 1 - days / 90)], with the days as a fraction. *)
Definition recency_multiplier (now last : Z) : Q :=
  let days := (inject_Z (now - last) / inject_Z 86400000)%Q in
  if Qle_bool (1 # 2) (1 - days / 90)%Q then (1 - days / 90)%Q else (1 # 2)%Q.

Definition score (now : Z) (rows : list Collaboration) : Q :=
  match most_recent rows with
  | Some last => (sum_terms rows * recency_multiplier now last)%Q
  | None => sum_terms rows
  end.

(** The interaction rows of [employeeId] with [peerId]. *)
Definition rows_with (employeeId peerId : Z) (db : DB) : list Collaboration :=
  filter (fun c => (col_employee_id c =? employeeId) && (col_peer_id c =? peerId))
    (collaborations db).
End ScoreFormula.

(** An aggregate of the ranking query, read as an interaction row of
    [employeeId]. *)
Definition metric_as_row (employeeId : Z) (g : PeerRanker.CollaborationMetric)
    : Collaboration :=
  mkCollaboration employeeId (PeerRanker.peer_id g) (PeerRanker.interaction_type g)
    (PeerRanker.interaction_count g) (PeerRanker.total_minutes g)
    (PeerRanker.last_interaction g).

(** *** Ranking order: score descending, then peer id ascending *)



(** *** Uniqueness of requests *)

Definition assignment_key (r : FeedbackRequest) : Z * Z * string :=
  (req_requester_id r, req_provider_id r, req_cycle_id r).

Definition unique_assignments (db : DB) : Prop :=
  NoDup (map assignment_key (feedback_requests db)).

(** *** Devices of the proofs *)

(** The request [d] is already in the table, by requester, provider and
    cycle. *)
Definition assigned (requests : list FeedbackRequest)
    (d : FeedbackAssigner.CreateFeedbackRequestDTO) : bool :=
  existsb
    (FeedbackAssigner.same_assignment (FeedbackAssigner.requester_id d)
       (FeedbackAssigner.provider_id d) (FeedbackAssigner.cycle_id d))
    requests.

(** The row [saveRankings] stores for one ranking, and the rows a call of
    [rankPeers] stores for an employee. *)
Definition ranking_row (now employeeId : Z) (ranking : PeerRanker.PeerRanking)
    : PeerRankingRow :=
  mkPeerRankingRow employeeId (PeerRanker.rk_peer_id ranking)
    (PeerRanker.collaboration_score ranking) (PeerRanker.rank_position ranking) now.

Definition fresh_rows (now employeeId : Z) (db : DB) : list PeerRankingRow :=
  map (ranking_row now employeeId) (PeerRanker.computeRankings now employeeId db).

Definition rows_of (employeeId : Z) (rows : list PeerRankingRow) : list PeerRankingRow :=
  filter (fun r => pr_employee_id r =? employeeId) rows.

(** The database after [rankPeers] ran for each of [ids] in turn. *)
Definition rerank (now : Z) (ids : list Z) (db : DB) : DB :=
  fold_left (fun db id => fst (PeerRanker.rankPeers now id db)) ids db.

(** *** The requests a run tries to create

    [place_requests] is the effect of the three gated creation sites of
    [assignFeedbackRequests] on the table [feedback_requests] alone: each
    candidate in turn is skipped when its (requester, provider, cycle) is
    already there, aborts the run when the storage refuses it, and is
    appended otherwise. *)
Section Candidates.
Variable now : Z.
Variable storage_rejects : FeedbackAssigner.CreateFeedbackRequestDTO -> bool.

Import FeedbackAssigner.

Definition gated_create (d : CreateFeedbackRequestDTO)
    (assignments : list Assignment) : M (list Assignment) :=
  exists_ <- checkExistingAssignment (requester_id d) (provider_id d) (cycle_id d) ;;
  if negb exists_ then
    assignment <- createFeedbackRequest now storage_rejects d ;;
    ret (assignments ++ [assignment])
  else ret assignments.

Definition request_row (lastID : Z) (d : CreateFeedbackRequestDTO) : FeedbackRequest :=
  mkFeedbackRequest lastID (requester_id d) (provider_id d) (cycle_id d)
    (if String.eqb (request_type d) "" then "peer" else request_type d)
    "pending" now (due_date d) None 0 None.

Fixpoint place_requests (candidates : list CreateFeedbackRequestDTO)
    (assignments : list Assignment) (requests : list FeedbackRequest) (seq : Z)
    : list FeedbackRequest * Z * result (list Assignment) :=
  match candidates with
  | [] => (requests, seq, Ok assignments)
  | d :: rest =>
      if existsb (same_assignment (requester_id d) (provider_id d) (cycle_id d))
           requests
      then place_requests rest assignments requests seq
      else if storage_rejects d then (requests, seq, Err "storage error")
      else place_requests rest (assignments ++ [mkAssignment (seq + 1) d])
             (requests ++ [request_row (seq + 1) d]) (seq + 1)
  end.

(** The candidates of one employee, in the order the loop body meets them:
    the selected peers, the manager, the direct reports. *)
Definition selected_peers (peersPerEmployee : Z) (employee : Employee) (db : DB)
    : list PeerRankingRow :=
  match PeerRanker.getRankedPeers (emp_id employee) (peersPerEmployee + 10) db with
  | (_, Ok rankedPeers) =>
      match filterRecentFeedback now rankedPeers (emp_id employee) db with
      | (_, Ok availablePeers) => Array_slice0 availablePeers peersPerEmployee
      | (_, Err _) => []
      end
  | (_, Err _) => []
  end.

Definition peer_candidates (cycleId : string) (cycle : FeedbackCycle)
    (peersPerEmployee : Z) (employee : Employee) (db : DB)
    : list CreateFeedbackRequestDTO :=
  map (fun peer => mkDTO (emp_id employee) (pr_peer_id peer) cycleId "peer"
                     (cyc_end_date cycle))
    (selected_peers peersPerEmployee employee db).

Definition manager_candidates (cycleId : string) (cycle : FeedbackCycle)
    (employee : Employee) : list CreateFeedbackRequestDTO :=
  match emp_manager_id employee with
  | Some manager_id =>
      if truthy (Some manager_id)
      then [mkDTO (emp_id employee) manager_id cycleId "manager" (cyc_end_date cycle)]
      else []
  | None => []
  end.

Definition report_candidates (cycleId : string) (cycle : FeedbackCycle)
    (employee : Employee) (db : DB) : list CreateFeedbackRequestDTO :=
  if negb (emp_is_manager employee =? 0) then
    map (fun report => mkDTO (emp_id employee) report cycleId "upward"
                         (cyc_end_date cycle))
      (map emp_id
         (filter (fun e => match emp_manager_id e with
                           | Some m => m =? emp_id employee
                           | None => false
                           end)
            (employees db)))
  else [].

Definition candidates_of (cycleId : string) (cycle : FeedbackCycle)
    (peersPerEmployee : Z) (include360 : bool) (db : DB) (employee : Employee)
    : list CreateFeedbackRequestDTO :=
  peer_candidates cycleId cycle peersPerEmployee employee db
  ++ (if include360
      then manager_candidates cycleId cycle employee
           ++ report_candidates cycleId cycle employee db
      else []).

(** All the candidates of a run, in the order it meets them: the candidates
    of each employee in turn, read off the rankings [rankAllPeers] stores. *)
Definition all_candidates (cycleId : string) (cycle : FeedbackCycle)
    (peersPerEmployee : Z) (include360 : bool) (db : DB)
    : list CreateFeedbackRequestDTO :=
  flat_map
    (candidates_of cycleId cycle peersPerEmployee include360
       (rerank now (map emp_id (employees db)) db))
    (employees db).
End Candidates.

(** *** Requests and cycle statistics *)

(** Two request rows that agree on every column but [status] and
    [completed_at]. *)
Definition same_but_status (r r' : FeedbackRequest) : Prop :=
  req_id r' = req_id r
  /\ req_requester_id r' = req_requester_id r
  /\ req_provider_id r' = req_provider_id r
  /\ req_cycle_id r' = req_cycle_id r
  /\ req_request_type r' = req_request_type r
  /\ req_assigned_at r' = req_assigned_at r
  /\ req_due_date r' = req_due_date r
  /\ req_reminder_count r' = req_reminder_count r
  /\ req_last_reminder_at r' = req_last_reminder_at r.

Definition requests_of_cycle (cycleId : string) (db : DB) : list FeedbackRequest :=
  filter (fun r => String.eqb (req_cycle_id r) cycleId) (feedback_requests db).

(** The number of rows with a given status. *)
Definition count_status (status : string) (rows : list FeedbackRequest) : Z :=
  Z.of_nat (List.length (filter (fun r => String.eqb (req_status r) status) rows)).


(** *** Cycle closing *)

Definition with_status (status : string) (c : FeedbackCycle) : FeedbackCycle :=
  mkFeedbackCycle (cyc_id c) (cyc_name c) (cyc_type c) (cyc_start_date c)
    (cyc_end_date c) status.

(** The condition under which [autoCloseCycles] closes a cycle: the cycle is
    active, its end date is past, and either it has requests of which nine in
    ten are completed, or its end date is more than six days past. *)
Definition closes (now : Z) (db : DB) (c : FeedbackCycle) : Prop :=
  let rows := requests_of_cycle (cyc_id c) db in
  cyc_status c = "active"
  /\ cyc_end_date c < now
  /\ ((rows <> [] /\ 9 * Z.of_nat (List.length rows) <= 10 * count_status "completed" rows)
      \/ 6 * (1000 * 60 * 60 * 24) < now - cyc_end_date c).

(** The operations of the engine that write to the database, and the
    database each leaves, thrown error or not. *)
Inductive Operation : Type :=
| RecordInteraction (employeeId peerId : Z) (type : string) (count minutes : Z)
| RankPeers (employeeId : Z)
| RankAllPeers
| CreateCycle (cycleData : FeedbackAssigner.CreateFeedbackCycleDTO)
| AssignFeedbackRequests (cycleId : string) (peersPerEmployee : Z) (include360 : bool)
| UpdateRequestStatus (requestId : Z) (status : string)
| AutoCloseCycles.

Definition perform (now : Z)
    (storage_rejects : FeedbackAssigner.CreateFeedbackRequestDTO -> bool)
    (op : Operation) (db : DB) : DB :=
  match op with
  | RecordInteraction employeeId peerId type count minutes =>
      fst (CollaborationTracker.recordInteraction now employeeId peerId type count
             minutes db)
  | RankPeers employeeId => fst (PeerRanker.rankPeers now employeeId db)
  | RankAllPeers => fst (PeerRanker.rankAllPeers now db)
  | CreateCycle cycleData => fst (FeedbackAssigner.createCycle now cycleData db)
  | AssignFeedbackRequests cycleId peersPerEmployee include360 =>
      fst (FeedbackAssigner.assignFeedbackRequests now storage_rejects cycleId
             peersPerEmployee include360 db)
  | UpdateRequestStatus requestId status =>
      fst (FeedbackAssigner.updateRequestStatus now requestId status db)
  | AutoCloseCycles => fst (ReminderSystem.autoCloseCycles now db)
  end.

(** What an operation may do to the cycles: each cycle stays as it is or goes
    from active to completed, and new cycles are active. *)
Definition status_step (c c' : FeedbackCycle) : Prop :=
  c' = c \/ (cyc_status c = "active" /\ c' = with_status "completed" c).

Definition cycles_step (db db' : DB) : Prop :=
  exists kept created,
    feedback_cycles db' = kept ++ created
    /\ Forall2 status_step (feedback_cycles db) kept
    /\ Forall (fun c => cyc_status c = "active") created.

(** The condition as the specification has it: nine in ten requests are
    completed, or the end date is at least seven days past. *)
Definition closes_as_specified (now : Z) (db : DB) (c : FeedbackCycle) : Prop :=
  let rows := requests_of_cycle (cyc_id c) db in
  (rows <> [] /\ 9 * Z.of_nat (List.length rows) <= 10 * count_status "completed" rows)
  \/ 7 * (1000 * 60 * 60 * 24) <= now - cyc_end_date c.

(** *** The claims of the specification that the code does not meet,
    as predicates *)

(** "The engine does not trigger ranking recomputation": the stored rankings
    are the same before and after a run. *)
Definition rankings_untouched (now : Z)
    (storage_rejects : FeedbackAssigner.CreateFeedbackRequestDTO -> bool)
    (cycleId : string) (peersPerEmployee : Z) (include360 : bool) (db : DB) : Prop :=
  peer_rankings
    (fst (FeedbackAssigner.assignFeedbackRequests now storage_rejects cycleId
            peersPerEmployee include360 db))
  = peer_rankings db.


(** "No self-assignment" on the request table. *)
Definition no_self_assignment (db : DB) : Prop :=
  forall r, In r (feedback_requests db) -> req_requester_id r <> req_provider_id r.

(** "An active cycle is marked completed exactly when its completion rate
    is at least 90% or its end date has passed by at least seven days." *)
Definition auto_close_as_specified (now : Z) (db : DB) : Prop :=
  forall c, In c (feedback_cycles db) -> cyc_status c = "active" ->
    (In (with_status "completed" c)
       (feedback_cycles (fst (ReminderSystem.autoCloseCycles now db)))
     <-> closes_as_specified now db c).



(** ** Scenarios *)

Module Scenario.
Definition day : Z := 1000 * 60 * 60 * 24.

Definition now : Z := 19000 * day.

(** Employee 1 manages employees 2 and 3. *)
Definition staff : list Employee :=
  [mkEmployee 1 None 1; mkEmployee 2 (Some 1) 0; mkEmployee 3 (Some 1) 0].

(** The scenario of the specification: A = 1 chatted ten times with B = 2,
    last five days ago, and met C = 3 twice for sixty minutes, last a hundred
    days ago; each interaction is stored in both directions. *)
Definition chat_row (a b : Z) (now : Z) : Collaboration :=
  mkCollaboration a b "chat" 10 0 (now - 5 * day).

Definition meeting_row (a c : Z) (now : Z) : Collaboration :=
  mkCollaboration a c "meeting" 2 60 (now - 100 * day).

Definition interactions : list Collaboration :=
  [chat_row 1 2 now; chat_row 2 1 now; meeting_row 1 3 now; meeting_row 3 1 now].

Definition cycle : FeedbackCycle :=
  mkFeedbackCycle "cycle_1" "Quarterly" "360" (now - 20 * day) (now + 10 * day) "active".

Definition db : DB := mkDB staff interactions [] [cycle] [] 0 [].

Definition storage_ok (d : FeedbackAssigner.CreateFeedbackRequestDTO) : bool := false.


(** One employee, no manager; [recordInteraction(1, 1, 'chat')] was called. *)
Definition self_interaction_db : DB :=
  fst (CollaborationTracker.recordInteraction now 1 1 "chat" 1 0
         (mkDB [mkEmployee 1 None 0] [] [] [cycle] [] 0 [])).

(** One employee who is entered as their own manager. *)
Definition self_manager_db : DB :=
  mkDB [mkEmployee 1 (Some 1) 1] [] [] [cycle] [] 0 [].

(** The cycle ends in ten days and its only request is completed. *)
Definition early_db : DB :=
  mkDB staff interactions [] [cycle]
    [mkFeedbackRequest 1 2 1 "cycle_1" "manager" "completed" (now - day)
       (now + 10 * day) (Some now) 0 None]
    1 [].

(** A cycle that ended eight days ago with nothing completed, and a cycle
    archived long ago. *)
Definition late_db : DB :=
  mkDB staff interactions []
    [mkFeedbackCycle "cycle_0" "Old" "peer" (now - 400 * day) (now - 300 * day) "archived";
     mkFeedbackCycle "cycle_1" "Quarterly" "360" (now - 40 * day) (now - 8 * day) "active"]
    [mkFeedbackRequest 1 2 1 "cycle_1" "manager" "pending" (now - day)
       (now - 8 * day) None 0 None]
    1 [].



End Scenario.

(** ** Further operations of the services *)

(** [a JOIN b ON on]: every pair of a row of [a] and a row of [b] that
    [on] accepts, the rows of [a] outermost. *)
Definition sql_join {A B} (on : A -> B -> bool) (a : list A) (b : list B)
    : list (A * B) :=
  flat_map (fun x => map (pair x) (filter (on x) b)) a.

(** *** The read accessors of [FeedbackAssigner]

    A joined row is the tuple of the rows it joins: the request with the
    employee and the cycle the query reads its name columns from. *)
Module FeedbackQueries.

Definition requester_and_cycle (requests : list FeedbackRequest) (db : DB)
    : list (FeedbackRequest * Employee * FeedbackCycle) :=
  sql_join (fun (fre : FeedbackRequest * Employee) fc =>
              String.eqb (req_cycle_id (fst fre)) (cyc_id fc))
    (sql_join (fun fr e => req_requester_id fr =? emp_id e) requests (employees db))
    (feedback_cycles db).

(** [SELECT fr.*, ... FROM feedback_requests fr JOIN employees e ON
    fr.requester_id = e.id JOIN feedback_cycles fc ON fr.cycle_id = fc.id
    WHERE fr.id = ?]; [get] keeps the first row. *)
Definition getRequestDetails (requestId : Z)
    : M (option (FeedbackRequest * Employee * FeedbackCycle)) :=
  gets (fun db =>
    hd_error
      (requester_and_cycle
         (filter (fun fr => req_id fr =? requestId) (feedback_requests db)) db)).

(** [... WHERE fr.provider_id = ? AND fr.status = 'pending'
    ORDER BY fr.due_date ASC] *)
Definition getPendingRequests (employeeId : Z)
    : M (list (FeedbackRequest * Employee * FeedbackCycle)) :=
  gets (fun db =>
    sql_order_by_asc (fun row => req_due_date (fst (fst row)))
      (requester_and_cycle
         (filter (fun fr => (req_provider_id fr =? employeeId)
                            && String.eqb (req_status fr) "pending")
            (feedback_requests db)) db)).

(** [SELECT fr.*, ... FROM feedback_requests fr JOIN employees e ON
    fr.provider_id = e.id WHERE fr.requester_id = ?], then
    [' AND fr.cycle_id = ?'] when [cycleId] is truthy, then
    [' ORDER BY fr.due_date ASC']. *)
Definition getRequestsForRequester (requesterId : Z) (cycleId : option string)
    : M (list (FeedbackRequest * Employee)) :=
  gets (fun db =>
    let wanted :=
      match cycleId with
      | Some id =>
          if String.eqb id "" then fun _ => true
          else fun fr => String.eqb (req_cycle_id fr) id
      | None => fun _ => true
      end in
    sql_order_by_asc (fun row => req_due_date (fst row))
      (sql_join (fun fr e => req_provider_id fr =? emp_id e)
         (filter (fun fr => (req_requester_id fr =? requesterId) && wanted fr)
            (feedback_requests db))
         (employees db))).
End FeedbackQueries.

(** *** The handler of [POST /] on the cycles router

    The body is the cycle data with its [config]; the response is the JSON
    of status 200, and a thrown error is the response of status 500 that
    carries its message. *)
Module CyclesRoute.

Record Config : Type := mkConfig {
  peers_per_employee : option Z;
  include_manager : bool;
  include_reports : bool;
  auto_assign : option bool
}.

Record Response : Type := mkResponse {
  cycleId : string;
  assignments : list FeedbackAssigner.Assignment;
  assignmentCount : Z
}.

Section WithEnvironment.
Variable now : Z.
Variable storage_rejects : FeedbackAssigner.CreateFeedbackRequestDTO -> bool.

(** The body is taken to be a [CreateFeedbackCycleDTO] with a whole number
    for [peers_per_employee], as the handler casts it: what it does with a
    body of another shape is not modelled. *)
Definition post (cycleData : FeedbackAssigner.CreateFeedbackCycleDTO)
    (config : option Config) : M Response :=
  (* Create cycle *)
  cycleId <- FeedbackAssigner.createCycle now cycleData ;;
  (* Auto-assign feedback requests if configured *)
  let config :=
    match config with
    | Some c => c
    | None => mkConfig None false false None
    end in
  let peersPerEmployee :=
    match peers_per_employee config with
    | Some n => if n =? 0 then 2 else n
    | None => 2
    end in
  let include360 :=
    match FeedbackAssigner.type cycleData with
    | Some t => String.eqb t "360"
    | None => false
    end || include_manager config || include_reports config in
  assignments <-
    match auto_assign config with
    | Some false => ret []
    | _ =>
        FeedbackAssigner.assignFeedbackRequests now storage_rejects cycleId
          peersPerEmployee include360
    end ;;
  ret (mkResponse cycleId assignments (Z.of_nat (List.length assignments))).
End WithEnvironment.
End CyclesRoute.

(** *** The aggregated metrics of [CollaborationTracker] *)

(** [COUNT(DISTINCT x)] *)
Definition sql_count_distinct (xs : list Z) : Z :=
  Z.of_nat (List.length (nodup Z.eq_dec xs)).

(** [AVG(x)] of integers is a REAL, NULL over no rows. *)
Definition sql_avg (xs : list Z) : option Q :=
  match xs with
  | [] => None
  | _ => Some (inject_Z (fold_left Z.add xs 0%Z) / inject_Z (Z.of_nat (List.length xs)))%Q
  end.

Module CollaborationQueries.

Record AggregatedMetrics : Type := mkAggregatedMetrics {
  unique_collaborators : Z;
  total_interactions : option Z;
  total_meeting_minutes : option Z;
  avg_interactions_per_peer : option Q
}.

(** [SELECT COUNT(DISTINCT peer_id), SUM(interaction_count),
    SUM(total_minutes), AVG(interaction_count) FROM collaborations
    WHERE employee_id = ?]: the one row of an aggregate query, in the array
    [query] returns. *)
Definition getAggregatedMetrics (employeeId : Z) : M (list AggregatedMetrics) :=
  gets (fun db =>
    let rows :=
      filter (fun c => col_employee_id c =? employeeId) (collaborations db) in
    [mkAggregatedMetrics
       (sql_count_distinct (map col_peer_id rows))
       (sql_sum (map col_interaction_count rows))
       (sql_sum (map col_total_minutes rows))
       (sql_avg (map col_interaction_count rows))]).
End CollaborationQueries.

(** A sum that is NULL read as a number, as [total || 0] would. *)
Definition or_zero (v : option Z) : Z :=
  match v with
  | Some n => n
  | None => 0
  end.

(** *** The ranker on any interaction type

    [PeerRanker] above takes the weight of every interaction type for a
    number.  The expression [this.WEIGHTS[type] || 1] reads the property
    [type] of an object literal, own or inherited: for a name of
    [Object.prototype] the value is a function (an object for [__proto__]),
    which is truthy, and its product with the count is NaN.  This module is
    the ranker with those values: a score is a number or NaN, and SQLite
    refuses the NaN for the NOT NULL column [collaboration_score].  The
    query, the grouping and the clock are those of [PeerRanker]. *)
Module PeerRankerJs.

Inductive JsValue : Type :=
| JsNumber (n : Z)
| JsFunction
| JsObject
| JsUndefined.

(** The properties an object literal inherits from [Object.prototype]. *)
Definition Object_prototype (name : string) : JsValue :=
  if existsb (String.eqb name)
       ["constructor"; "hasOwnProperty"; "isPrototypeOf"; "propertyIsEnumerable";
        "toLocaleString"; "toString"; "valueOf"; "__defineGetter__";
        "__defineSetter__"; "__lookupGetter__"; "__lookupSetter__"]
  then JsFunction
  else if String.eqb name "__proto__" then JsObject
  else JsUndefined.

(** [this.WEIGHTS[type]]: the own property, or else the inherited one. *)
Definition WEIGHTS_get (type : string) : JsValue :=
  match PeerRanker.WEIGHTS type with
  | Some w => JsNumber w
  | None => Object_prototype type
  end.

(** [v || 1]: 0 and [undefined] are falsy, functions and objects truthy. *)
Definition or_1 (v : JsValue) : JsValue :=
  match v with
  | JsNumber n => if n =? 0 then JsNumber 1 else JsNumber n
  | JsFunction => JsFunction
  | JsObject => JsObject
  | JsUndefined => JsNumber 1
  end.

(** The numbers of the score arithmetic: a number or NaN. *)
Inductive JsNum : Type :=
| Num (q : Q)
| NaN.

(** [count * weight]: a function, an object and [undefined] convert to NaN. *)
Definition times (count : Z) (weight : JsValue) : JsNum :=
  match weight with
  | JsNumber w => Num (inject_Z (count * w))
  | JsFunction | JsObject | JsUndefined => NaN
  end.

Definition plus (a b : JsNum) : JsNum :=
  match a, b with
  | Num x, Num y => Num (x + y)
  | _, _ => NaN
  end.

Definition minus (a b : JsNum) : JsNum :=
  match a, b with
  | Num x, Num y => Num (x - y)
  | _, _ => NaN
  end.

Definition scaled (a : JsNum) (factor : Q) : JsNum :=
  match a with
  | Num x => Num (x * factor)
  | NaN => NaN
  end.

(** What [Array.prototype.sort] makes of the value its comparator returns:
    NaN counts as +0. *)
Definition comparator_value (v : JsNum) : Q :=
  match v with
  | Num q => q
  | NaN => 0
  end.

Record PeerRanking : Type := mkRanking {
  rk_peer_id : Z;
  collaboration_score : JsNum;
  rank_position : Z
}.

Section WithClock.
Variable now : Z.

Definition calculateCollaborationScore
    (metrics : list PeerRanker.CollaborationMetric) : JsNum :=
  let score :=
    fold_left
      (fun (score : JsNum) (metric : PeerRanker.CollaborationMetric) =>
         let weight := or_1 (WEIGHTS_get (PeerRanker.interaction_type metric)) in
         plus score
           (plus (times (PeerRanker.interaction_count metric) weight)
              (Num (inject_Z (PeerRanker.total_minutes metric) / 10))))
      metrics (Num 0) in
  match metrics with
  | [] => score
  | m :: ms =>
      let mostRecentInteraction :=
        fold_left Z.max (map PeerRanker.last_interaction ms)
          (PeerRanker.last_interaction m) in
      let daysSinceLastInteraction :=
        (inject_Z (now - mostRecentInteraction)
         / inject_Z (1000 * 60 * 60 * 24))%Q in
      let recencyMultiplier :=
        Math_max (1 # 2) (1 - daysSinceLastInteraction / 90)%Q in
      scaled score recencyMultiplier
  end.

Fixpoint assign_rank_positions (index : Z) (rankings : list PeerRanking)
    : list PeerRanking :=
  match rankings with
  | [] => []
  | ranking :: rest =>
      mkRanking (rk_peer_id ranking) (collaboration_score ranking) (index + 1)
      :: assign_rank_positions (index + 1) rest
  end.

(** The array [rankPeers] builds before it saves it.  Where a score is NaN
    the comparator is not an order, and the place [sort] gives the NaN
    entries is an implementation matter; whether a NaN is among the scores
    does not depend on it. *)
Definition computeRankings (employeeId : Z) (db : DB) : list PeerRanking :=
  let collaborations := PeerRanker.query_collaborations employeeId db in
  let peerMetrics := fold_left PeerRanker.group_by_peer collaborations [] in
  let rankings :=
    map (fun '(peerId, metrics) =>
           mkRanking peerId (calculateCollaborationScore metrics) 0)
        (Object_entries peerMetrics) in
  let rankings :=
    Array_sort
      (fun a b =>
         comparator_value (minus (collaboration_score b) (collaboration_score a)))
      rankings in
  assign_rank_positions 0 rankings.

(** [DELETE FROM peer_rankings WHERE employee_id = ?], then one INSERT for
    each ranking: the INSERT of a NaN score fails on the NOT NULL constraint
    of [collaboration_score], the promise of [run] rejects, and the rows
    deleted and inserted so far stay as they are. *)
Definition saveRankings (employeeId : Z) (rankings : list PeerRanking) : M unit :=
  modify (fun db =>
    set_peer_rankings
      (filter (fun r => negb (pr_employee_id r =? employeeId)) (peer_rankings db)) db) ;;;
  for_of rankings
    (fun (_ : unit) ranking =>
       match collaboration_score ranking with
       | Num score =>
           modify (fun db =>
             set_peer_rankings
               (peer_rankings db
                ++ [mkPeerRankingRow employeeId (rk_peer_id ranking) score
                      (rank_position ranking) now]) db)
       | NaN =>
           throw
             "SQLITE_CONSTRAINT: NOT NULL constraint failed: peer_rankings.collaboration_score"
       end)
    tt.

Definition rankPeers (employeeId : Z) : M (list PeerRanking) :=
  rankings <- gets (computeRankings employeeId) ;;
  saveRankings employeeId rankings ;;;
  ret rankings.

Definition rankAllPeers : M unit :=
  employees <- gets (fun db => map emp_id (employees db)) ;;
  for_of employees (fun (_ : unit) id => rankPeers id ;;; ret tt) tt.
End WithClock.
End PeerRankerJs.

(** The interaction type has a number for its weight. *)
Definition has_numeric_weight (type : string) : bool :=
  match PeerRankerJs.or_1 (PeerRankerJs.WEIGHTS_get type) with
  | PeerRankerJs.JsNumber _ => true
  | _ => false
  end.

(** All the interaction rows of the employee have. *)
Definition numeric_types (employeeId : Z) (db : DB) : bool :=
  forallb (fun c => has_numeric_weight (col_interaction_type c))
    (filter (fun c => col_employee_id c =? employeeId) (collaborations db)).

(** A ranking of [PeerRanker] as one of [PeerRankerJs]. *)
Definition of_number (r : PeerRanker.PeerRanking) : PeerRankerJs.PeerRanking :=
  PeerRankerJs.mkRanking (PeerRanker.rk_peer_id r)
    (PeerRankerJs.Num (PeerRanker.collaboration_score r)) (PeerRanker.rank_position r).

(** *** Inputs on which the code leaves the specification *)
Module Faults.

(** Employee 1 had one interaction of type ['constructor'] with employee 2,
    recorded at [Scenario.now]. *)
Definition inherited_type_db : DB :=
  fst (CollaborationTracker.recordInteraction Scenario.now 1 2 "constructor" 1 0
         (mkDB Scenario.staff [] [] [Scenario.cycle] [] 0 [])).

(** The clock one millisecond after [Scenario.now]. *)
Definition now : Z := Scenario.now + 1.

(** An active cycle whose end date, stored as the ISO string
    ['2022-01-02T00:00:00.000Z'], is six days and one millisecond before
    [now]; its only request is pending. *)
Definition ended_six_days_ago : FeedbackCycle :=
  mkFeedbackCycle "cycle_1" "Quarterly" "360" (Scenario.now - 40 * Scenario.day)
    (Scenario.now - 6 * Scenario.day) "active".

Definition six_days_db : DB :=
  mkDB Scenario.staff Scenario.interactions [] [ended_six_days_ago]
    [mkFeedbackRequest 1 2 1 "cycle_1" "manager" "pending"
       (Scenario.now - 30 * Scenario.day) (Scenario.now - 6 * Scenario.day) None 0 None]
    1 [].
End Faults.

(** *** Vocabulary of the further properties *)

Definition interaction_key (c : Collaboration) : Z * Z * string :=
  (col_employee_id c, col_peer_id c, col_interaction_type c).

(** [UNIQUE(employee_id, peer_id, interaction_type)] *)
Definition unique_interactions (db : DB) : Prop :=
  NoDup (map interaction_key (collaborations db)).

(** The row of the pair and type, if there is one. *)
Definition interaction (employeeId peerId : Z) (type : string) (db : DB)
    : option Collaboration :=
  find (CollaborationTracker.same_pair_and_type employeeId peerId type)
    (collaborations db).

(** The count and the minutes recorded for the pair and type: 0 without row. *)
Definition recorded_count (employeeId peerId : Z) (type : string) (db : DB) : Z :=
  match interaction employeeId peerId type db with
  | Some c => col_interaction_count c
  | None => 0
  end.

Definition recorded_minutes (employeeId peerId : Z) (type : string) (db : DB) : Z :=
  match interaction employeeId peerId type db with
  | Some c => col_total_minutes c
  | None => 0
  end.

(** [c'] is the interaction [c] seen from the peer: employee and peer
    swapped, the same type, count and minutes.  The date is left out: the
    two rows of an interaction are written by two statements, each with its
    own [datetime('now')]. *)
Definition reversed (c c' : Collaboration) : Prop :=
  col_employee_id c' = col_peer_id c
  /\ col_peer_id c' = col_employee_id c
  /\ col_interaction_type c' = col_interaction_type c
  /\ col_interaction_count c' = col_interaction_count c
  /\ col_total_minutes c' = col_total_minutes c.

Definition symmetric_interactions (db : DB) : Prop :=
  forall c, In c (collaborations db) ->
    exists c', In c' (collaborations db) /\ reversed c c'.

(** The sum of [interaction_count * weight + total_minutes / 10] over the
    aggregates: the score before the recency multiplier. *)
Definition undecayed_score (metrics : list PeerRanker.CollaborationMetric) : Q :=
  ScoreFormula.sum_terms (map (metric_as_row 0) metrics).

(** [metrics'] has the peers, types and dates of [metrics], with counts and
    minutes that are not smaller. *)
Definition grown (metrics metrics' : list PeerRanker.CollaborationMetric) : Prop :=
  Forall2
    (fun m m' =>
       PeerRanker.interaction_type m' = PeerRanker.interaction_type m
       /\ PeerRanker.last_interaction m' = PeerRanker.last_interaction m
       /\ PeerRanker.interaction_count m <= PeerRanker.interaction_count m'
       /\ PeerRanker.total_minutes m <= PeerRanker.total_minutes m')
    metrics metrics'.

(** The row [createFeedbackRequest] stored for an assignment it returned. *)
Definition row_of_assignment (now : Z) (a : FeedbackAssigner.Assignment)
    : FeedbackRequest :=
  request_row now (FeedbackAssigner.id a) (FeedbackAssigner.requestData a).

(** [providerId] submitted a response to [requesterId] on one of the last 28
    days of the UTC calendar, today included.  The filter of the code keeps
    the responses dated after the UTC date of [thirtyDaysAgo], which
    [setDate] puts thirty local calendar days back: these 28 days are among
    them wherever the process runs. *)
Definition responded_recently (now requesterId providerId : Z) (db : DB) : Prop :=
  exists r, In r (feedback_responses db)
            /\ resp_requester_id r = requesterId
            /\ resp_provider_id r = providerId
            /\ now / (1000 * 60 * 60 * 24) - 28
               <= resp_submitted_at r / (1000 * 60 * 60 * 24).

(** * Properties *)

(** ** The monad and the loops *)

Lemma for_of_app {A B} (xs ys : list A) (body : B -> A -> M B) (acc : B) (db : DB) :
  for_of (xs ++ ys) body acc db
  = match for_of xs body acc db with
    | (db', Ok acc') => for_of ys body acc' db'
    | (db', Err msg) => (db', Err msg)
    end.
Proof.
  revert acc db.
  induction xs as [|x xs IH]; intros acc db; simpl.
  - reflexivity.
  - unfold bind. destruct (body acc x db) as [db1 [acc1|msg]].
    + apply IH.
    + reflexivity.
Qed.

Lemma for_of_map {A B C} (f : C -> A) (xs : list C) (body : B -> A -> M B)
    (acc : B) (db : DB) :
  for_of (map f xs) body acc db = for_of xs (fun a x => body a (f x)) acc db.
Proof.
  revert acc db.
  induction xs as [|x xs IH]; intros acc db; simpl.
  - reflexivity.
  - unfold bind. destruct (body acc (f x) db) as [db1 [acc1|msg]]; auto.
Qed.

(** ** The request table under the gated creation sites *)

Lemma set_feedback_requests_same (db : DB) :
  set_feedback_requests (feedback_requests db) (feedback_requests_seq db) db = db.
Proof. destruct db; reflexivity. Qed.

Lemma NoDup_app_iff_snoc {A} (x : A) (l : list A) :
  ~ In x l -> NoDup l -> NoDup (l ++ [x]).
Proof.
  intros Hx Hl. induction l as [|y l IH]; simpl.
  - constructor; [intros []|constructor].
  - inversion Hl; subst. constructor.
    + rewrite in_app_iff. intros [H|[H|[]]]; [contradiction|].
      subst. apply Hx. now left.
    + apply IH; [|assumption]. intros H. apply Hx. now right.
Qed.

Section GatedCreation.
Variable now : Z.
Variable storage_rejects : FeedbackAssigner.CreateFeedbackRequestDTO -> bool.

Import FeedbackAssigner.

Local Notation "'place'" := (place_requests now storage_rejects) (only parsing).

(** A loop of gated creations touches [feedback_requests] and its counter
    only, and does to them what [place_requests] says. *)
Lemma gated_loop_place (candidates : list CreateFeedbackRequestDTO)
    (assignments : list Assignment) (db : DB) :
  for_of candidates (fun a d => gated_create now storage_rejects d a) assignments db
  = let '(requests, seq, r) :=
      place candidates assignments (feedback_requests db) (feedback_requests_seq db) in
    (set_feedback_requests requests seq db, r).
Proof.
  revert assignments db.
  induction candidates as [|d rest IH]; intros assignments db.
  - simpl. rewrite set_feedback_requests_same. reflexivity.
  - simpl. unfold bind at 1. unfold gated_create at 1.
    unfold bind at 1. unfold checkExistingAssignment at 1, gets at 1.
    destruct (existsb (same_assignment (requester_id d) (provider_id d) (cycle_id d))
                (feedback_requests db)) eqn:Hex; simpl.
    + apply IH.
    + unfold createFeedbackRequest, bind, run_insert_feedback_request.
      destruct (storage_rejects d) eqn:Hrej; simpl.
      * rewrite set_feedback_requests_same. reflexivity.
      * rewrite IH. simpl. unfold request_row.
        destruct (place rest _ _ _) as [[requests seq] r]. reflexivity.
Qed.

Lemma place_app (xs ys : list CreateFeedbackRequestDTO)
    (assignments : list Assignment) (requests : list FeedbackRequest) (seq : Z) :
  place (xs ++ ys) assignments requests seq
  = match place xs assignments requests seq with
    | (requests', seq', Ok assignments') => place ys assignments' requests' seq'
    | (requests', seq', Err msg) => (requests', seq', Err msg)
    end.
Proof.
  revert assignments requests seq.
  induction xs as [|d xs IH]; intros; simpl.
  - reflexivity.
  - destruct (existsb _ requests); [apply IH|].
    destruct (storage_rejects d); [reflexivity|apply IH].
Qed.

Lemma assigned_app (requests more : list FeedbackRequest) d :
  assigned requests d = true -> assigned (requests ++ more) d = true.
Proof.
  unfold assigned. rewrite existsb_app. intros ->. reflexivity.
Qed.

(** Requests are only ever appended. *)
Lemma place_extends candidates assignments requests seq :
  exists more,
    fst (fst (place candidates assignments requests seq)) = requests ++ more.
Proof.
  revert assignments requests seq.
  induction candidates as [|d rest IH]; intros; simpl.
  - exists []. now rewrite app_nil_r.
  - destruct (existsb _ requests); [apply IH|].
    destruct (storage_rejects d); simpl.
    + exists []. now rewrite app_nil_r.
    + destruct (IH (assignments ++ [mkAssignment (seq + 1) d])
                  (requests ++ [request_row now (seq + 1) d]) (seq + 1)) as [more Hm].
      exists (request_row now (seq + 1) d :: more).
      rewrite Hm, <- app_assoc. reflexivity.
Qed.

Lemma place_keeps_assigned candidates assignments requests seq d :
  assigned requests d = true ->
  assigned (fst (fst (place candidates assignments requests seq))) d = true.
Proof.
  intros H.
  destruct (place_extends candidates assignments requests seq) as [more ->].
  now apply assigned_app.
Qed.

Lemma assigned_request_row requests seq d :
  assigned (requests ++ [request_row now seq d]) d = true.
Proof.
  unfold assigned. rewrite existsb_app. simpl.
  unfold same_assignment. simpl.
  rewrite !Z.eqb_refl, String.eqb_refl. simpl. apply orb_true_r.
Qed.

(** Running the same candidates again, from the table the first run left,
    creates nothing: it stops where the first run stopped, or goes through
    with no new assignment. *)
Lemma place_again candidates assignments requests seq assignments2 :
  let '(requests1, seq1, r1) := place candidates assignments requests seq in
  place candidates assignments2 requests1 seq1
  = (requests1, seq1,
     match r1 with Ok _ => Ok assignments2 | Err msg => Err msg end).
Proof.
  revert assignments requests seq.
  induction candidates as [|d rest IH]; intros assignments requests seq.
  - reflexivity.
  - simpl.
    destruct (existsb (same_assignment (requester_id d) (provider_id d) (cycle_id d))
                requests) eqn:Hex.
    + specialize (IH assignments requests seq).
      pose proof (place_keeps_assigned rest assignments requests seq d Hex) as Hk.
      destruct (place_requests now storage_rejects rest assignments requests seq)
        as [[requests1 seq1] r1].
      simpl in Hk. unfold assigned in Hk. simpl. rewrite Hk. exact IH.
    + destruct (storage_rejects d) eqn:Hrej.
      * simpl. rewrite Hex. reflexivity.
      * specialize (IH (assignments ++ [mkAssignment (seq + 1) d])
                      (requests ++ [request_row now (seq + 1) d]) (seq + 1)).
        pose proof (place_keeps_assigned rest
                      (assignments ++ [mkAssignment (seq + 1) d])
                      (requests ++ [request_row now (seq + 1) d]) (seq + 1) d
                      (assigned_request_row requests (seq + 1) d)) as Hk.
          destruct (place_requests now storage_rejects rest _ _ _)
          as [[requests1 seq1] r1].
        simpl in Hk. unfold assigned in Hk. simpl. rewrite Hk. exact IH.
Qed.
Lemma assigned_iff_key requests d :
  assigned requests d = true
  <-> In (requester_id d, provider_id d, cycle_id d) (map assignment_key requests).
Proof.
  unfold assigned. rewrite existsb_exists, in_map_iff.
  split; intros [r [H1 H2]]; exists r.
  - split; [|exact H1]. unfold same_assignment in H2.
    apply andb_prop in H2 as [H2 Hc]. apply andb_prop in H2 as [Hr Hp].
    apply Z.eqb_eq in Hr, Hp. apply String.eqb_eq in Hc.
    unfold assignment_key. congruence.
  - split; [exact H2|]. unfold assignment_key in H1. inversion H1; subst.
    unfold same_assignment. rewrite !Z.eqb_refl, String.eqb_refl. reflexivity.
Qed.

(** A gated creation never adds a second request for a (requester, provider,
    cycle) that is there. *)
Lemma place_unique candidates assignments requests seq :
  NoDup (map assignment_key requests) ->
  NoDup (map assignment_key (fst (fst (place candidates assignments requests seq)))).
Proof.
  revert assignments requests seq.
  induction candidates as [|d rest IH]; intros assignments requests seq Hnd; simpl.
  - exact Hnd.
  - destruct (existsb _ requests) eqn:Hex; [now apply IH|].
    destruct (storage_rejects d); [exact Hnd|].
    apply IH. rewrite map_app. simpl.
    apply NoDup_app_iff_snoc; [|exact Hnd].
    intros Hin. apply assigned_iff_key in Hin. unfold assigned in Hin. congruence.
Qed.
End GatedCreation.

(** ** What ranking does to the database *)

Section RankerEffects.
Variable now : Z.

Lemma insert_rankings_run (employeeId : Z) (rankings : list PeerRanker.PeerRanking)
    (db : DB) :
  for_of rankings
    (fun (_ : unit) ranking =>
       modify (fun db =>
         set_peer_rankings
           (peer_rankings db ++ [ranking_row now employeeId ranking]) db))
    tt db
  = (set_peer_rankings (peer_rankings db ++ map (ranking_row now employeeId) rankings) db,
     Ok tt).
Proof.
  revert db. induction rankings as [|r rest IH]; intros db; simpl.
  - rewrite app_nil_r. destruct db; reflexivity.
  - unfold bind, modify at 1. rewrite IH. simpl.
    rewrite <- app_assoc. reflexivity.
Qed.

Lemma rankPeers_run (employeeId : Z) (db : DB) :
  PeerRanker.rankPeers now employeeId db
  = (set_peer_rankings
       (filter (fun r => negb (pr_employee_id r =? employeeId)) (peer_rankings db)
        ++ fresh_rows now employeeId db) db,
     Ok (PeerRanker.computeRankings now employeeId db)).
Proof.
  unfold PeerRanker.rankPeers, PeerRanker.saveRankings, bind, gets, modify, ret.
  change (fun (_ : unit) (ranking : PeerRanker.PeerRanking) (db0 : DB) =>
            (set_peer_rankings
               (peer_rankings db0
                ++ [mkPeerRankingRow employeeId (PeerRanker.rk_peer_id ranking)
                      (PeerRanker.collaboration_score ranking)
                      (PeerRanker.rank_position ranking) now]) db0, Ok tt))
    with (fun (_ : unit) ranking =>
            modify (fun db =>
              set_peer_rankings
                (peer_rankings db ++ [ranking_row now employeeId ranking]) db)).
  rewrite insert_rankings_run. reflexivity.
Qed.

Lemma rankAllPeers_run (db : DB) :
  PeerRanker.rankAllPeers now db = (rerank now (map emp_id (employees db)) db, Ok tt).
Proof.
  unfold PeerRanker.rankAllPeers. unfold bind at 1. unfold gets.
  generalize (map emp_id (employees db)) as ids.
  intros ids. revert db.
  induction ids as [|i ids IH]; intros db; simpl.
  - reflexivity.
  - unfold bind. rewrite rankPeers_run. unfold ret.
    unfold bind in IH. rewrite IH. reflexivity.
Qed.

(** Ranking reads [collaborations] and writes [peer_rankings]; nothing else. *)
Lemma computeRankings_ext (employeeId : Z) (db db' : DB) :
  collaborations db = collaborations db' ->
  PeerRanker.computeRankings now employeeId db
  = PeerRanker.computeRankings now employeeId db'.
Proof.
  intros H. unfold PeerRanker.computeRankings, PeerRanker.query_collaborations.
  rewrite H. reflexivity.
Qed.

Lemma rerank_frame (ids : list Z) (db : DB) :
  employees (rerank now ids db) = employees db
  /\ collaborations (rerank now ids db) = collaborations db
  /\ feedback_cycles (rerank now ids db) = feedback_cycles db
  /\ feedback_requests (rerank now ids db) = feedback_requests db
  /\ feedback_requests_seq (rerank now ids db) = feedback_requests_seq db
  /\ feedback_responses (rerank now ids db) = feedback_responses db.
Proof.
  revert db. induction ids as [|i ids IH]; intros db.
  - repeat split.
  - unfold rerank. simpl. rewrite rankPeers_run. simpl.
    fold (rerank now ids
            (set_peer_rankings
               (filter (fun r => negb (pr_employee_id r =? i)) (peer_rankings db)
                ++ fresh_rows now i db) db)).
    destruct (IH (set_peer_rankings
               (filter (fun r => negb (pr_employee_id r =? i)) (peer_rankings db)
                ++ fresh_rows now i db) db)) as (H1 & H2 & H3 & H4 & H5 & H6).
    rewrite H1, H2, H3, H4, H5, H6. repeat split.
Qed.

Lemma rows_of_fresh_rows (e i : Z) (db : DB) :
  rows_of e (fresh_rows now i db) = if i =? e then fresh_rows now i db else [].
Proof.
  unfold rows_of, fresh_rows.
  induction (PeerRanker.computeRankings now i db) as [|r l IH]; simpl.
  - now destruct (i =? e).
  - rewrite IH. destruct (i =? e); reflexivity.
Qed.

Lemma rows_of_delete (e i : Z) (rows : list PeerRankingRow) :
  rows_of e (filter (fun r => negb (pr_employee_id r =? i)) rows)
  = if i =? e then [] else rows_of e rows.
Proof.
  unfold rows_of. induction rows as [|r rows IH]; simpl.
  - now destruct (i =? e).
  - destruct (pr_employee_id r =? i) eqn:Hi; simpl.
    + rewrite IH. destruct (i =? e) eqn:He; [reflexivity|].
      apply Z.eqb_eq in Hi. rewrite Hi, He. reflexivity.
    + destruct (pr_employee_id r =? e) eqn:Hre; rewrite IH.
      * destruct (i =? e) eqn:He; [|reflexivity].
        apply Z.eqb_eq in He, Hre. apply Z.eqb_neq in Hi. congruence.
      * reflexivity.
Qed.

(** After [rankAllPeers] the rows of every employee it visited are the rows
    computed from the interaction data; the rows of other ids are as before. *)
Lemma rerank_rows (ids : list Z) (db : DB) (e : Z) :
  rows_of e (peer_rankings (rerank now ids db))
  = if existsb (Z.eqb e) ids then fresh_rows now e db
    else rows_of e (peer_rankings db).
Proof.
  revert db. induction ids as [|i ids IH]; intros db.
  - reflexivity.
  - unfold rerank. simpl. rewrite rankPeers_run. simpl.
    fold (rerank now ids
            (set_peer_rankings
               (filter (fun r => negb (pr_employee_id r =? i)) (peer_rankings db)
                ++ fresh_rows now i db) db)).
    rewrite IH. simpl.
    destruct (existsb (Z.eqb e) ids) eqn:Hin.
    + rewrite orb_true_r. unfold fresh_rows.
      erewrite computeRankings_ext; [reflexivity|reflexivity].
    + rewrite orb_false_r. unfold rows_of at 1. rewrite filter_app.
      fold (rows_of e (filter (fun r => negb (pr_employee_id r =? i)) (peer_rankings db))).
      fold (rows_of e (fresh_rows now i db)).
      rewrite rows_of_delete, rows_of_fresh_rows.
      rewrite (Z.eqb_sym e i).
      destruct (i =? e) eqn:Hie.
      * apply Z.eqb_eq in Hie. subst. reflexivity.
      * now rewrite app_nil_r.
Qed.
End RankerEffects.

(** ** A run of [assignFeedbackRequests], candidate by candidate *)

Section AssignmentRun.
Variable now : Z.
Variable storage_rejects : FeedbackAssigner.CreateFeedbackRequestDTO -> bool.

Import FeedbackAssigner.

Local Notation "'place'" := (place_requests now storage_rejects) (only parsing).
Local Notation "'gated'" :=
  (fun a d => gated_create now storage_rejects d a) (only parsing).

Lemma peer_candidates_ext cycleId cycle peersPerEmployee employee (db db' : DB) :
  employees db = employees db' ->
  feedback_responses db = feedback_responses db' ->
  rows_of (emp_id employee) (peer_rankings db)
  = rows_of (emp_id employee) (peer_rankings db') ->
  peer_candidates now cycleId cycle peersPerEmployee employee db
  = peer_candidates now cycleId cycle peersPerEmployee employee db'.
Proof.
  intros He Hr Hrows.
  unfold peer_candidates, selected_peers.
  unfold PeerRanker.getRankedPeers, filterRecentFeedback, gets, bind, ret.
  unfold rows_of in Hrows. rewrite He, Hr, Hrows. reflexivity.
Qed.

Lemma candidates_of_ext cycleId cycle peersPerEmployee include360 employee (db db' : DB) :
  employees db = employees db' ->
  feedback_responses db = feedback_responses db' ->
  rows_of (emp_id employee) (peer_rankings db)
  = rows_of (emp_id employee) (peer_rankings db') ->
  candidates_of now cycleId cycle peersPerEmployee include360 db employee
  = candidates_of now cycleId cycle peersPerEmployee include360 db' employee.
Proof.
  intros He Hr Hrows. unfold candidates_of.
  rewrite (peer_candidates_ext _ _ _ _ db db' He Hr Hrows).
  unfold report_candidates. rewrite He. reflexivity.
Qed.

Lemma gated_loop_frame candidates assignments db :
  let db' := fst (for_of candidates gated assignments db) in
  employees db' = employees db
  /\ collaborations db' = collaborations db
  /\ peer_rankings db' = peer_rankings db
  /\ feedback_cycles db' = feedback_cycles db
  /\ feedback_responses db' = feedback_responses db.
Proof.
  rewrite gated_loop_place.
  destruct (place candidates assignments _ _) as [[requests seq] r].
  simpl. repeat split.
Qed.

Lemma bind_ret_r {A} (m : M A) (db : DB) : bind m (fun a => ret a) db = m db.
Proof. unfold bind. destruct (m db) as [db' [a|msg]]; reflexivity. Qed.

Lemma assignForEmployee_unfold cycleId cycle peersPerEmployee include360
    assignments employee db :
  assignForEmployee now storage_rejects cycleId cycle peersPerEmployee include360
    assignments employee db
  = (assignments <-
       for_of (selected_peers now peersPerEmployee employee db)
         (fun assignments peer =>
            gated_create now storage_rejects
              (mkDTO (emp_id employee) (pr_peer_id peer) cycleId "peer"
                 (cyc_end_date cycle)) assignments)
         assignments ;;
     if include360 then
       assignments <-
         match emp_manager_id employee with
         | Some manager_id =>
             if truthy (Some manager_id) then
               gated_create now storage_rejects
                 (mkDTO (emp_id employee) manager_id cycleId "manager"
                    (cyc_end_date cycle)) assignments
             else ret assignments
         | None => ret assignments
         end ;;
       if negb (emp_is_manager employee =? 0) then
         reports <-
           gets (fun db =>
             map emp_id
               (filter (fun e => match emp_manager_id e with
                                 | Some m => m =? emp_id employee
                                 | None => false
                                 end)
                  (employees db))) ;;
         for_of reports
           (fun assignments report =>
              gated_create now storage_rejects
                (mkDTO (emp_id employee) report cycleId "upward"
                   (cyc_end_date cycle)) assignments)
           assignments
       else ret assignments
     else ret assignments) db.
Proof. reflexivity. Qed.

Lemma manager_gated cycleId cycle assignments employee db :
  match emp_manager_id employee with
  | Some manager_id =>
      if truthy (Some manager_id) then
        gated_create now storage_rejects
          (mkDTO (emp_id employee) manager_id cycleId "manager"
             (cyc_end_date cycle)) assignments
      else ret assignments
  | None => ret assignments
  end db
  = for_of (manager_candidates cycleId cycle employee) gated assignments db.
Proof.
  unfold manager_candidates.
  destruct (emp_manager_id employee) as [m|]; [|reflexivity].
  destruct (truthy (Some m)); [|reflexivity].
  cbn [for_of]. rewrite bind_ret_r. reflexivity.
Qed.

Lemma reports_gated cycleId cycle assignments employee db0 db :
  employees db = employees db0 ->
  (if negb (emp_is_manager employee =? 0) then
     reports <-
       gets (fun db =>
         map emp_id
           (filter (fun e => match emp_manager_id e with
                             | Some m => m =? emp_id employee
                             | None => false
                             end)
              (employees db))) ;;
     for_of reports
       (fun assignments report =>
          gated_create now storage_rejects
            (mkDTO (emp_id employee) report cycleId "upward"
               (cyc_end_date cycle)) assignments)
       assignments
   else ret assignments) db
  = for_of (report_candidates cycleId cycle employee db0) gated assignments db.
Proof.
  intros He. unfold report_candidates.
  destruct (negb (emp_is_manager employee =? 0)); [|reflexivity].
  unfold bind at 1, gets. rewrite He, !for_of_map. reflexivity.
Qed.

Lemma assignForEmployee_gated cycleId cycle peersPerEmployee include360
    assignments employee db :
  assignForEmployee now storage_rejects cycleId cycle peersPerEmployee include360
    assignments employee db
  = for_of (candidates_of now cycleId cycle peersPerEmployee include360 db employee)
      gated assignments db.
Proof.
  rewrite assignForEmployee_unfold.
  unfold candidates_of. rewrite for_of_app.
  pose proof (gated_loop_frame
                (peer_candidates now cycleId cycle peersPerEmployee employee db)
                assignments db) as Hf1.
  unfold bind at 1. unfold peer_candidates in *. rewrite for_of_map in *.
  match goal with
  | |- context [for_of ?l ?b assignments db] =>
      destruct (for_of l b assignments db) as [db1 [a|msg]]
  end; [|reflexivity].
  simpl in Hf1. destruct Hf1 as (He1 & _).
  destruct include360; [|reflexivity].
  rewrite for_of_app.
  pose proof (gated_loop_frame (manager_candidates cycleId cycle employee) a db1) as Hf2.
  unfold bind at 1. rewrite manager_gated.
  destruct (for_of (manager_candidates cycleId cycle employee) gated a db1)
    as [db2 [a2|msg]]; [|reflexivity].
  simpl in Hf2. destruct Hf2 as (He2 & _).
  rewrite (reports_gated cycleId cycle a2 employee db db2) by congruence.
  reflexivity.
Qed.

(** The whole loop over the employees is one pass over all the candidates. *)
Lemma employees_loop_place cycleId cycle peersPerEmployee include360
    (emps : list Employee) assignments db0 db :
  employees db = employees db0 ->
  feedback_responses db = feedback_responses db0 ->
  peer_rankings db = peer_rankings db0 ->
  for_of emps
    (assignForEmployee now storage_rejects cycleId cycle peersPerEmployee include360)
    assignments db
  = let '(requests, seq, r) :=
      place
        (flat_map (candidates_of now cycleId cycle peersPerEmployee include360 db0) emps)
        assignments (feedback_requests db) (feedback_requests_seq db) in
    (set_feedback_requests requests seq db, r).
Proof.
  revert assignments db.
  induction emps as [|e emps IH]; intros assignments db He Hr Hp.
  - simpl. rewrite set_feedback_requests_same. reflexivity.
  - cbn [for_of flat_map]. unfold bind at 1.
    rewrite assignForEmployee_gated, gated_loop_place.
    rewrite place_app.
    rewrite (candidates_of_ext cycleId cycle peersPerEmployee include360 e db db0)
      by (assumption || now rewrite Hp).
    destruct (place (candidates_of now cycleId cycle peersPerEmployee include360 db0 e)
                assignments (feedback_requests db) (feedback_requests_seq db))
      as [[requests1 seq1] [a1|msg]]; [|reflexivity].
    rewrite IH by assumption. simpl.
    destruct (place _ a1 requests1 seq1) as [[requests2 seq2] r2]. reflexivity.
Qed.
End AssignmentRun.

Section AssignmentWhole.
Variable now : Z.
Variable storage_rejects : FeedbackAssigner.CreateFeedbackRequestDTO -> bool.

Import FeedbackAssigner.

Local Notation "'place'" := (place_requests now storage_rejects) (only parsing).

(** [assignFeedbackRequests] in one piece: the rankings are recomputed, the
    cycle is looked up, and the candidates are placed one after the other. *)
Lemma assignFeedbackRequests_run cycleId peersPerEmployee include360 db :
  assignFeedbackRequests now storage_rejects cycleId peersPerEmployee include360 db
  = let ranked := rerank now (map emp_id (employees db)) db in
    match find (fun c => String.eqb (cyc_id c) cycleId) (feedback_cycles db) with
    | None => (ranked, Err "Cycle not found")
    | Some cycle =>
        let '(requests, seq, r) :=
          place (all_candidates now cycleId cycle peersPerEmployee include360 db) []
            (feedback_requests db) (feedback_requests_seq db) in
        (set_feedback_requests requests seq ranked, r)
    end.
Proof.
  unfold assignFeedbackRequests. unfold bind at 1. rewrite rankAllPeers_run.
  unfold bind at 1, getCycle, gets at 1.
  destruct (rerank_frame now (map emp_id (employees db)) db)
    as (He & Hc & Hcy & Hrq & Hsq & Hrs).
  rewrite Hcy. cbv zeta.
  destruct (find _ (feedback_cycles db)) as [cycle|]; [|reflexivity].
  unfold bind at 1, gets at 1.
  rewrite (employees_loop_place now storage_rejects cycleId cycle peersPerEmployee
             include360 _ [] (rerank now (map emp_id (employees db)) db))
    by reflexivity.
  rewrite He, Hrq, Hsq. reflexivity.
Qed.

Lemma flat_map_ext_in {A B} (f g : A -> list B) (l : list A) :
  (forall a, In a l -> f a = g a) -> flat_map f l = flat_map g l.
Proof.
  induction l as [|a l IH]; intros H; simpl.
  - reflexivity.
  - rewrite (H a) by now left. rewrite IH; [reflexivity|].
    intros b Hb. apply H. now right.
Qed.

(** The candidates depend on the employees, the interaction data and the
    responses: not on the requests, nor on the rankings stored before. *)
Lemma all_candidates_ext cycleId cycle peersPerEmployee include360 (db db' : DB) :
  employees db = employees db' ->
  collaborations db = collaborations db' ->
  feedback_responses db = feedback_responses db' ->
  all_candidates now cycleId cycle peersPerEmployee include360 db
  = all_candidates now cycleId cycle peersPerEmployee include360 db'.
Proof.
  intros He Hc Hr. unfold all_candidates. rewrite <- He.
  apply flat_map_ext_in. intros e Hin.
  destruct (rerank_frame now (map emp_id (employees db)) db)
    as (He1 & _ & _ & _ & _ & Hr1).
  destruct (rerank_frame now (map emp_id (employees db)) db')
    as (He2 & _ & _ & _ & _ & Hr2).
  apply candidates_of_ext.
  - congruence.
  - congruence.
  - rewrite !rerank_rows.
    assert (Hex : existsb (Z.eqb (emp_id e)) (map emp_id (employees db)) = true).
    { apply existsb_exists. exists (emp_id e). split.
      - now apply in_map.
      - apply Z.eqb_refl. }
    rewrite Hex. unfold fresh_rows.
    rewrite (computeRankings_ext now (emp_id e) db db' Hc). reflexivity.
Qed.
End AssignmentWhole.

(** ** The assignment engine: the claims *)

(** C1 (idempotence).  Calling [assignFeedbackRequests] a second time for the
    same cycle and configuration, with the clock, the storage behaviour and
    all other state as the first call left them, leaves [feedback_requests]
    as the first call left it: the second call creates no request.  It returns
    the empty list of created requests when the first call returned, and
    fails as the first call did otherwise. *)
Theorem assignFeedbackRequests_idempotent
    (now : Z) (storage_rejects : FeedbackAssigner.CreateFeedbackRequestDTO -> bool)
    (cycleId : string) (peersPerEmployee : Z) (include360 : bool) (db : DB) :
  let run :=
    FeedbackAssigner.assignFeedbackRequests now storage_rejects cycleId
      peersPerEmployee include360 in
  feedback_requests (fst (run (fst (run db)))) = feedback_requests (fst (run db))
  /\ snd (run (fst (run db)))
     = match snd (run db) with
       | Ok _ => Ok []
       | Err msg => Err msg
       end.
Proof.
  cbv zeta. rewrite !assignFeedbackRequests_run. cbv zeta.
  destruct (rerank_frame now (map emp_id (employees db)) db)
    as (He & Hc & Hcy & Hrq & Hsq & Hrs).
  destruct (find (fun c => String.eqb (cyc_id c) cycleId) (feedback_cycles db))
    as [cycle|] eqn:Hfind.
  - pose proof (place_again now storage_rejects
                  (all_candidates now cycleId cycle peersPerEmployee include360 db)
                  [] (feedback_requests db) (feedback_requests_seq db) []) as Hagain.
    destruct (place_requests now storage_rejects
                (all_candidates now cycleId cycle peersPerEmployee include360 db)
                [] (feedback_requests db) (feedback_requests_seq db))
      as [[requests1 seq1] r1].
    cbn [fst snd set_feedback_requests feedback_cycles employees
         feedback_requests feedback_requests_seq].
    rewrite Hcy, Hfind.
    rewrite (all_candidates_ext now cycleId cycle peersPerEmployee include360
               (set_feedback_requests requests1 seq1
                  (rerank now (map emp_id (employees db)) db)) db)
      by (simpl; assumption).
    rewrite Hagain. cbn [fst snd set_feedback_requests feedback_requests].
    split; reflexivity.
  - cbn [fst snd]. rewrite Hcy, Hfind. cbn [fst snd].
    destruct (rerank_frame now
                (map emp_id (employees (rerank now (map emp_id (employees db)) db)))
                (rerank now (map emp_id (employees db)) db))
      as (_ & _ & _ & Hrq2 & _ & _).
    rewrite Hrq2. split; reflexivity.
Qed.

(** C4, as the code has it.  [assignFeedbackRequests] starts by calling
    [rankAllPeers]: after a run, found cycle or not, [peer_rankings] holds
    what [rankAllPeers] alone stores from the state before the run; the
    assignment loop itself changes no ranking. *)
Theorem assignFeedbackRequests_reranks
    (now : Z) (storage_rejects : FeedbackAssigner.CreateFeedbackRequestDTO -> bool)
    (cycleId : string) (peersPerEmployee : Z) (include360 : bool) (db : DB) :
  peer_rankings
    (fst (FeedbackAssigner.assignFeedbackRequests now storage_rejects cycleId
            peersPerEmployee include360 db))
  = peer_rankings (fst (PeerRanker.rankAllPeers now db)).
Proof.
  rewrite assignFeedbackRequests_run, rankAllPeers_run. cbv zeta.
  destruct (find _ (feedback_cycles db)) as [cycle|]; [|reflexivity].
  destruct (place_requests _ _ _ _ _ _) as [[requests seq] r]. reflexivity.
Qed.

(** C4, as the specification has it, fails: with interaction data and no
    stored ranking yet, a run stores rankings. *)
Lemma rankings_untouched_fails :
  ~ rankings_untouched Scenario.now Scenario.storage_ok "cycle_1" 2 false Scenario.db.
Proof.
  unfold rankings_untouched. vm_compute. discriminate.
Qed.




(** C6 fails on the code.  After [recordInteraction(1, 1, 'chat')], and also
    when employee 1 is entered as their own manager, a run creates a request
    whose requester and provider are both employee 1. *)
Theorem assignFeedbackRequests_self_assignment :
  feedback_requests
    (fst (FeedbackAssigner.assignFeedbackRequests Scenario.now Scenario.storage_ok
            "cycle_1" 2 false Scenario.self_interaction_db))
  = [mkFeedbackRequest 1 1 1 "cycle_1" "peer" "pending" Scenario.now
       (cyc_end_date Scenario.cycle) None 0 None]
  /\ feedback_requests
       (fst (FeedbackAssigner.assignFeedbackRequests Scenario.now Scenario.storage_ok
               "cycle_1" 2 true Scenario.self_manager_db))
     = [mkFeedbackRequest 1 1 1 "cycle_1" "manager" "pending" Scenario.now
          (cyc_end_date Scenario.cycle) None 0 None]
  /\ ~ no_self_assignment
         (fst (FeedbackAssigner.assignFeedbackRequests Scenario.now Scenario.storage_ok
                 "cycle_1" 2 false Scenario.self_interaction_db)).
Proof.
  split; [|split].
  - vm_compute. reflexivity.
  - vm_compute. reflexivity.
  - intros H.
    apply (H (mkFeedbackRequest 1 1 1 "cycle_1" "peer" "pending" Scenario.now
                (cyc_end_date Scenario.cycle) None 0 None)).
    + vm_compute. left. reflexivity.
    + reflexivity.
Qed.

(** C7 (uniqueness).  When no two requests share requester, provider and
    cycle before a run of [assignFeedbackRequests], none do after it, whether
    the run returns or fails on the way. *)
Theorem assignFeedbackRequests_keeps_unique
    (now : Z) (storage_rejects : FeedbackAssigner.CreateFeedbackRequestDTO -> bool)
    (cycleId : string) (peersPerEmployee : Z) (include360 : bool) (db : DB) :
  unique_assignments db ->
  unique_assignments
    (fst (FeedbackAssigner.assignFeedbackRequests now storage_rejects cycleId
            peersPerEmployee include360 db)).
Proof.
  unfold unique_assignments. intros Hu.
  rewrite assignFeedbackRequests_run. cbv zeta.
  destruct (rerank_frame now (map emp_id (employees db)) db)
    as (_ & _ & _ & Hrq & _ & _).
  destruct (find _ (feedback_cycles db)) as [cycle|].
  - pose proof (place_unique now storage_rejects
                  (all_candidates now cycleId cycle peersPerEmployee include360 db)
                  [] (feedback_requests db) (feedback_requests_seq db) Hu) as Hp.
    destruct (place_requests _ _ _ _ _ _) as [[requests seq] r]. exact Hp.
  - cbn [fst]. rewrite Hrq. exact Hu.
Qed.

Lemma assignFeedbackRequests_keeps_unique_witness :
  unique_assignments Scenario.db
  /\ unique_assignments
       (fst (FeedbackAssigner.assignFeedbackRequests Scenario.now Scenario.storage_ok
               "cycle_1" 2 true Scenario.db)).
Proof.
  assert (H : unique_assignments Scenario.db) by (vm_compute; constructor).
  split; [exact H|].
  apply (assignFeedbackRequests_keeps_unique Scenario.now Scenario.storage_ok
           "cycle_1" 2 true Scenario.db H).
Defined.

(** ** Request status and cycle statistics *)

(** C10.  [updateRequestStatus(requestId, status)] returns, rewrites the
    request with that id and no other row or table: the request gets the
    status given; its [completed_at] becomes the current time when the status
    is ['completed'], and stays what it was for any other status; its other
    columns stay. *)
Theorem updateRequestStatus_effect (now requestId : Z) (status : string) (db : DB) :
  let db' := fst (FeedbackAssigner.updateRequestStatus now requestId status db) in
  snd (FeedbackAssigner.updateRequestStatus now requestId status db) = Ok tt
  /\ Forall2
       (fun r r' =>
          (req_id r <> requestId -> r' = r)
          /\ (req_id r = requestId ->
              req_status r' = status
              /\ (status = "completed" -> req_completed_at r' = Some now)
              /\ (status <> "completed" -> req_completed_at r' = req_completed_at r)
              /\ same_but_status r r'))
       (feedback_requests db) (feedback_requests db')
  /\ employees db' = employees db
  /\ collaborations db' = collaborations db
  /\ peer_rankings db' = peer_rankings db
  /\ feedback_cycles db' = feedback_cycles db
  /\ feedback_requests_seq db' = feedback_requests_seq db
  /\ feedback_responses db' = feedback_responses db.
Proof.
  cbv zeta. unfold FeedbackAssigner.updateRequestStatus, modify.
  cbn [fst snd set_feedback_requests feedback_requests employees collaborations
       peer_rankings feedback_cycles feedback_requests_seq feedback_responses].
  split; [reflexivity|]. split; [|repeat split].
  induction (feedback_requests db) as [|r rows IH]; simpl.
  - constructor.
  - constructor; [|exact IH].
    destruct (req_id r =? requestId) eqn:Hid.
    + apply Z.eqb_eq in Hid. split; [intros; contradiction|]. intros _.
      cbn. split; [reflexivity|]. split; [|split].
      * intros ->. reflexivity.
      * intros Hne. apply String.eqb_neq in Hne. rewrite Hne. reflexivity.
      * repeat split.
    + apply Z.eqb_neq in Hid. split; [reflexivity|]. intros; contradiction.
Qed.

Lemma sum_indicator_count (status : string) (rows : list FeedbackRequest) (acc : Z) :
  fold_left Z.add
    (map (fun r => if String.eqb (req_status r) status then 1 else 0) rows) acc
  = acc + count_status status rows.
Proof.
  unfold count_status. revert acc.
  induction rows as [|r rows IH]; intros acc; cbn [map fold_left filter].
  - simpl. lia.
  - rewrite IH. destruct (String.eqb (req_status r) status).
    + cbn [List.length]. rewrite Nat2Z.inj_succ. lia.
    + lia.
Qed.

Lemma sum_case_status_count (status : string) (rows : list FeedbackRequest) :
  rows <> [] ->
  FeedbackAssigner.sum_case_status status rows = Some (count_status status rows).
Proof.
  intros Hne. unfold FeedbackAssigner.sum_case_status, sql_sum.
  destruct (map _ rows) as [|x xs] eqn:E.
  - destruct rows; [contradiction|discriminate].
  - rewrite <- E, sum_indicator_count. reflexivity.
Qed.





(** ** Closing cycles *)

Section CycleClosing.
Variable now : Z.

Lemma shouldClose_ext (cycle : FeedbackCycle) (db db' : DB) :
  feedback_requests db = feedback_requests db' ->
  ReminderSystem.shouldClose now cycle db = ReminderSystem.shouldClose now cycle db'.
Proof.
  intros H. unfold ReminderSystem.shouldClose. rewrite H. reflexivity.
Qed.

Lemma nine_tenths_completed (completed total : Z) :
  0 < total ->
  Qle_bool (9 # 10) (inject_Z completed / inject_Z total) = true
  <-> 9 * total <= 10 * completed.
Proof.
  intros Ht. rewrite Qle_bool_iff.
  destruct total as [|p|p]; try lia.
  unfold Qle, Qdiv, Qmult, Qinv. cbn [Qnum Qden inject_Z].
  rewrite Pos.mul_1_l. lia.
Qed.

Lemma days_past_end (elapsed : Z) :
  (7 <=? Math_ceil_div elapsed (1000 * 60 * 60 * 24)) = true
  <-> 6 * (1000 * 60 * 60 * 24) < elapsed.
Proof.
  unfold Math_ceil_div. change (1000 * 60 * 60 * 24) with 86400000.
  rewrite Z.leb_le.
  pose proof (Z.div_mod (- elapsed) 86400000 ltac:(lia)) as Hdm.
  pose proof (Z.mod_pos_bound (- elapsed) 86400000 ltac:(lia)) as Hb.
  lia.
Qed.

(** The test of the loop body, in plain arithmetic. *)
Lemma shouldClose_iff (cycle : FeedbackCycle) (db : DB) :
  let rows := requests_of_cycle (cyc_id cycle) db in
  ReminderSystem.shouldClose now cycle db = true
  <-> (rows <> [] /\ 9 * Z.of_nat (List.length rows) <= 10 * count_status "completed" rows)
      \/ 6 * (1000 * 60 * 60 * 24) < now - cyc_end_date cycle.
Proof.
  cbv zeta. unfold ReminderSystem.shouldClose.
  fold (requests_of_cycle (cyc_id cycle) db).
  rewrite orb_true_iff, days_past_end.
  apply or_iff_compat_r.
  destruct (requests_of_cycle (cyc_id cycle) db) as [|r rows] eqn:Hrows.
  - simpl. split; [discriminate|]. intros [H _]. contradiction.
  - rewrite sum_case_status_count by discriminate.
    unfold ReminderSystem.js_div.
    assert (Hpos : 0 < Z.of_nat (List.length (r :: rows)))
      by (cbn [List.length]; lia).
    destruct (Z.of_nat (List.length (r :: rows)) =? 0) eqn:Hz;
      [apply Z.eqb_eq in Hz; lia|].
    unfold ReminderSystem.js_ge. rewrite nine_tenths_completed by exact Hpos.
    split; [intros H; split; [discriminate|exact H]|intros [_ H]; exact H].
Qed.

Lemma set_feedback_cycles_same (db : DB) :
  set_feedback_cycles (feedback_cycles db) db = db.
Proof. destruct db; reflexivity. Qed.

(** The loop of [autoCloseCycles] rewrites every cycle whose id is the id of
    an ended cycle that passes the test. *)
Lemma close_loop (ended : list FeedbackCycle) (db0 db : DB) :
  feedback_requests db = feedback_requests db0 ->
  for_of ended
    (fun (_ : unit) cycle =>
       close <- gets (ReminderSystem.shouldClose now cycle) ;;
       if close then ReminderSystem.update_cycle_status "completed" (cyc_id cycle)
       else ret tt)
    tt db
  = (set_feedback_cycles
       (map (fun c =>
               if existsb (fun e => ReminderSystem.shouldClose now e db0
                                    && String.eqb (cyc_id c) (cyc_id e)) ended
               then with_status "completed" c else c)
          (feedback_cycles db)) db,
     Ok tt).
Proof.
  revert db. induction ended as [|e ended IH]; intros db Hreq.
  - simpl. rewrite map_id. rewrite set_feedback_cycles_same. reflexivity.
  - cbn [for_of]. unfold bind at 1. unfold bind at 1. unfold gets at 1.
    rewrite (shouldClose_ext e db db0 Hreq).
    destruct (ReminderSystem.shouldClose now e db0) eqn:Hclose.
    + unfold ReminderSystem.update_cycle_status, modify.
      rewrite IH by exact Hreq.
      unfold set_feedback_cycles.
      cbn [feedback_cycles employees collaborations
           peer_rankings feedback_requests feedback_requests_seq feedback_responses].
      rewrite map_map. f_equal. f_equal. apply map_ext. intros c.
      cbn [existsb]. rewrite Hclose. cbn [andb].
      destruct (String.eqb (cyc_id c) (cyc_id e)) eqn:Hid.
      * cbn [orb with_status cyc_id].
        destruct (existsb _ ended); reflexivity.
      * cbn [orb]. reflexivity.
    + unfold ret at 1. rewrite IH by exact Hreq.
      f_equal. f_equal. apply map_ext. intros c.
      cbn [existsb]. rewrite Hclose. reflexivity.
Qed.

Lemma NoDup_map_inj {A B} (f : A -> B) (l : list A) (a b : A) :
  NoDup (map f l) -> In a l -> In b l -> f a = f b -> a = b.
Proof.
  induction l as [|x l IH]; intros Hnd Ha Hb Hf; [contradiction|].
  simpl in Hnd. inversion Hnd as [|? ? Hx Hl]; subst.
  destruct Ha as [<-|Ha], Hb as [<-|Hb].
  - reflexivity.
  - exfalso. apply Hx. rewrite Hf. now apply in_map.
  - exfalso. apply Hx. rewrite <- Hf. now apply in_map.
  - now apply IH.
Qed.

Lemma Forall2_map_in {A} (P : A -> A -> Prop) (f : A -> A) (l : list A) :
  (forall a, In a l -> P a (f a)) -> Forall2 P l (map f l).
Proof.
  induction l as [|a l IH]; intros H; simpl; constructor.
  - apply H. now left.
  - apply IH. intros b Hb. apply H. now right.
Qed.

Lemma closes_iff_selected (db : DB) (c : FeedbackCycle) :
  NoDup (map cyc_id (feedback_cycles db)) ->
  In c (feedback_cycles db) ->
  existsb (fun e => ReminderSystem.shouldClose now e db
                    && String.eqb (cyc_id c) (cyc_id e))
    (filter (fun c => String.eqb (cyc_status c) "active" && (cyc_end_date c <? now))
       (feedback_cycles db)) = true
  <-> closes now db c.
Proof.
  intros Hnd Hc. rewrite existsb_exists. unfold closes. cbv zeta.
  rewrite <- shouldClose_iff. split.
  - intros [e [He Hs]]. apply filter_In in He as [He Hf].
    apply andb_prop in Hs as [Hs Hid]. apply String.eqb_eq in Hid.
    assert (c = e) by (eapply NoDup_map_inj; eauto). subst e.
    apply andb_prop in Hf as [Ha Hd].
    apply String.eqb_eq in Ha. apply Z.ltb_lt in Hd. auto.
  - intros (Ha & Hd & Hs). exists c. split.
    + apply filter_In. split; [exact Hc|].
      apply String.eqb_eq in Ha. apply Z.ltb_lt in Hd. now rewrite Ha, Hd.
    + rewrite Hs, String.eqb_refl. reflexivity.
Qed.
End CycleClosing.

Lemma autoCloseCycles_run (now : Z) (db : DB) :
  ReminderSystem.autoCloseCycles now db
  = (set_feedback_cycles
       (map (fun c =>
               if existsb (fun e => ReminderSystem.shouldClose now e db
                                    && String.eqb (cyc_id c) (cyc_id e))
                    (filter (fun c => String.eqb (cyc_status c) "active"
                                      && (cyc_end_date c <? now))
                       (feedback_cycles db))
               then with_status "completed" c else c)
          (feedback_cycles db)) db,
     Ok tt).
Proof.
  unfold ReminderSystem.autoCloseCycles. unfold bind at 1. unfold gets at 1.
  apply close_loop. reflexivity.
Qed.

(** [autoCloseCycles] returns and writes nothing but the status of cycles:
    with cycle ids unique, the cycles that satisfy [closes] are marked
    completed and the others are left as they are. *)
Lemma autoCloseCycles_effect (now : Z) (db : DB) :
  NoDup (map cyc_id (feedback_cycles db)) ->
  let db' := fst (ReminderSystem.autoCloseCycles now db) in
  snd (ReminderSystem.autoCloseCycles now db) = Ok tt
  /\ Forall2
       (fun c c' =>
          (closes now db c -> c' = with_status "completed" c)
          /\ (~ closes now db c -> c' = c))
       (feedback_cycles db) (feedback_cycles db')
  /\ employees db' = employees db
  /\ collaborations db' = collaborations db
  /\ peer_rankings db' = peer_rankings db
  /\ feedback_requests db' = feedback_requests db
  /\ feedback_requests_seq db' = feedback_requests_seq db
  /\ feedback_responses db' = feedback_responses db.
Proof.
  intros Hnd. cbv zeta. rewrite autoCloseCycles_run.
  cbn [fst snd set_feedback_cycles feedback_cycles employees collaborations
       peer_rankings feedback_requests feedback_requests_seq feedback_responses].
  split; [reflexivity|]. split; [|repeat split].
  apply Forall2_map_in. intros c Hc.
  pose proof (closes_iff_selected now db c Hnd Hc) as Hiff.
  destruct (existsb _ _) eqn:Hsel.
  - split; [reflexivity|]. intros Hn. exfalso. apply Hn. apply Hiff. reflexivity.
  - split; [|reflexivity]. intros H. apply Hiff in H. discriminate.
Qed.

Lemma Forall2_status_step_refl (l : list FeedbackCycle) : Forall2 status_step l l.
Proof. induction l; constructor; [now left|assumption]. Qed.

Lemma cycles_step_same (db db' : DB) :
  feedback_cycles db' = feedback_cycles db -> cycles_step db db'.
Proof.
  intros H. exists (feedback_cycles db), []. rewrite H, app_nil_r.
  split; [reflexivity|]. split; [apply Forall2_status_step_refl|constructor].
Qed.

Lemma assignFeedbackRequests_cycles now storage_rejects cycleId peersPerEmployee
    include360 db :
  feedback_cycles
    (fst (FeedbackAssigner.assignFeedbackRequests now storage_rejects cycleId
            peersPerEmployee include360 db))
  = feedback_cycles db.
Proof.
  rewrite assignFeedbackRequests_run. cbv zeta.
  destruct (rerank_frame now (map emp_id (employees db)) db)
    as (_ & _ & Hcy & _ & _ & _).
  destruct (find _ (feedback_cycles db)) as [cycle|]; [|exact Hcy].
  destruct (place_requests _ _ _ _ _ _) as [[requests seq] r]. exact Hcy.
Qed.

(** Every operation keeps the cycle ids unique and moves no status but from
    active to completed. *)
Lemma perform_cycles now storage_rejects (op : Operation) (db : DB) :
  NoDup (map cyc_id (feedback_cycles db)) ->
  NoDup (map cyc_id (feedback_cycles (perform now storage_rejects op db)))
  /\ cycles_step db (perform now storage_rejects op db).
Proof.
  intros Hnd.
  assert (Hsame : forall db', feedback_cycles db' = feedback_cycles db ->
            NoDup (map cyc_id (feedback_cycles db')) /\ cycles_step db db').
  { intros db' H. split; [now rewrite H|now apply cycles_step_same]. }
  destruct op; cbn [perform].
  - apply Hsame. reflexivity.
  - apply Hsame. rewrite rankPeers_run. reflexivity.
  - apply Hsame. rewrite rankAllPeers_run. apply rerank_frame.
  - unfold FeedbackAssigner.createCycle.
    destruct (existsb _ (feedback_cycles db)) eqn:Hex.
    + apply Hsame. reflexivity.
    + cbn [fst set_feedback_cycles feedback_cycles]. split.
      * rewrite map_app. apply NoDup_app_iff_snoc; [|exact Hnd].
        cbn [cyc_id]. intros Hin. apply in_map_iff in Hin as [c [Hc Hin]].
        assert (Hex' : existsb
                  (fun c => String.eqb (cyc_id c) (FeedbackAssigner.new_cycle_id now))
                  (feedback_cycles db) = true).
        { apply existsb_exists. exists c. split; [exact Hin|].
          now apply String.eqb_eq. }
        congruence.
      * eexists _, [_]. split; [reflexivity|].
        split; [apply Forall2_status_step_refl|].
        constructor; [reflexivity|constructor].
  - apply Hsame. apply assignFeedbackRequests_cycles.
  - apply Hsame. reflexivity.
  - destruct (autoCloseCycles_effect now db Hnd) as (_ & Hf & _).
    rewrite autoCloseCycles_run in *.
    cbn [fst set_feedback_cycles feedback_cycles] in *. split.
    + rewrite map_map. cbn [cyc_id].
      erewrite map_ext; [exact Hnd|].
      intros c. destruct (existsb _ _); reflexivity.
    + eexists _, []. rewrite app_nil_r. split; [reflexivity|]. split; [|constructor].
      apply Forall2_map_in. intros c Hc.
      destruct (existsb _ _) eqn:Hsel; [|now left].
      right. split; [|reflexivity].
      apply (closes_iff_selected now db c Hnd Hc). exact Hsel.
Qed.

(** C9 fails on the code.  [autoCloseCycles] counts the days past the end
    date with [Math.ceil], so its test [daysPastEnd >= 7] holds from six days
    and one millisecond after the end date, not from seven days as the
    comment at the test has it: the active cycle that ended at
    2022-01-02T00:00:00.000Z with nothing completed is marked completed by
    the run of 2022-01-08T00:00:00.001Z.  In the other direction, the run
    looks at ended cycles only: the cycle whose requests are all completed
    and whose end date is ten days ahead stays active. *)
Theorem autoCloseCycles_not_as_specified :
  Faults.now - cyc_end_date Faults.ended_six_days_ago = 6 * Scenario.day + 1
  /\ count_status "completed" (requests_of_cycle "cycle_1" Faults.six_days_db) = 0
  /\ ~ closes_as_specified Faults.now Faults.six_days_db Faults.ended_six_days_ago
  /\ ReminderSystem.autoCloseCycles Faults.now Faults.six_days_db
     = (set_feedback_cycles [with_status "completed" Faults.ended_six_days_ago]
          Faults.six_days_db,
        Ok tt)
  /\ closes_as_specified Scenario.now Scenario.early_db Scenario.cycle
  /\ ReminderSystem.autoCloseCycles Scenario.now Scenario.early_db
     = (Scenario.early_db, Ok tt)
  /\ ~ auto_close_as_specified Faults.now Faults.six_days_db.
Proof.
  assert (Hnot : ~ closes_as_specified Faults.now Faults.six_days_db
                     Faults.ended_six_days_ago).
  { intros [[_ Hrate]|Hdays].
    - vm_compute in Hrate. apply Hrate. reflexivity.
    - vm_compute in Hdays. apply Hdays. reflexivity. }
  assert (Hrun : ReminderSystem.autoCloseCycles Faults.now Faults.six_days_db
                 = (set_feedback_cycles
                      [with_status "completed" Faults.ended_six_days_ago]
                      Faults.six_days_db,
                    Ok tt)) by (vm_compute; reflexivity).
  split; [vm_compute; reflexivity|]. split; [vm_compute; reflexivity|].
  split; [exact Hnot|]. split; [exact Hrun|].
  split; [left; split; [discriminate|vm_compute; discriminate]|].
  split; [vm_compute; reflexivity|].
  intros H.
  assert (Hin : In Faults.ended_six_days_ago (feedback_cycles Faults.six_days_db))
    by (left; reflexivity).
  destruct (H Faults.ended_six_days_ago Hin eq_refl) as [Hto _].
  apply Hnot, Hto. rewrite Hrun. left. reflexivity.
Qed.

(** ** Objects keyed by numbers *)

Section JsObjectFacts.
Context {V : Type}.
Implicit Types (o : JsObject V) (k : Z) (v : V).

Lemma obj_get_none_iff k o : obj_get k o = None <-> ~ In k (map fst o).
Proof.
  induction o as [|[k1 v1] o IH]; simpl.
  - split; [intros _ []|reflexivity].
  - destruct (k =? k1) eqn:Hk.
    + apply Z.eqb_eq in Hk. split; [discriminate|]. intros H. exfalso. apply H. now left.
    + apply Z.eqb_neq in Hk. rewrite IH. split.
      * intros H [H1|H1]; [congruence|contradiction].
      * intros H H1. apply H. now right.
Qed.

Lemma obj_get_in k v o : obj_get k o = Some v -> In (k, v) o.
Proof.
  induction o as [|[k1 v1] o IH]; simpl; [discriminate|].
  destruct (k =? k1) eqn:Hk.
  - apply Z.eqb_eq in Hk. intros [= <-]. left. now subst.
  - intros H. right. now apply IH.
Qed.

Lemma obj_in_get k v o : NoDup (map fst o) -> In (k, v) o -> obj_get k o = Some v.
Proof.
  induction o as [|[k1 v1] o IH]; simpl; intros Hnd Hin; [contradiction|].
  inversion Hnd as [|? ? Hk1 Hnd']; subst.
  destruct Hin as [[= -> ->]|Hin].
  - now rewrite Z.eqb_refl.
  - destruct (k =? k1) eqn:Hk.
    + apply Z.eqb_eq in Hk. subst. exfalso. apply Hk1.
      change k1 with (fst (k1, v)). now apply in_map.
    + now apply IH.
Qed.

Lemma obj_get_define k v o k' :
  obj_get k o = None ->
  obj_get k' (obj_define k v o) = if k' =? k then Some v else obj_get k' o.
Proof.
  induction o as [|[k1 v1] o IH]; simpl; intros Hnone.
  - reflexivity.
  - destruct (k =? k1) eqn:Hk; [discriminate|].
    destruct (is_array_index k && (negb (is_array_index k1) || (k <? k1))); simpl.
    + reflexivity.
    + rewrite IH by exact Hnone.
      destruct (k' =? k1) eqn:Hk1; [|reflexivity].
      apply Z.eqb_eq in Hk1. subst k'. rewrite Z.eqb_sym, Hk. reflexivity.
Qed.

Lemma obj_get_replace k v o k' :
  obj_get k' (obj_replace k v o)
  = if k' =? k then match obj_get k o with Some _ => Some v | None => None end
    else obj_get k' o.
Proof.
  induction o as [|[k1 v1] o IH]; simpl.
  - now destruct (k' =? k).
  - destruct (k =? k1) eqn:Hk; simpl.
    + apply Z.eqb_eq in Hk. subst k1. destruct (k' =? k); reflexivity.
    + rewrite IH. destruct (k' =? k1) eqn:Hk1; [|reflexivity].
      apply Z.eqb_eq in Hk1. subst k'. rewrite Z.eqb_sym, Hk. reflexivity.
Qed.

Lemma obj_replace_keys k v o : map fst (obj_replace k v o) = map fst o.
Proof.
  induction o as [|[k1 v1] o IH]; simpl; [reflexivity|].
  destruct (k =? k1); simpl; [reflexivity|now rewrite IH].
Qed.

Lemma obj_define_keys_in k v o k' :
  In k' (map fst (obj_define k v o)) <-> k' = k \/ In k' (map fst o).
Proof.
  induction o as [|[k1 v1] o IH]; simpl.
  - intuition.
  - destruct (is_array_index k && (negb (is_array_index k1) || (k <? k1))); simpl.
    + intuition.
    + rewrite IH. intuition.
Qed.

Lemma obj_define_NoDup k v o :
  ~ In k (map fst o) -> NoDup (map fst o) -> NoDup (map fst (obj_define k v o)).
Proof.
  induction o as [|[k1 v1] o IH]; simpl; intros Hk Hnd.
  - constructor; [intros []|constructor].
  - destruct (is_array_index k && (negb (is_array_index k1) || (k <? k1))); simpl.
    + constructor; assumption.
    + inversion Hnd as [|? ? Hk1 Hnd']; subst. constructor.
      * rewrite obj_define_keys_in. intros [->|H]; [|contradiction].
        apply Hk. now left.
      * apply IH; [|assumption]. intros H. apply Hk. now right.
Qed.

End JsObjectFacts.

(** ** Grouping the interaction rows *)

Section Grouping.
Import PeerRanker.

Lemma group_by_peer_get (o : JsObject (list CollaborationMetric))
    (g : CollaborationMetric) (k : Z) :
  obj_get k (group_by_peer o g)
  = if k =? peer_id g
    then Some (match obj_get (peer_id g) o with
               | Some metrics => metrics ++ [g]
               | None => [g]
               end)
    else obj_get k o.
Proof.
  unfold group_by_peer.
  destruct (obj_get (peer_id g) o) as [metrics|] eqn:Hget.
  - rewrite Hget, obj_get_replace, Hget. reflexivity.
  - unfold obj_set. rewrite Hget.
    rewrite (obj_get_define (peer_id g) [] o (peer_id g) Hget), Z.eqb_refl.
    rewrite obj_get_replace.
    rewrite (obj_get_define (peer_id g) [] o (peer_id g) Hget), Z.eqb_refl.
    destruct (k =? peer_id g) eqn:Hk; [reflexivity|].
    rewrite (obj_get_define (peer_id g) [] o k Hget), Hk. reflexivity.
Qed.

Lemma group_by_peer_keys (o : JsObject (list CollaborationMetric))
    (g : CollaborationMetric) :
  map fst (group_by_peer o g)
  = match obj_get (peer_id g) o with
    | Some _ => map fst o
    | None => map fst (obj_define (peer_id g) (@nil CollaborationMetric) o)
    end.
Proof.
  unfold group_by_peer.
  destruct (obj_get (peer_id g) o) as [metrics|] eqn:Hget.
  - rewrite Hget. apply obj_replace_keys.
  - unfold obj_set. rewrite Hget.
    rewrite (obj_get_define (peer_id g) [] o (peer_id g) Hget), Z.eqb_refl.
    apply obj_replace_keys.
Qed.

Lemma fold_left_snoc {A B} (f : A -> B -> A) (l : list B) (x : B) (a : A) :
  fold_left f (l ++ [x]) a = f (fold_left f l a) x.
Proof. rewrite fold_left_app. reflexivity. Qed.

(** After the grouping loop the property [k] holds the aggregates of peer
    [k], in the order of the query; peers without aggregate have none. *)
Lemma grouped_get (groups : list CollaborationMetric) (k : Z) :
  obj_get k (fold_left group_by_peer groups [])
  = match filter (fun g => peer_id g =? k) groups with
    | [] => None
    | metrics => Some metrics
    end.
Proof.
  induction groups as [|g groups IH] using rev_ind.
  - reflexivity.
  - rewrite fold_left_snoc, group_by_peer_get, filter_app. cbn [filter].
    rewrite (Z.eqb_sym (peer_id g) k).
    destruct (k =? peer_id g) eqn:Hk.
    + apply Z.eqb_eq in Hk. subst k. rewrite IH.
      destruct (filter (fun g0 => peer_id g0 =? peer_id g) groups); reflexivity.
    + rewrite app_nil_r. exact IH.
Qed.

Lemma grouped_NoDup (groups : list CollaborationMetric) :
  NoDup (map fst (fold_left group_by_peer groups [])).
Proof.
  induction groups as [|g groups IH] using rev_ind.
  - constructor.
  - rewrite fold_left_snoc, group_by_peer_keys.
    destruct (obj_get (peer_id g) (fold_left group_by_peer groups [])) eqn:Hget.
    + exact IH.
    + apply obj_define_NoDup; [|exact IH]. now apply obj_get_none_iff.
Qed.



(** The aggregates and the rows they come from. *)
Lemma group_add_peers (c : Collaboration) (groups : list CollaborationMetric) (k : Z) :
  In k (map peer_id (group_add c groups))
  <-> k = col_peer_id c \/ In k (map peer_id groups).
Proof.
  induction groups as [|g groups IH]; simpl.
  - intuition.
  - destruct (same_group c g) eqn:Hsame; simpl.
    + unfold same_group in Hsame. apply andb_prop in Hsame as [Hp _].
      apply Z.eqb_eq in Hp. intuition congruence.
    + rewrite IH. intuition.
Qed.

Lemma grouped_peers (rows : list Collaboration) (groups : list CollaborationMetric)
    (k : Z) :
  In k (map peer_id (fold_left (fun groups c => group_add c groups) rows groups))
  <-> In k (map col_peer_id rows) \/ In k (map peer_id groups).
Proof.
  revert groups. induction rows as [|c rows IH]; intros groups; simpl.
  - intuition.
  - rewrite IH, group_add_peers. intuition.
Qed.
End Grouping.

(** ** The score of the code and the score of the specification *)

Section ScoreFacts.
Import PeerRanker.
Variable now : Z.
Variable employeeId : Z.

Local Notation "'as_row'" := (metric_as_row employeeId) (only parsing).

Lemma weight_of_weight (type : string) : weight_of type = ScoreFormula.weight type.
Proof.
  unfold weight_of, WEIGHTS, ScoreFormula.weight.
  repeat match goal with
         | |- context [String.eqb type ?s] => destruct (String.eqb type s)
         end; reflexivity.
Qed.

Lemma later_assoc (a b c : option Z) :
  ScoreFormula.later a (ScoreFormula.later b c)
  = ScoreFormula.later (ScoreFormula.later a b) c.
Proof.
  destruct a, b, c; simpl; try reflexivity. now rewrite Z.max_assoc.
Qed.

Lemma fold_max_out (l : list Z) (a b : Z) :
  fold_left Z.max l (Z.max a b) = Z.max a (fold_left Z.max l b).
Proof.
  revert b. induction l as [|x l IH]; intros b; simpl.
  - reflexivity.
  - rewrite <- Z.max_assoc. apply IH.
Qed.

Lemma most_recent_fold (metrics : list CollaborationMetric) (a : Z) :
  ScoreFormula.later (Some a) (ScoreFormula.most_recent (map as_row metrics))
  = Some (fold_left Z.max (map last_interaction metrics) a).
Proof.
  revert a. induction metrics as [|m metrics IH]; intros a.
  - reflexivity.
  - cbn [map ScoreFormula.most_recent fold_right fold_left].
    fold (ScoreFormula.most_recent (map as_row metrics)).
    rewrite IH. cbn [metric_as_row col_last_interaction ScoreFormula.later].
    rewrite fold_max_out. reflexivity.
Qed.

Lemma sum_fold (metrics : list CollaborationMetric) (a : Q) :
  (fold_left
     (fun (score : Q) (metric : CollaborationMetric) =>
        let weight := weight_of (interaction_type metric) in
        score + (inject_Z (interaction_count metric * weight)
                 + inject_Z (total_minutes metric) / 10))
     metrics a
   == a + ScoreFormula.sum_terms (map as_row metrics))%Q.
Proof.
  revert a. induction metrics as [|m metrics IH]; intros a.
  - simpl. ring.
  - cbn [fold_left map ScoreFormula.sum_terms fold_right].
    fold (ScoreFormula.sum_terms (map as_row metrics)).
    rewrite IH. unfold ScoreFormula.term.
    cbn [metric_as_row col_interaction_count col_interaction_type col_total_minutes].
    cbv zeta. rewrite weight_of_weight, inject_Z_mult. ring.
Qed.

(** The code computes the formula on the aggregates it is given. *)
Lemma calculateCollaborationScore_formula (metrics : list CollaborationMetric) :
  (calculateCollaborationScore now metrics
   == ScoreFormula.score now (map as_row metrics))%Q.
Proof.
  unfold calculateCollaborationScore, ScoreFormula.score.
  destruct metrics as [|m metrics].
  - reflexivity.
  - cbn [map ScoreFormula.most_recent fold_right].
    fold (ScoreFormula.most_recent (map as_row metrics)).
    cbn [metric_as_row col_last_interaction].
    rewrite most_recent_fold. cbv zeta.
    rewrite sum_fold.
    change (m :: metrics) with ([m] ++ metrics) at 1.
    cbn [app map].
    unfold ScoreFormula.recency_multiplier, Math_max. cbv zeta.
    change (1000 * 60 * 60 * 24) with 86400000.
    destruct (Qle_bool _ _); ring.
Qed.

(** Aggregating rows by interaction type changes neither the sum of the terms
    nor the most recent interaction. *)
Lemma group_add_sum (c : Collaboration) (groups : list CollaborationMetric) (k : Z) :
  (ScoreFormula.sum_terms
     (map as_row (filter (fun g => peer_id g =? k) (group_add c groups)))
   == ScoreFormula.sum_terms (map as_row (filter (fun g => peer_id g =? k) groups))
      + (if col_peer_id c =? k then ScoreFormula.term c else 0))%Q.
Proof.
  induction groups as [|g groups IH].
  - cbn [group_add filter peer_id].
    destruct (col_peer_id c =? k); cbn [map ScoreFormula.sum_terms fold_right].
    + unfold ScoreFormula.term. simpl. ring.
    + ring.
  - cbn [group_add]. destruct (same_group c g) eqn:Hsame.
    + unfold same_group in Hsame. apply andb_prop in Hsame as [Hp Ht].
      apply Z.eqb_eq in Hp. apply String.eqb_eq in Ht.
      cbn [filter peer_id]. rewrite Hp.
      destruct (peer_id g =? k); [|ring].
      cbn [map ScoreFormula.sum_terms fold_right].
      unfold ScoreFormula.term.
      cbn [metric_as_row col_interaction_count col_interaction_type col_total_minutes
           interaction_count interaction_type total_minutes].
      rewrite Ht, !inject_Z_plus.
      fold (ScoreFormula.sum_terms
              (map as_row (filter (fun g0 => peer_id g0 =? k) groups))).
      field.
    + cbn [filter]. destruct (peer_id g =? k).
      * cbn [map ScoreFormula.sum_terms fold_right].
        fold (ScoreFormula.sum_terms
                (map as_row (filter (fun g0 => peer_id g0 =? k) (group_add c groups)))).
        fold (ScoreFormula.sum_terms
                (map as_row (filter (fun g0 => peer_id g0 =? k) groups))).
        rewrite IH. ring.
      * exact IH.
Qed.

Lemma group_add_recent (c : Collaboration) (groups : list CollaborationMetric) (k : Z) :
  ScoreFormula.most_recent
    (map as_row (filter (fun g => peer_id g =? k) (group_add c groups)))
  = ScoreFormula.later
      (ScoreFormula.most_recent (map as_row (filter (fun g => peer_id g =? k) groups)))
      (if col_peer_id c =? k then Some (col_last_interaction c) else None).
Proof.
  induction groups as [|g groups IH].
  - cbn [group_add filter peer_id].
    destruct (col_peer_id c =? k); reflexivity.
  - cbn [group_add]. destruct (same_group c g) eqn:Hsame.
    + unfold same_group in Hsame. apply andb_prop in Hsame as [Hp Ht].
      apply Z.eqb_eq in Hp.
      cbn [filter peer_id]. rewrite Hp.
      destruct (peer_id g =? k).
      * cbn [map ScoreFormula.most_recent fold_right].
        fold (ScoreFormula.most_recent
                (map as_row (filter (fun g0 => peer_id g0 =? k) groups))).
        cbn [metric_as_row col_last_interaction last_interaction].
        clear IH.
        destruct (ScoreFormula.most_recent _); cbn [ScoreFormula.later];
          f_equal; lia.
      * clear IH. destruct (ScoreFormula.most_recent _); reflexivity.
    + cbn [filter]. destruct (peer_id g =? k).
      * cbn [map ScoreFormula.most_recent fold_right].
        fold (ScoreFormula.most_recent
                (map as_row (filter (fun g0 => peer_id g0 =? k) (group_add c groups)))).
        fold (ScoreFormula.most_recent
                (map as_row (filter (fun g0 => peer_id g0 =? k) groups))).
        rewrite IH. apply later_assoc.
      * exact IH.
Qed.
End ScoreFacts.

Section QueryFacts.
Import PeerRanker.
Variable now : Z.
Variable employeeId : Z.

Local Notation "'as_row'" := (metric_as_row employeeId) (only parsing).
Local Notation "'add'" := (fun groups c => group_add c groups) (only parsing).

Lemma sum_terms_cons (c : Collaboration) (rows : list Collaboration) :
  ScoreFormula.sum_terms (c :: rows)
  = (ScoreFormula.term c + ScoreFormula.sum_terms rows)%Q.
Proof. reflexivity. Qed.

Lemma grouped_sum (rows : list Collaboration) (groups : list CollaborationMetric)
    (k : Z) :
  (ScoreFormula.sum_terms
     (map as_row (filter (fun g => peer_id g =? k) (fold_left add rows groups)))
   == ScoreFormula.sum_terms (map as_row (filter (fun g => peer_id g =? k) groups))
      + ScoreFormula.sum_terms (filter (fun c => col_peer_id c =? k) rows))%Q.
Proof.
  revert groups. induction rows as [|c rows IH]; intros groups.
  - simpl. ring.
  - cbn [fold_left filter]. rewrite IH, (group_add_sum employeeId).
    destruct (col_peer_id c =? k).
    + rewrite sum_terms_cons. ring.
    + ring.
Qed.

Lemma grouped_recent (rows : list Collaboration) (groups : list CollaborationMetric)
    (k : Z) :
  ScoreFormula.most_recent
    (map as_row (filter (fun g => peer_id g =? k) (fold_left add rows groups)))
  = ScoreFormula.later
      (ScoreFormula.most_recent (map as_row (filter (fun g => peer_id g =? k) groups)))
      (ScoreFormula.most_recent (filter (fun c => col_peer_id c =? k) rows)).
Proof.
  revert groups. induction rows as [|c rows IH]; intros groups.
  - simpl. now destruct (ScoreFormula.most_recent _).
  - cbn [fold_left filter]. rewrite IH, (group_add_recent employeeId).
    rewrite <- later_assoc.
    destruct (col_peer_id c =? k); [reflexivity|].
    now destruct (ScoreFormula.most_recent (filter _ rows)).
Qed.

Lemma filter_employee_peer (rows : list Collaboration) (k : Z) :
  filter (fun c => col_peer_id c =? k)
    (filter (fun c => col_employee_id c =? employeeId) rows)
  = filter (fun c => (col_employee_id c =? employeeId) && (col_peer_id c =? k)) rows.
Proof.
  induction rows as [|c rows IH]; simpl; [reflexivity|].
  destruct (col_employee_id c =? employeeId); simpl.
  - destruct (col_peer_id c =? k); now rewrite IH.
  - exact IH.
Qed.

Lemma score_compat (rows1 rows2 : list Collaboration) :
  ScoreFormula.most_recent rows1 = ScoreFormula.most_recent rows2 ->
  (ScoreFormula.sum_terms rows1 == ScoreFormula.sum_terms rows2)%Q ->
  (ScoreFormula.score now rows1 == ScoreFormula.score now rows2)%Q.
Proof.
  intros Hr Hs. unfold ScoreFormula.score. rewrite Hr.
  destruct (ScoreFormula.most_recent rows2); now rewrite Hs.
Qed.

(** The score of the aggregates of peer [k] is the formula on the
    interaction rows of the employee with [k]. *)
Lemma aggregates_score (db : DB) (k : Z) :
  (calculateCollaborationScore now
     (filter (fun g => peer_id g =? k) (query_collaborations employeeId db))
   == ScoreFormula.score now (ScoreFormula.rows_with employeeId k db))%Q.
Proof.
  rewrite (calculateCollaborationScore_formula now employeeId).
  unfold query_collaborations, ScoreFormula.rows_with.
  rewrite <- filter_employee_peer.
  apply score_compat.
  - rewrite grouped_recent. reflexivity.
  - rewrite grouped_sum. simpl. ring.
Qed.

Lemma aggregates_peers (db : DB) (k : Z) :
  filter (fun g => peer_id g =? k) (query_collaborations employeeId db) <> []
  <-> ScoreFormula.rows_with employeeId k db <> [].
Proof.
  assert (Hfilter : forall {A} (f : A -> bool) (l : list A),
             filter f l <> [] <-> exists x, In x l /\ f x = true).
  { intros A f l. split.
    - destruct (filter f l) as [|x xs] eqn:E; [congruence|]. intros _.
      exists x. apply filter_In. rewrite E. now left.
    - intros [x Hx] E. apply filter_In in Hx. rewrite E in Hx. contradiction. }
  unfold ScoreFormula.rows_with. rewrite !Hfilter. unfold query_collaborations. split.
  - intros [g [Hg Hk]]. apply Z.eqb_eq in Hk.
    assert (Hin : In k (map peer_id
                          (fold_left add
                             (filter (fun c => col_employee_id c =? employeeId)
                                (collaborations db)) []))).
    { rewrite <- Hk. now apply in_map. }
    apply grouped_peers in Hin. destruct Hin as [Hin|[]].
    apply in_map_iff in Hin as [c [Hc Hin]]. apply filter_In in Hin as [Hin He].
    exists c. split; [exact Hin|]. rewrite He, Hc, Z.eqb_refl. reflexivity.
  - intros [c [Hc Hk]]. apply andb_prop in Hk as [He Hk]. apply Z.eqb_eq in Hk.
    assert (Hin : In k (map peer_id
                          (fold_left add
                             (filter (fun c => col_employee_id c =? employeeId)
                                (collaborations db)) []))).
    { apply grouped_peers. left. rewrite <- Hk. apply in_map.
      apply filter_In. now split. }
    apply in_map_iff in Hin as [g [Hg Hin]].
    exists g. split; [exact Hin|]. now apply Z.eqb_eq.
Qed.
End QueryFacts.

(** ** Sorting and rank positions *)

Section Sorting.
Import PeerRanker.

Local Notation "'by_score'" :=
  (fun a b : PeerRanking => (collaboration_score b - collaboration_score a)%Q)
  (only parsing).

Lemma sort_insert_perm {A} (cmp : A -> A -> Q) (x : A) (l : list A) :
  Permutation (sort_insert cmp x l) (x :: l).
Proof.
  induction l as [|y l IH]; simpl.
  - reflexivity.
  - destruct (Qle_bool (cmp x y) 0).
    + reflexivity.
    + rewrite IH. apply perm_swap.
Qed.

Lemma Array_sort_perm {A} (cmp : A -> A -> Q) (l : list A) :
  Permutation (Array_sort cmp l) l.
Proof.
  induction l as [|x l IH]; simpl.
  - reflexivity.
  - rewrite sort_insert_perm. now constructor.
Qed.




Lemma assign_rank_positions_peers (index : Z) (l : list PeerRanking) :
  map rk_peer_id (assign_rank_positions index l) = map rk_peer_id l.
Proof.
  revert index. induction l as [|r l IH]; intros index; simpl; [reflexivity|].
  now rewrite IH.
Qed.

Lemma assign_rank_positions_in (index : Z) (l : list PeerRanking) (r : PeerRanking) :
  In r (assign_rank_positions index l) ->
  exists r0, In r0 l /\ rk_peer_id r = rk_peer_id r0
             /\ collaboration_score r = collaboration_score r0.
Proof.
  revert index. induction l as [|x l IH]; intros index; simpl; [intros []|].
  intros [<-|Hin].
  - exists x. simpl. auto.
  - destruct (IH _ Hin) as [r0 [H0 H1]]. exists r0. auto.
Qed.


End Sorting.

(** ** The ranker: the claims *)

Lemma rankings_peers (now employeeId : Z) (db : DB) :
  map PeerRanker.rk_peer_id
    (map (fun '(peerId, metrics) =>
            PeerRanker.mkRanking peerId
              (PeerRanker.calculateCollaborationScore now metrics) 0)
       (Object_entries
          (fold_left PeerRanker.group_by_peer
             (PeerRanker.query_collaborations employeeId db) [])))
  = map fst
      (fold_left PeerRanker.group_by_peer
         (PeerRanker.query_collaborations employeeId db) []).
Proof.
  unfold Object_entries. rewrite map_map. apply map_ext. intros [k ms]. reflexivity.
Qed.

Lemma computeRankings_in (now employeeId : Z) (db : DB) (r : PeerRanker.PeerRanking) :
  In r (PeerRanker.computeRankings now employeeId db) ->
  let metrics :=
    filter (fun g => PeerRanker.peer_id g =? PeerRanker.rk_peer_id r)
      (PeerRanker.query_collaborations employeeId db) in
  metrics <> []
  /\ PeerRanker.collaboration_score r
     = PeerRanker.calculateCollaborationScore now metrics.
Proof.
  unfold PeerRanker.computeRankings. intros Hin.
  apply assign_rank_positions_in in Hin as [r0 [Hin [Hp Hs]]].
  apply (Permutation_in _ (Array_sort_perm _ _)) in Hin.
  apply in_map_iff in Hin as [[k ms] [Hr0 Hin]]. subst r0.
  unfold Object_entries in Hin.
  apply obj_in_get in Hin; [|apply grouped_NoDup].
  rewrite grouped_get in Hin.
  cbn [PeerRanker.rk_peer_id PeerRanker.collaboration_score] in Hp, Hs.
  cbv zeta. rewrite Hp, Hs.
  destruct (filter _ _) as [|m ms'] eqn:Hf; [discriminate|].
  injection Hin as <-. split; [discriminate|reflexivity].
Qed.

Lemma computeRankings_has (now employeeId : Z) (db : DB) (peerId : Z) :
  filter (fun g => PeerRanker.peer_id g =? peerId)
    (PeerRanker.query_collaborations employeeId db) <> [] ->
  In peerId (map PeerRanker.rk_peer_id (PeerRanker.computeRankings now employeeId db)).
Proof.
  intros Hne. unfold PeerRanker.computeRankings.
  rewrite assign_rank_positions_peers.
  apply (Permutation_in _ (Permutation_map _ (Permutation_sym (Array_sort_perm _ _)))).
  rewrite rankings_peers.
  pose proof (grouped_get (PeerRanker.query_collaborations employeeId db) peerId) as Hget.
  destruct (filter _ _) as [|m ms] eqn:Hf; [contradiction|].
  apply obj_get_in in Hget.
  change peerId with (fst (peerId, m :: ms)). now apply in_map.
Qed.

Lemma computeRankings_NoDup (now employeeId : Z) (db : DB) :
  NoDup (map PeerRanker.rk_peer_id (PeerRanker.computeRankings now employeeId db)).
Proof.
  unfold PeerRanker.computeRankings. rewrite assign_rank_positions_peers.
  eapply Permutation_NoDup.
  - apply Permutation_map. apply Permutation_sym. apply Array_sort_perm.
  - rewrite rankings_peers. apply grouped_NoDup.
Qed.

(** C2 fails on the code.  The weight of an interaction type is read with
    [this.WEIGHTS[type] || 1], which finds the properties [WEIGHTS] inherits
    from [Object.prototype] too: for the type ['constructor'] the weight is
    not the default 1 of an unknown type but a function.  After
    [recordInteraction(1, 2, 'constructor')] the score of peer 2, which is 1
    by the formula, is NaN; the INSERT of the ranking is refused and
    [rankPeers(1)] rejects. *)
Theorem rankPeers_inherited_type :
  PeerRanker.query_collaborations 1 Faults.inherited_type_db
  = [PeerRanker.mkMetric 2 "constructor" 1 0 Scenario.now]
  /\ PeerRankerJs.WEIGHTS_get "constructor" = PeerRankerJs.JsFunction
  /\ PeerRankerJs.calculateCollaborationScore Scenario.now
       (PeerRanker.query_collaborations 1 Faults.inherited_type_db)
     = PeerRankerJs.NaN
  /\ ScoreFormula.weight "constructor" = 1
  /\ (ScoreFormula.score Scenario.now
        (ScoreFormula.rows_with 1 2 Faults.inherited_type_db) == 1)%Q
  /\ PeerRankerJs.rankPeers Scenario.now 1 Faults.inherited_type_db
     = (Faults.inherited_type_db,
        Err
          "SQLITE_CONSTRAINT: NOT NULL constraint failed: peer_rankings.collaboration_score").
Proof.
  split; [vm_compute; reflexivity|]. split; [reflexivity|].
  split; [vm_compute; reflexivity|]. split; [reflexivity|].
  split; [vm_compute; reflexivity|].
  vm_compute. reflexivity.
Qed.





(** * Further properties *)

(** ** Recording interactions *)

Section Recording.
Variable now : Z.

Import CollaborationTracker.

Lemma same_pair_and_type_key (e p : Z) (t : string) (c : Collaboration) :
  same_pair_and_type e p t c = true <-> interaction_key c = (e, p, t).
Proof.
  unfold same_pair_and_type, interaction_key.
  rewrite !andb_true_iff, !Z.eqb_eq, String.eqb_eq.
  split; [intros [[-> ->] ->]; reflexivity|intros [= -> -> ->]; auto].
Qed.

Lemma same_pair_and_type_other (e p e' p' : Z) (t t' : string) (c : Collaboration) :
  (e', p', t') <> (e, p, t) ->
  same_pair_and_type e p t c = true -> same_pair_and_type e' p' t' c = false.
Proof.
  intros Hne H. apply same_pair_and_type_key in H.
  destruct (same_pair_and_type e' p' t' c) eqn:H'; [|reflexivity].
  apply same_pair_and_type_key in H'. congruence.
Qed.

Lemma find_upsert_same (e p : Z) (t : string) (count minutes : Z)
    (rows : list Collaboration) :
  find (same_pair_and_type e p t) (upsert now e p t count minutes rows)
  = Some (mkCollaboration e p t
            (match find (same_pair_and_type e p t) rows with
             | Some c => col_interaction_count c
             | None => 0
             end + count)
            (match find (same_pair_and_type e p t) rows with
             | Some c => col_total_minutes c
             | None => 0
             end + minutes)
            now).
Proof.
  assert (Hnew : forall a b,
             same_pair_and_type e p t (mkCollaboration e p t a b now) = true).
  { intros. apply same_pair_and_type_key. reflexivity. }
  induction rows as [|c rows IH]; cbn [upsert find].
  - rewrite Hnew. reflexivity.
  - destruct (same_pair_and_type e p t c) eqn:Hc; cbn [find].
    + rewrite Hnew. reflexivity.
    + rewrite Hc. exact IH.
Qed.

Lemma find_upsert_other (e p e' p' : Z) (t t' : string) (count minutes : Z)
    (rows : list Collaboration) :
  (e', p', t') <> (e, p, t) ->
  find (same_pair_and_type e' p' t') (upsert now e p t count minutes rows)
  = find (same_pair_and_type e' p' t') rows.
Proof.
  intros Hne.
  assert (Hnew : forall a b,
             same_pair_and_type e' p' t' (mkCollaboration e p t a b now) = false).
  { intros. apply (same_pair_and_type_other e p e' p' t t'); [exact Hne|].
    apply same_pair_and_type_key. reflexivity. }
  induction rows as [|c rows IH]; cbn [upsert find].
  - rewrite Hnew. reflexivity.
  - destruct (same_pair_and_type e p t c) eqn:Hc; cbn [find].
    + rewrite Hnew, (same_pair_and_type_other e p e' p' t t' c Hne Hc). reflexivity.
    + rewrite IH. reflexivity.
Qed.

Lemma upsert_keys (e p : Z) (t : string) (count minutes : Z)
    (rows : list Collaboration) :
  map interaction_key (upsert now e p t count minutes rows)
  = if existsb (same_pair_and_type e p t) rows then map interaction_key rows
    else map interaction_key rows ++ [(e, p, t)].
Proof.
  induction rows as [|c rows IH]; cbn [upsert map existsb].
  - reflexivity.
  - destruct (same_pair_and_type e p t c) eqn:Hc; cbn [map orb].
    + apply same_pair_and_type_key in Hc. rewrite Hc. reflexivity.
    + rewrite IH. destruct (existsb _ rows); reflexivity.
Qed.

Lemma upsert_unique (e p : Z) (t : string) (count minutes : Z)
    (rows : list Collaboration) :
  NoDup (map interaction_key rows) ->
  NoDup (map interaction_key (upsert now e p t count minutes rows)).
Proof.
  intros Hnd. rewrite upsert_keys.
  destruct (existsb _ rows) eqn:Hex; [exact Hnd|].
  apply NoDup_app_iff_snoc; [|exact Hnd].
  intros Hin. apply in_map_iff in Hin as [c [Hk Hc]].
  assert (existsb (same_pair_and_type e p t) rows = true).
  { apply existsb_exists. exists c. split; [exact Hc|].
    now apply same_pair_and_type_key. }
  congruence.
Qed.

Lemma recordInteraction_run (e p : Z) (t : string) (count minutes : Z) (db : DB) :
  recordInteraction now e p t count minutes db
  = (set_collaborations
       (upsert now p e t count minutes
          (upsert now e p t count minutes (collaborations db))) db,
     Ok tt).
Proof. reflexivity. Qed.
End Recording.

(** X1.  [recordInteraction] returns and keeps the key of the interaction
    table: when no two rows share employee, peer and type before the call,
    none do after it. *)
Theorem recordInteraction_keeps_unique (now employeeId peerId : Z) (type : string)
    (count minutes : Z) (db : DB) :
  unique_interactions db ->
  snd (CollaborationTracker.recordInteraction now employeeId peerId type count
         minutes db) = Ok tt
  /\ unique_interactions
       (fst (CollaborationTracker.recordInteraction now employeeId peerId type count
               minutes db)).
Proof.
  intros Hu. rewrite recordInteraction_run. split; [reflexivity|].
  unfold unique_interactions. cbn [fst set_collaborations collaborations].
  now apply upsert_unique, upsert_unique.
Qed.

Lemma recordInteraction_keeps_unique_witness :
  unique_interactions Scenario.db
  /\ unique_interactions
       (fst (CollaborationTracker.recordInteraction Scenario.now 1 2 "chat" 3 0
               Scenario.db)).
Proof.
  assert (H : unique_interactions Scenario.db).
  { unfold unique_interactions. vm_compute.
    repeat (constructor; [simpl; intuition discriminate|]). constructor. }
  split; [exact H|].
  apply (recordInteraction_keeps_unique Scenario.now 1 2 "chat" 3 0 Scenario.db H).
Defined.

(** X2.  [recordInteraction] between two different employees adds the count
    and the minutes to the row of the pair in each direction, creating the
    row when there is none, and stamps both with the current time; the rows of
    every other pair or type read as before, and no other table changes. *)
Theorem recordInteraction_accumulates (now employeeId peerId : Z) (type : string)
    (count minutes : Z) (db : DB) :
  employeeId <> peerId ->
  let db' :=
    fst (CollaborationTracker.recordInteraction now employeeId peerId type count
           minutes db) in
  interaction employeeId peerId type db'
  = Some (mkCollaboration employeeId peerId type
            (recorded_count employeeId peerId type db + count)
            (recorded_minutes employeeId peerId type db + minutes) now)
  /\ interaction peerId employeeId type db'
     = Some (mkCollaboration peerId employeeId type
               (recorded_count peerId employeeId type db + count)
               (recorded_minutes peerId employeeId type db + minutes) now)
  /\ (forall e p t,
        (e, p, t) <> (employeeId, peerId, type) ->
        (e, p, t) <> (peerId, employeeId, type) ->
        interaction e p t db' = interaction e p t db)
  /\ set_collaborations (collaborations db) db' = db.
Proof.
  intros Hne. cbv zeta. rewrite recordInteraction_run.
  unfold interaction, recorded_count, recorded_minutes, interaction.
  cbn [fst set_collaborations collaborations].
  split; [|split; [|split]].
  - rewrite find_upsert_other by congruence. apply find_upsert_same.
  - rewrite find_upsert_same, find_upsert_other by congruence. reflexivity.
  - intros e p t H1 H2. rewrite !find_upsert_other by assumption. reflexivity.
  - destruct db; reflexivity.
Qed.

Lemma recordInteraction_accumulates_witness :
  interaction 1 2 "chat"
    (fst (CollaborationTracker.recordInteraction Scenario.now 1 2 "chat" 3 0
            Scenario.db))
  = Some (mkCollaboration 1 2 "chat" 13 0 Scenario.now).
Proof.
  assert (Hne : 1 <> 2) by lia.
  exact (proj1 (recordInteraction_accumulates Scenario.now 1 2 "chat" 3 0
                  Scenario.db Hne)).
Defined.

(** X3.  [recordInteraction] of an employee with itself writes the same row
    twice: the count and the minutes are added two times. *)
Theorem recordInteraction_self_counts_twice (now employeeId : Z) (type : string)
    (count minutes : Z) (db : DB) :
  interaction employeeId employeeId type
    (fst (CollaborationTracker.recordInteraction now employeeId employeeId type count
            minutes db))
  = Some (mkCollaboration employeeId employeeId type
            (recorded_count employeeId employeeId type db + count + count)
            (recorded_minutes employeeId employeeId type db + minutes + minutes) now).
Proof.
  rewrite recordInteraction_run.
  unfold interaction, recorded_count, recorded_minutes, interaction.
  cbn [fst set_collaborations collaborations].
  rewrite !find_upsert_same. reflexivity.
Qed.

Section Symmetry.
Variable now : Z.

Import CollaborationTracker.

Lemma find_unique (e p : Z) (t : string) (rows : list Collaboration)
    (y : Collaboration) :
  NoDup (map interaction_key rows) -> In y rows -> interaction_key y = (e, p, t) ->
  find (same_pair_and_type e p t) rows = Some y.
Proof.
  induction rows as [|c rows IH]; intros Hnd Hin Hk; [contradiction|].
  cbn [map] in Hnd. inversion Hnd as [|? ? Hc Hnd']; subst.
  cbn [find]. destruct Hin as [->|Hin].
  - apply same_pair_and_type_key in Hk. rewrite Hk. reflexivity.
  - destruct (same_pair_and_type e p t c) eqn:Hsame.
    + apply same_pair_and_type_key in Hsame. exfalso. apply Hc.
      rewrite Hsame, <- Hk. now apply in_map.
    + now apply IH.
Qed.

Lemma find_key (e p : Z) (t : string) (rows : list Collaboration)
    (y : Collaboration) :
  find (same_pair_and_type e p t) rows = Some y ->
  In y rows /\ interaction_key y = (e, p, t).
Proof.
  intros H. apply find_some in H as [Hin Hk]. split; [exact Hin|].
  now apply same_pair_and_type_key.
Qed.

Lemma in_upsert (e p : Z) (t : string) (count minutes : Z)
    (rows : list Collaboration) (x : Collaboration) :
  NoDup (map interaction_key rows) ->
  In x (upsert now e p t count minutes rows)
  <-> find (same_pair_and_type e p t) (upsert now e p t count minutes rows) = Some x
      \/ (In x rows /\ interaction_key x <> (e, p, t)).
Proof.
  intros Hnd. split.
  - intros Hin.
    destruct (same_pair_and_type e p t x) eqn:Hx.
    + left. apply find_unique; [now apply upsert_unique|exact Hin|].
      now apply same_pair_and_type_key.
    + right.
      assert (Hk : interaction_key x <> (e, p, t)).
      { intros Hk. apply same_pair_and_type_key in Hk. congruence. }
      split; [|exact Hk]. clear Hnd.
      induction rows as [|c rows IH]; cbn [upsert] in Hin.
      * destruct Hin as [<-|[]]. exfalso. apply Hk. reflexivity.
      * destruct (same_pair_and_type e p t c) eqn:Hc.
        -- destruct Hin as [<-|Hin]; [exfalso; apply Hk; reflexivity|now right].
        -- destruct Hin as [<-|Hin]; [now left|right; now apply IH].
  - intros [Hf|[Hin Hk]].
    + apply find_some in Hf. apply Hf.
    + clear Hnd. induction rows as [|c rows IH]; [contradiction|].
      cbn [upsert]. destruct (same_pair_and_type e p t c) eqn:Hc.
      * destruct Hin as [->|Hin]; [|now right].
        apply same_pair_and_type_key in Hc. contradiction.
      * destruct Hin as [->|Hin]; [now left|right; now apply IH].
Qed.

Lemma reversed_key (c c' : Collaboration) :
  reversed c c' ->
  interaction_key c' = (col_peer_id c, col_employee_id c, col_interaction_type c).
Proof.
  intros (He & Hp & Ht & _). unfold interaction_key. now rewrite He, Hp, Ht.
Qed.

(** In a symmetric table with unique keys, the count and the minutes
    recorded for a pair and type are those recorded for the pair reversed. *)
Lemma symmetric_recorded (e p : Z) (t : string) (rows : list Collaboration) :
  NoDup (map interaction_key rows) ->
  (forall c, In c rows -> exists c', In c' rows /\ reversed c c') ->
  match find (same_pair_and_type p e t) rows with
  | Some c => (col_interaction_count c, col_total_minutes c)
  | None => (0, 0)
  end
  = match find (same_pair_and_type e p t) rows with
    | Some c => (col_interaction_count c, col_total_minutes c)
    | None => (0, 0)
    end.
Proof.
  intros Hnd Hsym.
  destruct (find (same_pair_and_type e p t) rows) as [y|] eqn:Hy.
  - apply find_key in Hy as [Hin Hk].
    destruct (Hsym y Hin) as (y' & Hin' & Hrev).
    pose proof (reversed_key y y' Hrev) as Hk'.
    unfold interaction_key in Hk. injection Hk as He Hp Ht.
    rewrite He, Hp, Ht in Hk'.
    rewrite (find_unique p e t rows y' Hnd Hin' Hk').
    destruct Hrev as (_ & _ & _ & -> & ->). reflexivity.
  - destruct (find (same_pair_and_type p e t) rows) as [z|] eqn:Hz; [|reflexivity].
    exfalso. apply find_key in Hz as [Hin Hk].
    destruct (Hsym z Hin) as (z' & Hin' & Hrev).
    pose proof (reversed_key z z' Hrev) as Hk'.
    unfold interaction_key in Hk. injection Hk as He Hp Ht.
    rewrite He, Hp, Ht in Hk'.
    rewrite (find_unique e p t rows z' Hnd Hin' Hk') in Hy. discriminate.
Qed.
End Symmetry.

(** X4.  [recordInteraction] keeps the counts of the table symmetric: when
    the keys are unique and every row has a row for the reversed pair with
    the same type, count and minutes before the call, every row has one
    after it.  The dates of the two rows are not compared: each statement
    reads [datetime('now')] for itself. *)
Theorem recordInteraction_keeps_symmetric (now employeeId peerId : Z) (type : string)
    (count minutes : Z) (db : DB) :
  unique_interactions db ->
  symmetric_interactions db ->
  symmetric_interactions
    (fst (CollaborationTracker.recordInteraction now employeeId peerId type count
            minutes db)).
Proof.
  unfold unique_interactions, symmetric_interactions.
  intros Hnd Hsym. rewrite recordInteraction_run.
  cbn [fst set_collaborations collaborations].
  set (rows := collaborations db) in *.
  set (rows1 := CollaborationTracker.upsert now employeeId peerId type count minutes rows).
  assert (Hnd1 : NoDup (map interaction_key rows1)) by now apply upsert_unique.
  (* a row of another pair keeps its reversed row through both statements *)
  assert (Hother : forall x,
            In x rows ->
            interaction_key x <> (employeeId, peerId, type) ->
            interaction_key x <> (peerId, employeeId, type) ->
            exists x',
              In x' (CollaborationTracker.upsert now peerId employeeId type count
                       minutes rows1)
              /\ reversed x x').
  { intros x Hin Hk1 Hk2. destruct (Hsym x Hin) as (x' & Hin' & Hrev).
    exists x'. split; [|exact Hrev].
    pose proof (reversed_key x x' Hrev) as Hk'.
    assert (Hx1 : interaction_key x' <> (employeeId, peerId, type)).
    { intros H. rewrite H in Hk'. injection Hk' as He Hp Ht.
      apply Hk2. unfold interaction_key. congruence. }
    assert (Hx2 : interaction_key x' <> (peerId, employeeId, type)).
    { intros H. rewrite H in Hk'. injection Hk' as He Hp Ht.
      apply Hk1. unfold interaction_key. congruence. }
    apply (in_upsert now _ _ _ _ _ _ _ Hnd1). right. split; [|exact Hx2].
    apply (in_upsert now _ _ _ _ _ _ _ Hnd). right. split; [exact Hin'|exact Hx1]. }
  intros x Hx.
  apply (in_upsert now _ _ _ _ _ _ _ Hnd1) in Hx.
  destruct (Z.eq_dec employeeId peerId) as [Heq|Hne].
  - subst peerId. destruct Hx as [Hf|[Hin Hk]].
    + (* the row of the employee with themselves is its own reverse *)
      exists x. split; [apply find_some in Hf; apply Hf|].
      rewrite find_upsert_same in Hf. injection Hf as <-.
      unfold reversed. cbn. repeat split.
    + apply (in_upsert now _ _ _ _ _ _ _ Hnd) in Hin.
      destruct Hin as [Hf|[Hin _]].
      * apply find_key in Hf as [_ Hf]. contradiction.
      * now apply Hother.
  - assert (Hkeys : (peerId, employeeId, type) <> (employeeId, peerId, type))
      by congruence.
    assert (Hkeys' : (employeeId, peerId, type) <> (peerId, employeeId, type))
      by congruence.
    pose proof (symmetric_recorded employeeId peerId type rows Hnd Hsym) as Hrec.
    assert (Hnew1 : find (CollaborationTracker.same_pair_and_type employeeId peerId type)
                      (CollaborationTracker.upsert now peerId employeeId type count
                         minutes rows1)
                    = find (CollaborationTracker.same_pair_and_type employeeId peerId
                              type) rows1).
    { apply find_upsert_other. exact Hkeys'. }
    assert (Hold2 : find (CollaborationTracker.same_pair_and_type peerId employeeId type)
                      rows1
                    = find (CollaborationTracker.same_pair_and_type peerId employeeId
                              type) rows).
    { apply find_upsert_other. exact Hkeys. }
    pose proof (find_upsert_same now peerId employeeId type count minutes rows1)
      as Hnew2.
    rewrite Hold2 in Hnew2.
    pose proof (find_upsert_same now employeeId peerId type count minutes rows)
      as Hrow1.
    fold rows1 in Hrow1.
    destruct Hx as [Hf|[Hin Hk]].
    + (* the row of the peer: its reverse is the row of the employee *)
      rewrite Hnew2 in Hf. injection Hf as <-.
      rewrite <- Hnew1 in Hrow1. apply find_some in Hrow1 as [Hin1 _].
      eexists. split; [exact Hin1|].
      unfold reversed. cbn.
      destruct (find (CollaborationTracker.same_pair_and_type peerId employeeId type)
                  rows);
        destruct (find (CollaborationTracker.same_pair_and_type employeeId peerId type)
                    rows);
        inversion Hrec; repeat split; congruence.
    + apply (in_upsert now _ _ _ _ _ _ _ Hnd) in Hin.
      destruct Hin as [Hf|[Hin Hk1]].
      * (* the row of the employee: its reverse is the row of the peer *)
        fold rows1 in Hf. rewrite Hrow1 in Hf. injection Hf as <-.
        apply find_some in Hnew2 as [Hin2 _].
        eexists. split; [exact Hin2|].
        unfold reversed. cbn.
        destruct (find (CollaborationTracker.same_pair_and_type peerId employeeId type)
                    rows);
          destruct (find (CollaborationTracker.same_pair_and_type employeeId peerId
                            type) rows);
          inversion Hrec; repeat split; congruence.
      * now apply Hother.
Qed.

Lemma recordInteraction_keeps_symmetric_witness :
  unique_interactions Scenario.db
  /\ symmetric_interactions Scenario.db
  /\ symmetric_interactions
       (fst (CollaborationTracker.recordInteraction Scenario.now 2 3 "task" 1 0
               Scenario.db)).
Proof.
  assert (Hu : unique_interactions Scenario.db).
  { unfold unique_interactions. vm_compute.
    repeat (constructor; [simpl; intuition discriminate|]). constructor. }
  assert (Hs : symmetric_interactions Scenario.db).
  { intros c [<-|[<-|[<-|[<-|[]]]]].
    - exists (Scenario.chat_row 2 1 Scenario.now).
      split; [right; left; reflexivity|repeat split].
    - exists (Scenario.chat_row 1 2 Scenario.now).
      split; [left; reflexivity|repeat split].
    - exists (Scenario.meeting_row 3 1 Scenario.now).
      split; [right; right; right; left; reflexivity|repeat split].
    - exists (Scenario.meeting_row 1 3 Scenario.now).
      split; [right; right; left; reflexivity|repeat split]. }
  split; [exact Hu|]. split; [exact Hs|].
  apply (recordInteraction_keeps_symmetric Scenario.now 2 3 "task" 1 0 Scenario.db Hu Hs).
Defined.

Section ScoreBounds.
Variable now : Z.

Lemma weight_positive (type : string) : 0 < ScoreFormula.weight type.
Proof.
  unfold ScoreFormula.weight.
  repeat match goal with
         | |- context [String.eqb type ?s] => destruct (String.eqb type s)
         end; lia.
Qed.

Lemma recency_multiplier_floor (last : Z) :
  (1 # 2 <= ScoreFormula.recency_multiplier now last)%Q.
Proof.
  unfold ScoreFormula.recency_multiplier. cbv zeta.
  destruct (Qle_bool _ _) eqn:H.
  - now apply Qle_bool_iff.
  - apply Qle_refl.
Qed.

End ScoreBounds.

Section ScoreOrder.
Variable now : Z.

Lemma term_monotone (m m' : PeerRanker.CollaborationMetric) :
  PeerRanker.interaction_type m' = PeerRanker.interaction_type m ->
  PeerRanker.interaction_count m <= PeerRanker.interaction_count m' ->
  PeerRanker.total_minutes m <= PeerRanker.total_minutes m' ->
  (ScoreFormula.term (metric_as_row 0 m) <= ScoreFormula.term (metric_as_row 0 m'))%Q.
Proof.
  intros Ht Hc Hm. unfold ScoreFormula.term.
  cbn [metric_as_row col_interaction_count col_interaction_type col_total_minutes].
  rewrite Ht.
  pose proof (weight_positive (PeerRanker.interaction_type m)) as Hw.
  unfold Qle, Qplus, Qdiv, Qmult, Qinv. cbn [Qnum Qden inject_Z]. nia.
Qed.

Lemma grown_sum (metrics metrics' : list PeerRanker.CollaborationMetric) :
  grown metrics metrics' -> (undecayed_score metrics <= undecayed_score metrics')%Q.
Proof.
  unfold grown, undecayed_score. induction 1 as [|m m' l l' (Ht & _ & Hc & Hm) _ IH].
  - apply Qle_refl.
  - cbn [map]. rewrite !sum_terms_cons.
    apply Qplus_le_compat; [now apply term_monotone|exact IH].
Qed.

Lemma grown_recent (metrics metrics' : list PeerRanker.CollaborationMetric) :
  grown metrics metrics' ->
  ScoreFormula.most_recent (map (metric_as_row 0) metrics')
  = ScoreFormula.most_recent (map (metric_as_row 0) metrics).
Proof.
  unfold grown. induction 1 as [|m m' l l' (_ & Hl & _) _ IH].
  - reflexivity.
  - cbn [map ScoreFormula.most_recent fold_right].
    fold (ScoreFormula.most_recent (map (metric_as_row 0) l)).
    fold (ScoreFormula.most_recent (map (metric_as_row 0) l')).
    rewrite IH. cbn [metric_as_row col_last_interaction]. rewrite Hl. reflexivity.
Qed.
End ScoreOrder.

(** X6.  [calculateCollaborationScore] is monotone: with the same types and
    dates, raising the count or the minutes of any aggregate never lowers the
    score. *)
Theorem calculateCollaborationScore_monotone (now : Z)
    (metrics metrics' : list PeerRanker.CollaborationMetric) :
  grown metrics metrics' ->
  (PeerRanker.calculateCollaborationScore now metrics
   <= PeerRanker.calculateCollaborationScore now metrics')%Q.
Proof.
  intros Hg.
  rewrite !(calculateCollaborationScore_formula now 0).
  unfold ScoreFormula.score. rewrite (grown_recent metrics metrics' Hg).
  pose proof (grown_sum metrics metrics' Hg) as Hsum. unfold undecayed_score in Hsum.
  destruct (ScoreFormula.most_recent _) as [last|]; [|exact Hsum].
  apply Qmult_le_compat_r; [exact Hsum|].
  eapply Qle_trans; [|apply recency_multiplier_floor]. discriminate.
Qed.

Lemma calculateCollaborationScore_monotone_witness :
  (PeerRanker.calculateCollaborationScore Scenario.now
     [PeerRanker.mkMetric 2 "chat" 10 0 (Scenario.now - 5 * Scenario.day)]
   <= PeerRanker.calculateCollaborationScore Scenario.now
        [PeerRanker.mkMetric 2 "chat" 11 30 (Scenario.now - 5 * Scenario.day)])%Q.
Proof.
  apply (calculateCollaborationScore_monotone Scenario.now).
  constructor; [|constructor].
  cbn. repeat split; lia.
Defined.

(** ** Stored rankings *)

(** X7.  For an employee without interaction row, [rankPeers] returns the
    empty ranking, not an error, and deletes the rows stored for the employee
    before. *)
Theorem rankPeers_without_interactions (now employeeId : Z) (db : DB) :
  (forall c, In c (collaborations db) -> col_employee_id c <> employeeId) ->
  snd (PeerRanker.rankPeers now employeeId db) = Ok []
  /\ rows_of employeeId (peer_rankings (fst (PeerRanker.rankPeers now employeeId db)))
     = [].
Proof.
  intros Hnone. rewrite rankPeers_run. cbn [fst snd].
  assert (Hrows : filter (fun c => col_employee_id c =? employeeId) (collaborations db)
                  = []).
  { induction (collaborations db) as [|c rows IH]; [reflexivity|].
    cbn [filter]. destruct (col_employee_id c =? employeeId) eqn:He.
    - apply Z.eqb_eq in He. exfalso. apply (Hnone c); [now left|exact He].
    - apply IH. intros c' Hc'. apply Hnone. now right. }
  assert (Hcompute : PeerRanker.computeRankings now employeeId db = []).
  { unfold PeerRanker.computeRankings, PeerRanker.query_collaborations.
    rewrite Hrows. reflexivity. }
  split; [now rewrite Hcompute|].
  cbn [peer_rankings set_peer_rankings]. unfold fresh_rows. rewrite Hcompute.
  cbn [map]. rewrite app_nil_r, rows_of_delete, Z.eqb_refl. reflexivity.
Qed.

Lemma rankPeers_without_interactions_witness :
  snd (PeerRanker.rankPeers Scenario.now 7 Scenario.db) = Ok []
  /\ rows_of 7 (peer_rankings (fst (PeerRanker.rankPeers Scenario.now 7 Scenario.db)))
     = [].
Proof.
  apply (rankPeers_without_interactions Scenario.now 7 Scenario.db).
  intros c [<-|[<-|[<-|[<-|[]]]]]; vm_compute; discriminate.
Defined.

(** X8.  [rankPeers] replaces the rows of its employee and nothing else: the
    rows stored for any other employee stay, in their order, and no other
    table changes. *)
Theorem rankPeers_frame (now employeeId other : Z) (db : DB) :
  other <> employeeId ->
  let db' := fst (PeerRanker.rankPeers now employeeId db) in
  rows_of other (peer_rankings db') = rows_of other (peer_rankings db)
  /\ set_peer_rankings (peer_rankings db) db' = db.
Proof.
  intros Hne. cbv zeta. rewrite rankPeers_run.
  cbn [fst peer_rankings set_peer_rankings]. split.
  - unfold rows_of at 1. rewrite filter_app.
    fold (rows_of other
            (filter (fun r => negb (pr_employee_id r =? employeeId)) (peer_rankings db))).
    fold (rows_of other (fresh_rows now employeeId db)).
    rewrite rows_of_delete, rows_of_fresh_rows.
    destruct (employeeId =? other) eqn:He.
    + apply Z.eqb_eq in He. congruence.
    + apply app_nil_r.
  - destruct db; reflexivity.
Qed.

Lemma rankPeers_frame_witness :
  rows_of 2 (peer_rankings
               (fst (PeerRanker.rankPeers Scenario.now 1
                       (fst (PeerRanker.rankPeers Scenario.now 2 Scenario.db)))))
  = rows_of 2 (peer_rankings (fst (PeerRanker.rankPeers Scenario.now 2 Scenario.db))).
Proof.
  assert (Hne : 2 <> 1) by lia.
  exact (proj1 (rankPeers_frame Scenario.now 1 2
                  (fst (PeerRanker.rankPeers Scenario.now 2 Scenario.db)) Hne)).
Defined.

(** ** Reading the rankings back *)










(** ** The requests a run creates *)

Section CreatedRequests.
Import FeedbackAssigner.
Variable now : Z.
Variable storage_rejects : CreateFeedbackRequestDTO -> bool.

Local Notation "'place'" := (place_requests now storage_rejects) (only parsing).

Lemma positions_shift (lastID : Z) (n : nat) :
  map (fun k => lastID + 1 + Z.of_nat k) (List.seq 1 n)
  = map (fun k => lastID + Z.of_nat k) (List.seq 2 n).
Proof.
  rewrite <- (seq_shift n 1), map_map. apply map_ext. intros k. lia.
Qed.

(** What [place_requests] did, as the list of the assignments it created:
    one row each, in order, with consecutive ids; each for a candidate that
    was not in the table. *)
Lemma place_created (candidates : list CreateFeedbackRequestDTO)
    (assignments : list Assignment) (requests : list FeedbackRequest) (lastID : Z) :
  exists created,
    fst (fst (place candidates assignments requests lastID))
    = requests ++ map (row_of_assignment now) created
    /\ snd (fst (place candidates assignments requests lastID))
       = lastID + Z.of_nat (List.length created)
    /\ map id created
       = map (fun k => lastID + Z.of_nat k) (List.seq 1 (List.length created))
    /\ (forall a, In a created -> In (requestData a) candidates)
    /\ (forall p, (List.length (filter p (map requestData created))
                   <= List.length (filter p candidates))%nat)
    /\ (forall assignments',
          snd (place candidates assignments requests lastID) = Ok assignments' ->
          assignments' = assignments ++ created).
Proof.
  revert assignments requests lastID.
  induction candidates as [|d rest IH]; intros assignments requests lastID.
  - exists []. cbn. rewrite !app_nil_r, Z.add_0_r.
    repeat split; try tauto; try lia. intros a' [= <-]. reflexivity.
  - cbn [place_requests].
    destruct (existsb (same_assignment (requester_id d) (provider_id d) (cycle_id d))
                requests).
    + destruct (IH assignments requests lastID)
        as (created & Hrows & Hseq & Hids & Hin & Hcount & Hok).
      exists created. repeat split; try assumption.
      * intros a Ha. right. now apply Hin.
      * intros p. specialize (Hcount p). cbn [filter].
        destruct (p d); cbn [List.length]; lia.
    + destruct (storage_rejects d).
      * exists []. cbn. rewrite !app_nil_r, Z.add_0_r.
        repeat split; try tauto; try lia. intros a' [=].
      * destruct (IH (assignments ++ [mkAssignment (lastID + 1) d])
                    (requests ++ [request_row now (lastID + 1) d]) (lastID + 1))
          as (created & Hrows & Hseq & Hids & Hin & Hcount & Hok).
        exists (mkAssignment (lastID + 1) d :: created).
        split; [|split; [|split; [|split; [|split]]]].
        -- rewrite Hrows, <- app_assoc. reflexivity.
        -- rewrite Hseq. cbn [List.length]. lia.
        -- cbn [map id List.length List.seq]. rewrite Hids, positions_shift.
           f_equal.
        -- intros a [<-|Ha]; [now left|right; now apply Hin].
        -- intros p. specialize (Hcount p). cbn [map requestData filter].
           destruct (p d); cbn [List.length]; lia.
        -- intros a' Ha'. rewrite (Hok a' Ha'), <- app_assoc. reflexivity.
Qed.

Lemma firstn_incl {A} (n : nat) (l : list A) (x : A) :
  In x (firstn n l) -> In x l.
Proof.
  intros H. rewrite <- (firstn_skipn n l). apply in_or_app. now left.
Qed.

Lemma Array_slice0_incl {A} (l : list A) (n : Z) (x : A) :
  In x (Array_slice0 l n) -> In x l.
Proof.
  unfold Array_slice0. destruct (n <? 0); apply firstn_incl.
Qed.

Lemma sql_limit_incl {A} (l : list A) (n : Z) (x : A) :
  In x (sql_limit n l) -> In x l.
Proof.
  unfold sql_limit. destruct (n <? 0); [tauto|apply firstn_incl].
Qed.

(** The peers selected for an employee are stored ranking rows of the
    employee, and none of them gave the employee a response on one of the
    last 28 days. *)
Lemma selected_peers_in (peersPerEmployee : Z) (employee : Employee) (db : DB)
    (peer : PeerRankingRow) :
  In peer (selected_peers now peersPerEmployee employee db) ->
  In peer (rows_of (emp_id employee) (peer_rankings db))
  /\ ~ responded_recently now (emp_id employee) (pr_peer_id peer) db.
Proof.
  unfold selected_peers, PeerRanker.getRankedPeers, filterRecentFeedback, bind, gets, ret.
  intros Hin. apply Array_slice0_incl in Hin. apply filter_In in Hin as [Hin Hrecent].
  apply sql_limit_incl in Hin.
  apply (Permutation_in _ (Array_sort_perm _ _)) in Hin.
  apply in_flat_map in Hin as (r & Hr & Hin).
  apply in_map_iff in Hin as (e & <- & _).
  split; [exact Hr|].
  intros (resp & Hresp & Hreq & Hprov & Hdate).
  apply negb_true_iff in Hrecent.
  assert (Hex : existsb (Z.eqb (pr_peer_id r))
                  (map resp_provider_id
                     (filter (fun r0 => (resp_requester_id r0 =? emp_id employee)
                                        && sql_text_after_iso (resp_submitted_at r0)
                                             (now - 30 * (1000 * 60 * 60 * 24)))
                        (feedback_responses db))) = true).
  { apply existsb_exists. exists (pr_peer_id r). split; [|apply Z.eqb_refl].
    rewrite <- Hprov. apply in_map. apply filter_In. split; [exact Hresp|].
    apply andb_true_iff. split; [now apply Z.eqb_eq|].
    unfold sql_text_after_iso. apply Z.ltb_lt.
    replace (now - 30 * (1000 * 60 * 60 * 24))
      with (now + (- 30) * (1000 * 60 * 60 * 24)) by lia.
    rewrite Z.div_add by lia. lia. }
  congruence.
Qed.

Lemma selected_peers_length (peersPerEmployee : Z) (employee : Employee) (db : DB) :
  0 <= peersPerEmployee ->
  Z.of_nat (List.length (selected_peers now peersPerEmployee employee db))
  <= peersPerEmployee.
Proof.
  intros Hn.
  unfold selected_peers, PeerRanker.getRankedPeers, filterRecentFeedback, bind, gets, ret.
  unfold Array_slice0. destruct (peersPerEmployee <? 0) eqn:Hneg.
  - apply Z.ltb_lt in Hneg. lia.
  - match goal with
    | |- Z.of_nat (List.length (firstn ?n ?l)) <= _ =>
        pose proof (firstn_le_length n l)
    end. lia.
Qed.

(** Every candidate of a run is for the cycle of the run, due at the end of
    the cycle, asked by an employee, and of one of the three types. *)
Lemma all_candidates_shape cycleId cycle peersPerEmployee include360 (db : DB)
    (d : CreateFeedbackRequestDTO) :
  In d (all_candidates now cycleId cycle peersPerEmployee include360 db) ->
  cycle_id d = cycleId
  /\ due_date d = cyc_end_date cycle
  /\ In (requester_id d) (map emp_id (employees db))
  /\ (request_type d = "peer" \/ request_type d = "manager"
      \/ request_type d = "upward").
Proof.
  unfold all_candidates. intros Hin.
  apply in_flat_map in Hin as (e & He & Hin).
  assert (Hreq : In (emp_id e) (map emp_id (employees db))) by now apply in_map.
  unfold candidates_of in Hin. apply in_app_or in Hin as [Hin|Hin].
  - unfold peer_candidates in Hin. apply in_map_iff in Hin as (peer & <- & _).
    cbn. tauto.
  - destruct include360; [|destruct Hin].
    apply in_app_or in Hin as [Hin|Hin].
    + unfold manager_candidates in Hin.
      destruct (emp_manager_id e) as [m|]; [|destruct Hin].
      destruct (truthy (Some m)); [|destruct Hin].
      destruct Hin as [<-|[]]. cbn. tauto.
    + unfold report_candidates in Hin.
      destruct (negb (emp_is_manager e =? 0)); [|destruct Hin].
      apply in_map_iff in Hin as (report & <- & _). cbn. tauto.
Qed.
End CreatedRequests.

(** The rows and the ids of the assignments a run returns. *)
Lemma created_rows_of_run
    (now : Z) (storage_rejects : FeedbackAssigner.CreateFeedbackRequestDTO -> bool)
    (cycleId : string) (peersPerEmployee : Z) (include360 : bool) (db : DB)
    (created : list FeedbackAssigner.Assignment) :
  let db' :=
    fst (FeedbackAssigner.assignFeedbackRequests now storage_rejects cycleId
           peersPerEmployee include360 db) in
  snd (FeedbackAssigner.assignFeedbackRequests now storage_rejects cycleId
         peersPerEmployee include360 db) = Ok created ->
  feedback_requests db'
  = feedback_requests db ++ map (row_of_assignment now) created
  /\ map FeedbackAssigner.id created
     = map (fun k => feedback_requests_seq db + Z.of_nat k)
         (List.seq 1 (List.length created))
  /\ exists cycle,
       snd (FeedbackAssigner.getCycle cycleId db) = Ok (Some cycle)
       /\ forall a, In a created ->
            req_status (row_of_assignment now a) = "pending"
            /\ req_cycle_id (row_of_assignment now a) = cycleId
            /\ req_due_date (row_of_assignment now a) = cyc_end_date cycle
            /\ In (req_requester_id (row_of_assignment now a))
                 (map emp_id (employees db))
            /\ In (req_request_type (row_of_assignment now a))
                 ["peer"; "manager"; "upward"].
Proof.
  cbv zeta. rewrite assignFeedbackRequests_run. cbv zeta.
  unfold FeedbackAssigner.getCycle, gets. cbn [snd].
  destruct (find (fun c => String.eqb (cyc_id c) cycleId) (feedback_cycles db))
    as [cycle|]; [|discriminate].
  destruct (place_created now storage_rejects
              (all_candidates now cycleId cycle peersPerEmployee include360 db) []
              (feedback_requests db) (feedback_requests_seq db))
    as (made & Hrows & _ & Hids & Hin & _ & Hok).
  destruct (place_requests now storage_rejects _ [] _ _) as [[requests lastID] r].
  cbn [fst snd] in *. intros Hr. specialize (Hok created Hr). cbn [app] in Hok.
  subst made. cbn [set_feedback_requests feedback_requests].
  split; [exact Hrows|]. split; [exact Hids|].
  exists cycle. split; [reflexivity|].
  intros a Ha. specialize (Hin a Ha).
  apply all_candidates_shape in Hin as (Hc & Hd & He & Ht).
  unfold row_of_assignment, request_row.
  cbn [req_status req_cycle_id req_due_date req_requester_id req_request_type].
  split; [reflexivity|]. split; [exact Hc|]. split; [exact Hd|]. split; [exact He|].
  destruct Ht as [-> | [-> | ->]]; cbn; tauto.
Qed.

(** X11.  When [assignFeedbackRequests] returns, the table holds the rows it
    held before followed by one row for each assignment returned, in the
    order returned, and the ids returned are the next ids of the table.
    Every request created is pending, belongs to the cycle of the run, is due
    at the end date of the cycle, is asked by an employee and is of type
    peer, manager or upward. *)
Theorem assignFeedbackRequests_created
    (now : Z) (storage_rejects : FeedbackAssigner.CreateFeedbackRequestDTO -> bool)
    (cycleId : string) (peersPerEmployee : Z) (include360 : bool) (db : DB)
    (created : list FeedbackAssigner.Assignment) :
  let db' :=
    fst (FeedbackAssigner.assignFeedbackRequests now storage_rejects cycleId
           peersPerEmployee include360 db) in
  snd (FeedbackAssigner.assignFeedbackRequests now storage_rejects cycleId
         peersPerEmployee include360 db) = Ok created ->
  feedback_requests db'
  = feedback_requests db ++ map (row_of_assignment now) created
  /\ map FeedbackAssigner.id created
     = map (fun k => feedback_requests_seq db + Z.of_nat k)
         (List.seq 1 (List.length created))
  /\ exists cycle,
       snd (FeedbackAssigner.getCycle cycleId db) = Ok (Some cycle)
       /\ forall a, In a created ->
            req_status (row_of_assignment now a) = "pending"
            /\ req_cycle_id (row_of_assignment now a) = cycleId
            /\ req_due_date (row_of_assignment now a) = cyc_end_date cycle
            /\ In (req_requester_id (row_of_assignment now a))
                 (map emp_id (employees db))
            /\ In (req_request_type (row_of_assignment now a))
                 ["peer"; "manager"; "upward"].
Proof.
  exact (created_rows_of_run now storage_rejects cycleId
           peersPerEmployee include360 db created).
Qed.

Lemma assignFeedbackRequests_created_witness :
  feedback_requests
    (fst (FeedbackAssigner.assignFeedbackRequests Scenario.now Scenario.storage_ok
            "cycle_1" 2 true Scenario.db))
  = feedback_requests Scenario.db
    ++ map (row_of_assignment Scenario.now)
         (match snd (FeedbackAssigner.assignFeedbackRequests Scenario.now
                       Scenario.storage_ok "cycle_1" 2 true Scenario.db) with
          | Ok created => created
          | Err _ => []
          end).
Proof.
  assert (H : snd (FeedbackAssigner.assignFeedbackRequests Scenario.now
                     Scenario.storage_ok "cycle_1" 2 true Scenario.db)
              = Ok (match snd (FeedbackAssigner.assignFeedbackRequests Scenario.now
                                 Scenario.storage_ok "cycle_1" 2 true Scenario.db) with
                    | Ok created => created
                    | Err _ => []
                    end)) by (vm_compute; reflexivity).
  exact (proj1 (assignFeedbackRequests_created Scenario.now Scenario.storage_ok
                  "cycle_1" 2 true Scenario.db _ H)).
Defined.



Section CandidateFacts.
Import FeedbackAssigner.
Variable now : Z.

Lemma fresh_rows_peer (employeeId : Z) (db : DB) (row : PeerRankingRow) :
  In row (fresh_rows now employeeId db) ->
  pr_employee_id row = employeeId
  /\ exists c, In c (collaborations db)
               /\ col_employee_id c = employeeId
               /\ col_peer_id c = pr_peer_id row.
Proof.
  unfold fresh_rows. intros Hin. apply in_map_iff in Hin as (r & <- & Hr).
  split; [reflexivity|].
  apply computeRankings_in in Hr as [Hne _].
  apply aggregates_peers in Hne. unfold ScoreFormula.rows_with in Hne.
  destruct (filter _ (collaborations db)) as [|c rows] eqn:Hf; [congruence|].
  assert (Hc : In c (filter
                       (fun c => (col_employee_id c =? employeeId)
                                 && (col_peer_id c =? PeerRanker.rk_peer_id r))
                       (collaborations db))) by (rewrite Hf; now left).
  apply filter_In in Hc as [Hc Hkey]. apply andb_true_iff in Hkey as [He Hp].
  apply Z.eqb_eq in He, Hp. exists c. cbn. tauto.
Qed.

(** The peers selected for an employee of the table after [rankAllPeers] are
    peers of an interaction row of the employee. *)
Lemma selected_peers_collaborate (peersPerEmployee : Z) (employee : Employee) (db : DB)
    (peer : PeerRankingRow) :
  In employee (employees db) ->
  In peer (selected_peers now peersPerEmployee employee
             (rerank now (map emp_id (employees db)) db)) ->
  exists c, In c (collaborations db)
            /\ col_employee_id c = emp_id employee
            /\ col_peer_id c = pr_peer_id peer.
Proof.
  intros He Hin. apply selected_peers_in in Hin as [Hin _].
  rewrite rerank_rows in Hin.
  assert (Hex : existsb (Z.eqb (emp_id employee)) (map emp_id (employees db)) = true).
  { apply existsb_exists. exists (emp_id employee).
    split; [now apply in_map|apply Z.eqb_refl]. }
  rewrite Hex in Hin. apply fresh_rows_peer in Hin as [_ Hc]. exact Hc.
Qed.

Lemma all_candidates_distinct cycleId cycle peersPerEmployee include360 (db : DB)
    (d : CreateFeedbackRequestDTO) :
  (forall c, In c (collaborations db) -> col_employee_id c <> col_peer_id c) ->
  (forall e, In e (employees db) -> emp_manager_id e <> Some (emp_id e)) ->
  In d (all_candidates now cycleId cycle peersPerEmployee include360 db) ->
  requester_id d <> provider_id d.
Proof.
  intros Hcollab Hmanager. unfold all_candidates. intros Hin.
  apply in_flat_map in Hin as (e & He & Hin).
  unfold candidates_of in Hin. apply in_app_or in Hin as [Hin|Hin].
  - unfold peer_candidates in Hin. apply in_map_iff in Hin as (peer & <- & Hpeer).
    apply (selected_peers_collaborate _ _ _ _ He) in Hpeer as (c & Hc & Hce & Hcp).
    cbn. rewrite <- Hce, <- Hcp. now apply Hcollab.
  - destruct include360; [|destruct Hin].
    apply in_app_or in Hin as [Hin|Hin].
    + unfold manager_candidates in Hin. specialize (Hmanager e He).
      destruct (emp_manager_id e) as [m|]; [|destruct Hin].
      destruct (truthy (Some m)); [|destruct Hin].
      destruct Hin as [<-|[]]. cbn. congruence.
    + unfold report_candidates in Hin.
      destruct (negb (emp_is_manager e =? 0)); [|destruct Hin].
      apply in_map_iff in Hin as (report & <- & Hreport).
      apply in_map_iff in Hreport as (e' & <- & He').
      rewrite (proj1 (rerank_frame now _ db)) in He'.
      apply filter_In in He' as [He' Hm]. specialize (Hmanager e' He').
      destruct (emp_manager_id e') as [m|]; [|discriminate].
      apply Z.eqb_eq in Hm. subst m. cbn. intros Heq. apply Hmanager.
      now rewrite Heq.
Qed.

(** The peer candidates of a run did not respond to their requester on one
    of the last 28 days. *)
Lemma all_candidates_not_recent cycleId cycle peersPerEmployee include360 (db : DB)
    (d : CreateFeedbackRequestDTO) :
  In d (all_candidates now cycleId cycle peersPerEmployee include360 db) ->
  request_type d = "peer" ->
  ~ responded_recently now (requester_id d) (provider_id d) db.
Proof.
  unfold all_candidates. intros Hin Htype.
  apply in_flat_map in Hin as (e & He & Hin).
  unfold candidates_of in Hin. apply in_app_or in Hin as [Hin|Hin].
  - unfold peer_candidates in Hin. apply in_map_iff in Hin as (peer & <- & Hpeer).
    apply selected_peers_in in Hpeer as [_ Hrecent]. cbn.
    intros (r & Hr & H). apply Hrecent. exists r. split; [|exact H].
    now rewrite (proj2 (proj2 (proj2 (proj2 (proj2 (rerank_frame now _ db)))))).
  - exfalso. destruct include360; [|destruct Hin].
    apply in_app_or in Hin as [Hin|Hin].
    + unfold manager_candidates in Hin.
      destruct (emp_manager_id e) as [m|]; [|destruct Hin].
      destruct (truthy (Some m)); [|destruct Hin].
      destruct Hin as [<-|[]]. discriminate.
    + unfold report_candidates in Hin.
      destruct (negb (emp_is_manager e =? 0)); [|destruct Hin].
      apply in_map_iff in Hin as (report & <- & _). discriminate.
Qed.
End CandidateFacts.

(** X13.  [assignFeedbackRequests] creates a request of an employee to
    themselves only from an interaction row of the employee with themselves
    or from an employee entered as their own manager: without such rows, a
    table in which no requester is their own provider stays so, whether the
    run returns or fails. *)
Theorem assignFeedbackRequests_self_only_from_data
    (now : Z) (storage_rejects : FeedbackAssigner.CreateFeedbackRequestDTO -> bool)
    (cycleId : string) (peersPerEmployee : Z) (include360 : bool) (db : DB) :
  (forall c, In c (collaborations db) -> col_employee_id c <> col_peer_id c) ->
  (forall e, In e (employees db) -> emp_manager_id e <> Some (emp_id e)) ->
  no_self_assignment db ->
  no_self_assignment
    (fst (FeedbackAssigner.assignFeedbackRequests now storage_rejects cycleId
            peersPerEmployee include360 db)).
Proof.
  intros Hcollab Hmanager Hbefore r. rewrite assignFeedbackRequests_run. cbv zeta.
  destruct (rerank_frame now (map emp_id (employees db)) db)
    as (_ & _ & _ & Hrq & _ & _).
  destruct (find (fun c => String.eqb (cyc_id c) cycleId) (feedback_cycles db))
    as [cycle|].
  - destruct (place_created now storage_rejects
                (all_candidates now cycleId cycle peersPerEmployee include360 db) []
                (feedback_requests db) (feedback_requests_seq db))
      as (made & Hrows & _ & _ & Hin & _ & _).
    destruct (place_requests now storage_rejects _ [] _ _) as [[requests lastID] res].
    cbn [fst snd set_feedback_requests feedback_requests] in *. subst requests.
    intros Hr. apply in_app_or in Hr as [Hr|Hr]; [now apply Hbefore|].
    apply in_map_iff in Hr as (a & <- & Ha).
    apply Hin in Ha.
    apply (all_candidates_distinct now _ _ _ _ _ _ Hcollab Hmanager) in Ha.
    exact Ha.
  - cbn [fst]. rewrite Hrq. apply Hbefore.
Qed.

Lemma assignFeedbackRequests_self_only_from_data_witness :
  no_self_assignment
    (fst (FeedbackAssigner.assignFeedbackRequests Scenario.now Scenario.storage_ok
            "cycle_1" 2 true Scenario.db)).
Proof.
  apply (assignFeedbackRequests_self_only_from_data Scenario.now Scenario.storage_ok
           "cycle_1" 2 true Scenario.db).
  - intros c [<-|[<-|[<-|[<-|[]]]]]; vm_compute; discriminate.
  - intros e [<-|[<-|[<-|[]]]]; vm_compute; discriminate.
  - intros r [].
Defined.

(** X14.  A peer request is never created for a provider who submitted a
    response to the requester on one of the last 28 days of the UTC calendar.
    The code compares the stored text of [submitted_at] with an ISO string,
    which compares the UTC dates alone, and moves the local date back by
    thirty days, so the limit falls on the 29th or 30th day back. *)
Theorem assignFeedbackRequests_skips_recent_providers
    (now : Z) (storage_rejects : FeedbackAssigner.CreateFeedbackRequestDTO -> bool)
    (cycleId : string) (peersPerEmployee : Z) (include360 : bool) (db : DB)
    (created : list FeedbackAssigner.Assignment) :
  snd (FeedbackAssigner.assignFeedbackRequests now storage_rejects cycleId
         peersPerEmployee include360 db) = Ok created ->
  Forall
    (fun a =>
       FeedbackAssigner.request_type (FeedbackAssigner.requestData a) = "peer" ->
       ~ responded_recently now
           (FeedbackAssigner.requester_id (FeedbackAssigner.requestData a))
           (FeedbackAssigner.provider_id (FeedbackAssigner.requestData a)) db)
    created.
Proof.
  rewrite assignFeedbackRequests_run. cbv zeta.
  destruct (find (fun c => String.eqb (cyc_id c) cycleId) (feedback_cycles db))
    as [cycle|]; [|discriminate].
  destruct (place_created now storage_rejects
              (all_candidates now cycleId cycle peersPerEmployee include360 db) []
              (feedback_requests db) (feedback_requests_seq db))
    as (made & _ & _ & _ & Hin & _ & Hok).
  destruct (place_requests now storage_rejects _ [] _ _) as [[requests lastID] res].
  cbn [fst snd] in *. intros Hr. specialize (Hok created Hr). cbn [app] in Hok.
  subst made. apply Forall_forall. intros a Ha Htype.
  apply (all_candidates_not_recent now cycleId cycle peersPerEmployee include360).
  - now apply Hin.
  - exact Htype.
Qed.

Lemma assignFeedbackRequests_skips_recent_providers_witness :
  Forall
    (fun a =>
       FeedbackAssigner.request_type (FeedbackAssigner.requestData a) = "peer" ->
       ~ responded_recently Scenario.now
           (FeedbackAssigner.requester_id (FeedbackAssigner.requestData a))
           (FeedbackAssigner.provider_id (FeedbackAssigner.requestData a))
           (mkDB Scenario.staff Scenario.interactions [] [Scenario.cycle]
              [] 0 [mkFeedbackResponse 1 1 2 (Scenario.now - Scenario.day)]))
    (match snd (FeedbackAssigner.assignFeedbackRequests Scenario.now
                  Scenario.storage_ok "cycle_1" 2 true
                  (mkDB Scenario.staff Scenario.interactions [] [Scenario.cycle]
                     [] 0 [mkFeedbackResponse 1 1 2 (Scenario.now - Scenario.day)]))
     with
     | Ok created => created
     | Err _ => []
     end).
Proof.
  apply (assignFeedbackRequests_skips_recent_providers Scenario.now
           Scenario.storage_ok "cycle_1" 2 true
           (mkDB Scenario.staff Scenario.interactions [] [Scenario.cycle]
              [] 0 [mkFeedbackResponse 1 1 2 (Scenario.now - Scenario.day)])).
  vm_compute. reflexivity.
Defined.

Section Quota.
Import FeedbackAssigner.
Variable now : Z.

Lemma filter_none {A} (p : A -> bool) (l : list A) :
  (forall x, In x l -> p x = false) -> filter p l = [].
Proof.
  induction l as [|x l IH]; intros H; [reflexivity|].
  cbn [filter]. rewrite (H x) by now left. apply IH. intros y Hy. apply H. now right.
Qed.

Lemma filter_map_length {A B} (p : B -> bool) (f : A -> B) (l : list A) :
  List.length (filter p (map f l)) = List.length (filter (fun x => p (f x)) l).
Proof.
  induction l as [|x l IH]; [reflexivity|].
  cbn [map filter]. destruct (p (f x)); cbn [List.length]; now rewrite IH.
Qed.

Lemma candidates_of_requester cycleId cycle peersPerEmployee include360 (db : DB)
    (employee : Employee) (d : CreateFeedbackRequestDTO) :
  In d (candidates_of now cycleId cycle peersPerEmployee include360 db employee) ->
  requester_id d = emp_id employee.
Proof.
  unfold candidates_of. intros Hin. apply in_app_or in Hin as [Hin|Hin].
  - unfold peer_candidates in Hin. apply in_map_iff in Hin as (peer & <- & _).
    reflexivity.
  - destruct include360; [|destruct Hin].
    apply in_app_or in Hin as [Hin|Hin].
    + unfold manager_candidates in Hin.
      destruct (emp_manager_id employee) as [m|]; [|destruct Hin].
      destruct (truthy (Some m)); [|destruct Hin].
      destruct Hin as [<-|[]]. reflexivity.
    + unfold report_candidates in Hin.
      destruct (negb (emp_is_manager employee =? 0)); [|destruct Hin].
      apply in_map_iff in Hin as (report & <- & _). reflexivity.
Qed.

Local Notation "'peer_request_of' e" :=
  (fun d => (requester_id d =? e) && String.eqb (request_type d) "peer")
  (at level 10, only parsing).

Lemma candidates_of_quota cycleId cycle peersPerEmployee include360 (db : DB)
    (employee : Employee) (e : Z) :
  0 <= peersPerEmployee ->
  Z.of_nat
    (List.length
       (filter (peer_request_of e)
          (candidates_of now cycleId cycle peersPerEmployee include360 db employee)))
  <= peersPerEmployee.
Proof.
  intros Hn. unfold candidates_of. rewrite filter_app, length_app.
  assert (Hrest :
            filter (peer_request_of e)
              (if include360
               then manager_candidates cycleId cycle employee
                    ++ report_candidates cycleId cycle employee db
               else []) = []).
  { apply filter_none. intros d Hin. destruct include360; [|destruct Hin].
    apply in_app_or in Hin as [Hin|Hin].
    - unfold manager_candidates in Hin.
      destruct (emp_manager_id employee) as [m|]; [|destruct Hin].
      destruct (truthy (Some m)); [|destruct Hin].
      destruct Hin as [<-|[]]. cbn. apply andb_false_r.
    - unfold report_candidates in Hin.
      destruct (negb (emp_is_manager employee =? 0)); [|destruct Hin].
      apply in_map_iff in Hin as (report & <- & _). cbn. apply andb_false_r. }
  rewrite Hrest. cbn [List.length]. rewrite Nat.add_0_r.
  pose proof (filter_length_le (peer_request_of e)
                (peer_candidates now cycleId cycle peersPerEmployee employee db)) as Hle.
  unfold peer_candidates in Hle at 2. rewrite length_map in Hle.
  pose proof (selected_peers_length now peersPerEmployee employee db Hn). lia.
Qed.

Lemma candidates_quota cycleId cycle peersPerEmployee include360 (db : DB)
    (emps : list Employee) (e : Z) :
  NoDup (map emp_id emps) ->
  0 <= peersPerEmployee ->
  Z.of_nat
    (List.length
       (filter (peer_request_of e)
          (flat_map (candidates_of now cycleId cycle peersPerEmployee include360 db)
             emps)))
  <= peersPerEmployee.
Proof.
  intros Hnd Hn. induction emps as [|employee rest IH]; [cbn; lia|].
  cbn [map] in Hnd. inversion Hnd as [|? ? Hfresh Hnd']; subst.
  cbn [flat_map]. rewrite filter_app, length_app.
  destruct (Z.eq_dec (emp_id employee) e) as [He|He].
  - assert (Hrest :
              filter (peer_request_of e)
                (flat_map (candidates_of now cycleId cycle peersPerEmployee include360 db)
                   rest) = []).
    { apply filter_none. intros d Hin. apply in_flat_map in Hin as (e' & He' & Hin).
      apply candidates_of_requester in Hin.
      assert (Hne : requester_id d <> e).
      { rewrite Hin, <- He. intros Heq. apply Hfresh. rewrite <- Heq.
        now apply in_map. }
      apply Z.eqb_neq in Hne. now rewrite Hne. }
    rewrite Hrest. cbn [List.length]. rewrite Nat.add_0_r.
    now apply candidates_of_quota.
  - assert (Hhead :
              filter (peer_request_of e)
                (candidates_of now cycleId cycle peersPerEmployee include360 db employee)
              = []).
    { apply filter_none. intros d Hin. apply candidates_of_requester in Hin.
      assert (Hne : requester_id d <> e) by congruence.
      apply Z.eqb_neq in Hne. now rewrite Hne. }
    rewrite Hhead. cbn [List.length Nat.add]. now apply IH.
Qed.
End Quota.

(** X15.  With the ids of the employees table distinct and a number of peers
    that is not negative, a run of [assignFeedbackRequests] creates at most
    [peersPerEmployee] peer requests for any one requester. *)
Theorem assignFeedbackRequests_peer_quota
    (now : Z) (storage_rejects : FeedbackAssigner.CreateFeedbackRequestDTO -> bool)
    (cycleId : string) (peersPerEmployee : Z) (include360 : bool) (db : DB)
    (created : list FeedbackAssigner.Assignment) (requesterId : Z) :
  NoDup (map emp_id (employees db)) ->
  0 <= peersPerEmployee ->
  snd (FeedbackAssigner.assignFeedbackRequests now storage_rejects cycleId
         peersPerEmployee include360 db) = Ok created ->
  Z.of_nat
    (List.length
       (filter
          (fun a =>
             (FeedbackAssigner.requester_id (FeedbackAssigner.requestData a)
              =? requesterId)
             && String.eqb
                  (FeedbackAssigner.request_type (FeedbackAssigner.requestData a))
                  "peer")
          created))
  <= peersPerEmployee.
Proof.
  intros Hnd Hn. rewrite assignFeedbackRequests_run. cbv zeta.
  destruct (find (fun c => String.eqb (cyc_id c) cycleId) (feedback_cycles db))
    as [cycle|]; [|discriminate].
  destruct (place_created now storage_rejects
              (all_candidates now cycleId cycle peersPerEmployee include360 db) []
              (feedback_requests db) (feedback_requests_seq db))
    as (made & _ & _ & _ & _ & Hcount & Hok).
  destruct (place_requests now storage_rejects _ [] _ _) as [[requests lastID] res].
  cbn [fst snd] in *. intros Hr. specialize (Hok created Hr). cbn [app] in Hok.
  subst made.
  specialize (Hcount (fun d => (FeedbackAssigner.requester_id d =? requesterId)
                               && String.eqb (FeedbackAssigner.request_type d) "peer")).
  rewrite filter_map_length in Hcount.
  pose proof (candidates_quota now cycleId cycle peersPerEmployee include360
                (rerank now (map emp_id (employees db)) db) (employees db)
                requesterId Hnd Hn) as Hquota.
  unfold all_candidates in Hcount. lia.
Qed.

Lemma assignFeedbackRequests_peer_quota_witness :
  Z.of_nat
    (List.length
       (filter
          (fun a =>
             (FeedbackAssigner.requester_id (FeedbackAssigner.requestData a) =? 1)
             && String.eqb
                  (FeedbackAssigner.request_type (FeedbackAssigner.requestData a))
                  "peer")
          (match snd (FeedbackAssigner.assignFeedbackRequests Scenario.now
                        Scenario.storage_ok "cycle_1" 1 true Scenario.db) with
           | Ok created => created
           | Err _ => []
           end)))
  <= 1.
Proof.
  apply (assignFeedbackRequests_peer_quota Scenario.now Scenario.storage_ok
           "cycle_1" 1 true Scenario.db).
  - vm_compute. repeat constructor; cbn; intuition discriminate.
  - lia.
  - vm_compute. reflexivity.
Defined.

(** ** Cycles *)

Lemma find_snoc {A} (f : A -> bool) (l : list A) (x : A) :
  find f (l ++ [x])
  = match find f l with
    | Some y => Some y
    | None => if f x then Some x else None
    end.
Proof.
  induction l as [|y l IH]; [reflexivity|].
  cbn [app find]. destruct (f y); [reflexivity|exact IH].
Qed.

Lemma existsb_find {A} (f : A -> bool) (l : list A) :
  existsb f l = match find f l with Some _ => true | None => false end.
Proof.
  induction l as [|y l IH]; [reflexivity|].
  cbn [existsb find]. destruct (f y); [reflexivity|exact IH].
Qed.

(** X16.  Round trip of [createCycle] and [getCycle].  When the id
    [cycle_<now>] is free, [createCycle] returns it and [getCycle] then finds
    under it the cycle with the name and dates given, the type given or
    'peer' when the type is absent or empty, and the status 'active'; the
    cycles stored under other ids are found as before. *)
Theorem createCycle_getCycle (now : Z)
    (cycleData : FeedbackAssigner.CreateFeedbackCycleDTO) (db : DB) :
  snd (FeedbackAssigner.getCycle (FeedbackAssigner.new_cycle_id now) db) = Ok None ->
  let cycleId := FeedbackAssigner.new_cycle_id now in
  let db' := fst (FeedbackAssigner.createCycle now cycleData db) in
  snd (FeedbackAssigner.createCycle now cycleData db) = Ok cycleId
  /\ (exists type,
        snd (FeedbackAssigner.getCycle cycleId db')
        = Ok (Some (mkFeedbackCycle cycleId (FeedbackAssigner.name cycleData) type
                      (FeedbackAssigner.start_date cycleData)
                      (FeedbackAssigner.end_date cycleData) "active"))
        /\ (forall t, FeedbackAssigner.type cycleData = Some t -> t <> "" -> type = t)
        /\ (FeedbackAssigner.type cycleData = None -> type = "peer")
        /\ (FeedbackAssigner.type cycleData = Some "" -> type = "peer"))
  /\ (forall other, other <> cycleId ->
        snd (FeedbackAssigner.getCycle other db')
        = snd (FeedbackAssigner.getCycle other db))
  /\ set_feedback_cycles (feedback_cycles db) db' = db.
Proof.
  unfold FeedbackAssigner.getCycle, gets. cbn [snd]. intros [= Hfree]. cbv zeta.
  unfold FeedbackAssigner.createCycle. rewrite existsb_find, Hfree.
  cbn [fst snd set_feedback_cycles feedback_cycles].
  split; [reflexivity|]. split; [|split].
  - eexists. split; [|split; [|split]].
    + rewrite find_snoc, Hfree. cbn [cyc_id]. rewrite String.eqb_refl. reflexivity.
    + intros t -> Ht. apply String.eqb_neq in Ht. now rewrite Ht.
    + intros ->. reflexivity.
    + intros ->. reflexivity.
  - intros other Hother. rewrite find_snoc. cbn [cyc_id].
    assert (Hne : String.eqb (FeedbackAssigner.new_cycle_id now) other = false).
    { apply String.eqb_neq. congruence. }
    rewrite Hne.
    destruct (find (fun c => String.eqb (cyc_id c) other) (feedback_cycles db));
      reflexivity.
  - destruct db; reflexivity.
Qed.

Lemma createCycle_getCycle_witness :
  snd (FeedbackAssigner.createCycle Scenario.now
         (FeedbackAssigner.mkCycleDTO "Annual" None 0 Scenario.now) Scenario.db)
  = Ok (FeedbackAssigner.new_cycle_id Scenario.now).
Proof.
  assert (H : snd (FeedbackAssigner.getCycle
                     (FeedbackAssigner.new_cycle_id Scenario.now) Scenario.db)
              = Ok None) by (vm_compute; reflexivity).
  exact (proj1 (createCycle_getCycle Scenario.now
                  (FeedbackAssigner.mkCycleDTO "Annual" None 0 Scenario.now)
                  Scenario.db H)).
Defined.

(** X17.  The id of a cycle is the millisecond of its creation: a second
    [createCycle] at the same clock value fails on the primary key and
    changes nothing, whatever the first call did. *)
Theorem createCycle_same_instant (now : Z)
    (first second : FeedbackAssigner.CreateFeedbackCycleDTO) (db : DB) :
  let db' := fst (FeedbackAssigner.createCycle now first db) in
  FeedbackAssigner.createCycle now second db'
  = (db', Err "UNIQUE constraint failed: feedback_cycles.id").
Proof.
  cbv zeta. unfold FeedbackAssigner.createCycle.
  destruct (existsb (fun c => String.eqb (cyc_id c) (FeedbackAssigner.new_cycle_id now))
              (feedback_cycles db)) eqn:Htaken.
  - cbn [fst]. rewrite Htaken. reflexivity.
  - cbn [fst set_feedback_cycles feedback_cycles].
    rewrite existsb_app. cbn [existsb cyc_id]. rewrite String.eqb_refl.
    rewrite orb_true_r. reflexivity.
Qed.

(** ** Status changes and the statistics *)

Section StatusChange.
Variable now : Z.
Variable requestId : Z.
Variable status : string.

Local Notation "'updated'" :=
  (fun r : FeedbackRequest =>
     if req_id r =? requestId then
       mkFeedbackRequest (req_id r) (req_requester_id r)
         (req_provider_id r) (req_cycle_id r) (req_request_type r)
         status (req_assigned_at r) (req_due_date r)
         (if String.eqb status "completed" then Some now
          else req_completed_at r)
         (req_reminder_count r) (req_last_reminder_at r)
     else r) (only parsing).

Lemma updateRequestStatus_rows (db : DB) :
  feedback_requests (fst (FeedbackAssigner.updateRequestStatus now requestId status db))
  = map updated (feedback_requests db).
Proof. reflexivity. Qed.

Lemma updated_of_cycle (cycleId : string) (l : list FeedbackRequest) :
  filter (fun r => String.eqb (req_cycle_id r) cycleId) (map updated l)
  = map updated (filter (fun r => String.eqb (req_cycle_id r) cycleId) l).
Proof.
  induction l as [|x l IH]; [reflexivity|].
  cbn [map filter].
  destruct (String.eqb (req_cycle_id x) cycleId) eqn:Hc; cbn [map];
    destruct (req_id x =? requestId); cbn [req_cycle_id]; now rewrite Hc, IH.
Qed.

Lemma updated_absent (l : list FeedbackRequest) :
  ~ In requestId (map req_id l) -> map updated l = l.
Proof.
  induction l as [|x l IH]; intros Hnin; [reflexivity|].
  cbn [map]. destruct (req_id x =? requestId) eqn:Hx.
  - apply Z.eqb_eq in Hx. exfalso. apply Hnin. now left.
  - rewrite IH; [reflexivity|]. intros Hin. apply Hnin. now right.
Qed.

Lemma count_status_cons (s : string) (x : FeedbackRequest) (l : list FeedbackRequest) :
  count_status s (x :: l)
  = (if String.eqb (req_status x) s then 1 else 0) + count_status s l.
Proof.
  unfold count_status. cbn [filter]. destruct (String.eqb (req_status x) s).
  - cbn [List.length]. lia.
  - lia.
Qed.

Lemma count_status_updated (s : string) (l : list FeedbackRequest) (r : FeedbackRequest) :
  NoDup (map req_id l) -> In r l -> req_id r = requestId ->
  count_status s (map updated l)
  = count_status s l + (if String.eqb status s then 1 else 0)
    - (if String.eqb (req_status r) s then 1 else 0).
Proof.
  intros Hnd Hin Hid. induction l as [|x l IH]; [destruct Hin|].
  cbn [map] in Hnd. apply NoDup_cons_iff in Hnd as [Hx Hnd'].
  cbn [map]. destruct Hin as [->|Hin].
  - rewrite Hid in Hx. rewrite Hid, Z.eqb_refl, updated_absent by exact Hx.
    rewrite !count_status_cons. cbn [req_status]. lia.
  - assert (Hne : (req_id x =? requestId) = false).
    { apply Z.eqb_neq. intros Heq. apply Hx. rewrite Heq, <- Hid. now apply in_map. }
    rewrite Hne, !count_status_cons, (IH Hnd' Hin). lia.
Qed.

(** The requests of one cycle have distinct ids when all requests have. *)
Lemma requests_of_cycle_ids (cycleId : string) (requests : list FeedbackRequest) :
  NoDup (map req_id requests) ->
  NoDup (map req_id
           (filter (fun r => String.eqb (req_cycle_id r) cycleId) requests)).
Proof.
  induction requests as [|x rest IH]; intros Hids; [constructor|].
  cbn [map] in Hids. apply NoDup_cons_iff in Hids as [Hx Hrest].
  cbn [filter]. destruct (String.eqb (req_cycle_id x) cycleId); [|now apply IH].
  cbn [map]. apply NoDup_cons; [|now apply IH].
  intros Hin. apply Hx. apply in_map_iff in Hin as (y & Hy & Hin).
  rewrite <- Hy. apply in_map. apply filter_In in Hin. tauto.
Qed.
End StatusChange.

(** X18.  With request ids distinct, completing a pending request moves one
    request of its cycle from pending to completed in [getCycleStats]: the
    total and the overdue count stay, and the statistics of the other cycles
    are what they were. *)
Theorem updateRequestStatus_completes (now requestId : Z) (db : DB)
    (r : FeedbackRequest) :
  NoDup (map req_id (feedback_requests db)) ->
  In r (feedback_requests db) ->
  req_id r = requestId ->
  req_status r = "pending" ->
  let db' := fst (FeedbackAssigner.updateRequestStatus now requestId "completed" db) in
  (exists stats stats' completed pending,
     snd (FeedbackAssigner.getCycleStats (req_cycle_id r) db) = Ok stats
     /\ snd (FeedbackAssigner.getCycleStats (req_cycle_id r) db') = Ok stats'
     /\ FeedbackAssigner.completed_count stats = Some completed
     /\ FeedbackAssigner.completed_count stats' = Some (completed + 1)
     /\ FeedbackAssigner.pending_count stats = Some pending
     /\ FeedbackAssigner.pending_count stats' = Some (pending - 1)
     /\ FeedbackAssigner.overdue_count stats' = FeedbackAssigner.overdue_count stats
     /\ FeedbackAssigner.total_requests stats' = FeedbackAssigner.total_requests stats)
  /\ forall other, other <> req_cycle_id r ->
       snd (FeedbackAssigner.getCycleStats other db')
       = snd (FeedbackAssigner.getCycleStats other db).
Proof.
  intros Hnd Hin Hid Hstatus. cbv zeta.
  unfold FeedbackAssigner.getCycleStats, gets. cbn [snd].
  rewrite updateRequestStatus_rows. split.
  - rewrite updated_of_cycle.
    set (rows := filter (fun x => String.eqb (req_cycle_id x) (req_cycle_id r))
                   (feedback_requests db)).
    assert (Hr : In r rows).
    { apply filter_In. split; [exact Hin|apply String.eqb_refl]. }
    assert (Hrows : rows <> []) by (intros E; rewrite E in Hr; destruct Hr).
    assert (Hnd' : NoDup (map req_id rows)) by now apply requests_of_cycle_ids.
    assert (Hrows' : map
                       (fun x : FeedbackRequest =>
                          if req_id x =? requestId then
                            mkFeedbackRequest (req_id x) (req_requester_id x)
                              (req_provider_id x) (req_cycle_id x) (req_request_type x)
                              "completed" (req_assigned_at x) (req_due_date x)
                              (if String.eqb "completed" "completed" then Some now
                               else req_completed_at x)
                              (req_reminder_count x) (req_last_reminder_at x)
                          else x) rows <> []).
    { destruct rows; [contradiction|discriminate]. }
    do 2 eexists. exists (count_status "completed" rows), (count_status "pending" rows).
    split; [reflexivity|]. split; [reflexivity|].
    cbn [FeedbackAssigner.total_requests FeedbackAssigner.completed_count
         FeedbackAssigner.pending_count FeedbackAssigner.overdue_count].
    rewrite !sum_case_status_count by assumption.
    rewrite !(count_status_updated now requestId "completed" _ rows r Hnd' Hr Hid).
    rewrite Hstatus, length_map. cbn [String.eqb Ascii.eqb Bool.eqb].
    repeat split; f_equal; lia.
  - intros other Hother. rewrite updated_of_cycle, updated_absent; [reflexivity|].
    intros Hin'. apply in_map_iff in Hin' as (x & Hx & Hin').
    apply filter_In in Hin' as [Hin' Hc]. apply String.eqb_eq in Hc.
    assert (x = r); [|congruence].
    clear - Hnd Hin Hin' Hx Hid. rewrite <- Hid in Hx. clear Hid.
    induction (feedback_requests db) as [|y l IH]; [destruct Hin|].
    cbn [map] in Hnd. inversion Hnd as [|? ? Hy Hnd']; subst.
    destruct Hin as [->|Hin], Hin' as [->|Hin'].
    + reflexivity.
    + exfalso. apply Hy. rewrite <- Hx. now apply in_map.
    + exfalso. apply Hy. rewrite Hx. now apply in_map.
    + now apply IH.
Qed.

Lemma updateRequestStatus_completes_witness :
  exists stats stats' completed pending,
    snd (FeedbackAssigner.getCycleStats "cycle_1" Scenario.late_db) = Ok stats
    /\ snd (FeedbackAssigner.getCycleStats "cycle_1"
              (fst (FeedbackAssigner.updateRequestStatus Scenario.now 1 "completed"
                      Scenario.late_db))) = Ok stats'
    /\ FeedbackAssigner.completed_count stats = Some completed
    /\ FeedbackAssigner.completed_count stats' = Some (completed + 1)
    /\ FeedbackAssigner.pending_count stats = Some pending
    /\ FeedbackAssigner.pending_count stats' = Some (pending - 1)
    /\ FeedbackAssigner.overdue_count stats' = FeedbackAssigner.overdue_count stats
    /\ FeedbackAssigner.total_requests stats' = FeedbackAssigner.total_requests stats.
Proof.
  assert (Hnd : NoDup (map req_id (feedback_requests Scenario.late_db))).
  { vm_compute. repeat constructor. cbn. tauto. }
  assert (Hin : In (mkFeedbackRequest 1 2 1 "cycle_1" "manager" "pending"
                      (Scenario.now - Scenario.day) (Scenario.now - 8 * Scenario.day)
                      None 0 None)
                  (feedback_requests Scenario.late_db)) by (left; reflexivity).
  exact (proj1 (updateRequestStatus_completes Scenario.now 1 Scenario.late_db _
                  Hnd Hin eq_refl eq_refl)).
Defined.

(** ** Reading requests *)

Section Reading.
Import FeedbackQueries.

Lemma sql_join_in {A B} (on : A -> B -> bool) (a : list A) (b : list B) (x : A) (y : B) :
  In (x, y) (sql_join on a b) <-> In x a /\ In y b /\ on x y = true.
Proof.
  unfold sql_join. rewrite in_flat_map. split.
  - intros (x' & Hx & Hin). apply in_map_iff in Hin as (y' & [= <- <-] & Hy).
    apply filter_In in Hy. tauto.
  - intros (Hx & Hy & Hon). exists x. split; [exact Hx|].
    apply in_map. apply filter_In. tauto.
Qed.

Lemma requester_and_cycle_in (requests : list FeedbackRequest) (db : DB)
    (fr : FeedbackRequest) (e : Employee) (fc : FeedbackCycle) :
  In (fr, e, fc) (requester_and_cycle requests db)
  <-> In fr requests
      /\ In e (employees db) /\ emp_id e = req_requester_id fr
      /\ In fc (feedback_cycles db) /\ cyc_id fc = req_cycle_id fr.
Proof.
  unfold requester_and_cycle. rewrite sql_join_in, sql_join_in. cbn [fst].
  rewrite Z.eqb_eq, String.eqb_eq. intuition congruence.
Qed.

Lemma sort_insert_in {A} (cmp : A -> A -> Q) (x y : A) (l : list A) :
  In y (sort_insert cmp x l) <-> y = x \/ In y l.
Proof.
  induction l as [|z l IH]; cbn [sort_insert].
  - cbn. intuition.
  - destruct (Qle_bool (cmp x z) 0); cbn [In]; [intuition|].
    rewrite IH. intuition.
Qed.

Lemma sql_order_by_asc_in {A} (key : A -> Z) (l : list A) (y : A) :
  In y (sql_order_by_asc key l) <-> In y l.
Proof.
  unfold sql_order_by_asc, Array_sort.
  induction l as [|x l IH]; [reflexivity|].
  cbn [fold_right]. rewrite sort_insert_in, IH. cbn [In]. intuition.
Qed.

Lemma sort_insert_by_key {A} (key : A -> Z) (x : A) (l : list A) :
  StronglySorted (fun a b => key a <= key b) l ->
  StronglySorted (fun a b => key a <= key b)
    (sort_insert (fun a b => inject_Z (key a - key b)) x l).
Proof.
  induction l as [|y l IH]; intros Hs; cbn [sort_insert].
  - constructor; constructor.
  - inversion Hs as [|? ? Hs' Hy]; subst.
    destruct (Qle_bool (inject_Z (key x - key y)) 0) eqn:Hle.
    + apply Qle_bool_iff in Hle. unfold Qle in Hle.
      cbn [Qnum Qden inject_Z] in Hle.
      constructor; [exact Hs|]. constructor; [lia|].
      rewrite Forall_forall in *. intros z Hz. specialize (Hy z Hz). lia.
    + assert (Hlt : key y < key x).
      { destruct (Z_lt_le_dec (key y) (key x)) as [H|H]; [exact H|].
        assert (Qle_bool (inject_Z (key x - key y)) 0 = true); [|congruence].
        apply Qle_bool_iff. unfold Qle. cbn [Qnum Qden inject_Z]. lia. }
      constructor; [now apply IH|].
      rewrite Forall_forall in *. intros z Hz. apply sort_insert_in in Hz as [->|Hz].
      * lia.
      * now apply Hy.
Qed.

Lemma sql_order_by_asc_by_key {A} (key : A -> Z) (l : list A) :
  StronglySorted (fun a b => key a <= key b) (sql_order_by_asc key l).
Proof.
  unfold sql_order_by_asc, Array_sort.
  induction l as [|x l IH]; [constructor|].
  cbn [fold_right]. now apply sort_insert_by_key.
Qed.

Lemma getPendingRequests_in (employeeId : Z) (db : DB)
    (fr : FeedbackRequest) (e : Employee) (fc : FeedbackCycle) :
  In (fr, e, fc)
    (match snd (getPendingRequests employeeId db) with Ok rows => rows | Err _ => [] end)
  <-> In fr (feedback_requests db)
      /\ req_provider_id fr = employeeId /\ req_status fr = "pending"
      /\ In e (employees db) /\ emp_id e = req_requester_id fr
      /\ In fc (feedback_cycles db) /\ cyc_id fc = req_cycle_id fr.
Proof.
  unfold getPendingRequests, gets. cbn [snd].
  rewrite sql_order_by_asc_in, requester_and_cycle_in, filter_In, andb_true_iff,
    Z.eqb_eq, String.eqb_eq.
  tauto.
Qed.
End Reading.

(** X19.  [getPendingRequests(employeeId)] returns, in the order of their
    due dates, the rows made of a pending request whose provider is the
    employee, an employee row of its requester and a cycle row of its cycle,
    and no other row: a request whose requester or cycle has no row is not
    listed. *)
Theorem getPendingRequests_spec (employeeId : Z) (db : DB) :
  exists rows,
    FeedbackQueries.getPendingRequests employeeId db = (db, Ok rows)
    /\ (forall fr e fc,
          In (fr, e, fc) rows
          <-> In fr (feedback_requests db)
              /\ req_provider_id fr = employeeId /\ req_status fr = "pending"
              /\ In e (employees db) /\ emp_id e = req_requester_id fr
              /\ In fc (feedback_cycles db) /\ cyc_id fc = req_cycle_id fr)
    /\ StronglySorted
         (fun a b => req_due_date (fst (fst a)) <= req_due_date (fst (fst b))) rows.
Proof.
  eexists. split; [reflexivity|]. split.
  - intros fr e fc. apply (getPendingRequests_in employeeId db fr e fc).
  - apply (sql_order_by_asc_by_key (fun row => req_due_date (fst (fst row)))).
Qed.

(** X20.  [getRequestDetails(requestId)] returns a request with that id
    together with an employee row of its requester and a cycle row of its
    cycle; it returns nothing exactly when no request with that id has both,
    also when the request itself is in the table. *)
Theorem getRequestDetails_spec (requestId : Z) (db : DB) :
  let found fr e fc :=
    In fr (feedback_requests db) /\ req_id fr = requestId
    /\ In e (employees db) /\ emp_id e = req_requester_id fr
    /\ In fc (feedback_cycles db) /\ cyc_id fc = req_cycle_id fr in
  match FeedbackQueries.getRequestDetails requestId db with
  | (db', Ok (Some (fr, e, fc))) => db' = db /\ found fr e fc
  | (db', Ok None) => db' = db /\ forall fr e fc, ~ found fr e fc
  | (_, Err _) => False
  end.
Proof.
  cbv zeta. unfold FeedbackQueries.getRequestDetails, gets.
  destruct (FeedbackQueries.requester_and_cycle
              (filter (fun fr => req_id fr =? requestId) (feedback_requests db)) db)
    as [|[[fr e] fc] rows] eqn:Hrows; cbn [hd_error].
  - split; [reflexivity|]. intros fr e fc (Hfr & Hid & He & Hee & Hfc & Hcc).
    assert (Hin : In (fr, e, fc)
                    (FeedbackQueries.requester_and_cycle
                       (filter (fun fr => req_id fr =? requestId)
                          (feedback_requests db)) db)).
    { apply requester_and_cycle_in. rewrite filter_In, Z.eqb_eq. tauto. }
    rewrite Hrows in Hin. destruct Hin.
  - split; [reflexivity|].
    assert (Hin : In (fr, e, fc)
                    (FeedbackQueries.requester_and_cycle
                       (filter (fun fr => req_id fr =? requestId)
                          (feedback_requests db)) db))
      by (rewrite Hrows; now left).
    apply requester_and_cycle_in in Hin. rewrite filter_In, Z.eqb_eq in Hin. tauto.
Qed.

(** X21.  Completing a request takes it off the pending list of its
    provider and changes nothing else there: after
    [updateRequestStatus(requestId, 'completed')], [getPendingRequests] lists
    no request with that id, and lists a row of another request exactly when
    it listed it before. *)
Theorem updateRequestStatus_leaves_pending (now requestId employeeId : Z) (db : DB)
    (fr : FeedbackRequest) (e : Employee) (fc : FeedbackCycle) :
  let pending db :=
    match snd (FeedbackQueries.getPendingRequests employeeId db) with
    | Ok rows => rows
    | Err _ => []
    end in
  let db' := fst (FeedbackAssigner.updateRequestStatus now requestId "completed" db) in
  (In (fr, e, fc) (pending db') -> req_id fr <> requestId)
  /\ (req_id fr <> requestId ->
      (In (fr, e, fc) (pending db') <-> In (fr, e, fc) (pending db))).
Proof.
  cbv zeta. rewrite !getPendingRequests_in, updateRequestStatus_rows.
  assert (Hrows : forall x,
            In x (map
                    (fun r : FeedbackRequest =>
                       if req_id r =? requestId then
                         mkFeedbackRequest (req_id r) (req_requester_id r)
                           (req_provider_id r) (req_cycle_id r) (req_request_type r)
                           "completed" (req_assigned_at r) (req_due_date r)
                           (if String.eqb "completed" "completed" then Some now
                            else req_completed_at r)
                           (req_reminder_count r) (req_last_reminder_at r)
                       else r) (feedback_requests db)) ->
            (req_id x = requestId /\ req_status x = "completed")
            \/ (req_id x <> requestId /\ In x (feedback_requests db))).
  { intros x Hx. apply in_map_iff in Hx as (r & <- & Hr).
    destruct (req_id r =? requestId) eqn:Hid.
    - left. apply Z.eqb_eq in Hid. cbn. tauto.
    - right. apply Z.eqb_neq in Hid. tauto. }
  assert (Hemp : employees (fst (FeedbackAssigner.updateRequestStatus now requestId
                                   "completed" db)) = employees db) by reflexivity.
  assert (Hcyc : feedback_cycles (fst (FeedbackAssigner.updateRequestStatus now
                                         requestId "completed" db))
                 = feedback_cycles db) by reflexivity.
  rewrite Hemp, Hcyc. split.
  - intros (Hfr & _ & Hst & _) Hid. apply Hrows in Hfr as [[_ Hc]|[Hne _]].
    + congruence.
    + contradiction.
  - intros Hne. split.
    + intros (Hfr & H). apply Hrows in Hfr as [[Hid _]|[_ Hfr]]; [contradiction|].
      tauto.
    + intros (Hfr & H). split; [|exact H].
      apply in_map_iff. exists fr. split; [|exact Hfr].
      apply Z.eqb_neq in Hne. now rewrite Hne.
Qed.

(** ** Closing cycles twice *)

Lemma autoCloseCycles_settled (now : Z) (db : DB) :
  NoDup (map cyc_id (feedback_cycles db)) ->
  (forall c, In c (feedback_cycles db) -> ~ closes now db c) ->
  ReminderSystem.autoCloseCycles now db = (db, Ok tt).
Proof.
  intros Hnd Hnone. rewrite autoCloseCycles_run. f_equal.
  assert (Hsame : map (fun c =>
                         if existsb (fun e => ReminderSystem.shouldClose now e db
                                              && String.eqb (cyc_id c) (cyc_id e))
                              (filter (fun c => String.eqb (cyc_status c) "active"
                                                && (cyc_end_date c <? now))
                                 (feedback_cycles db))
                         then with_status "completed" c else c)
                    (feedback_cycles db)
                  = feedback_cycles db).
  { etransitivity; [|apply map_id]. apply map_ext_in. intros c Hc.
    destruct (existsb _ _) eqn:Hsel; [|reflexivity].
    exfalso. apply (Hnone c Hc). now apply (closes_iff_selected now db c Hnd Hc). }
  rewrite Hsame. destruct db; reflexivity.
Qed.

(** X22.  With cycle ids unique, a second [autoCloseCycles] at the same
    clock value changes nothing: the cycles the first run closed are no
    longer active, and the first run left no cycle that meets the
    condition. *)
Theorem autoCloseCycles_twice (now : Z) (db : DB) :
  NoDup (map cyc_id (feedback_cycles db)) ->
  let db' := fst (ReminderSystem.autoCloseCycles now db) in
  ReminderSystem.autoCloseCycles now db' = (db', Ok tt).
Proof.
  intros Hnd. cbv zeta. apply autoCloseCycles_settled.
  - rewrite autoCloseCycles_run. cbn [fst set_feedback_cycles feedback_cycles].
    rewrite map_map.
    erewrite map_ext; [exact Hnd|].
    intros c. cbn beta. destruct (existsb _ _); reflexivity.
  - rewrite autoCloseCycles_run. cbn [fst set_feedback_cycles feedback_cycles].
    intros c1 Hc1. apply in_map_iff in Hc1 as (c & <- & Hc).
    destruct (existsb _ _) eqn:Hsel.
    + intros (Hactive & _). discriminate.
    + intros Hcloses.
      assert (Hbefore : closes now db c).
      { unfold closes, requests_of_cycle in *.
        cbn [feedback_requests set_feedback_cycles] in Hcloses. exact Hcloses. }
      apply (closes_iff_selected now db c Hnd Hc) in Hbefore. congruence.
Qed.

Lemma autoCloseCycles_twice_witness :
  ReminderSystem.autoCloseCycles Scenario.now
    (fst (ReminderSystem.autoCloseCycles Scenario.now Scenario.late_db))
  = (fst (ReminderSystem.autoCloseCycles Scenario.now Scenario.late_db), Ok tt).
Proof.
  apply (autoCloseCycles_twice Scenario.now Scenario.late_db).
  vm_compute. repeat constructor; cbn; intuition discriminate.
Defined.

(** ** The handler that creates a cycle *)

Section CycleCreation.
Variable now : Z.
Variable storage_rejects : FeedbackAssigner.CreateFeedbackRequestDTO -> bool.

Lemma place_accepts (candidates : list FeedbackAssigner.CreateFeedbackRequestDTO)
    (assignments : list FeedbackAssigner.Assignment)
    (requests : list FeedbackRequest) (lastID : Z) :
  (forall d, storage_rejects d = false) ->
  exists created,
    snd (place_requests now storage_rejects candidates assignments requests lastID)
    = Ok created.
Proof.
  intros Hok. revert assignments requests lastID.
  induction candidates as [|d rest IH]; intros assignments requests lastID.
  - exists assignments. reflexivity.
  - cbn [place_requests]. destruct (existsb _ requests); [apply IH|].
    rewrite Hok. apply IH.
Qed.

(** The state after the INSERT of [createCycle]. *)
Lemma createCycle_run (cycleData : FeedbackAssigner.CreateFeedbackCycleDTO) (db : DB) :
  snd (FeedbackAssigner.getCycle (FeedbackAssigner.new_cycle_id now) db) = Ok None ->
  exists cycle,
    FeedbackAssigner.createCycle now cycleData db
    = (set_feedback_cycles (feedback_cycles db ++ [cycle]) db,
       Ok (FeedbackAssigner.new_cycle_id now))
    /\ cyc_id cycle = FeedbackAssigner.new_cycle_id now
    /\ cyc_status cycle = "active"
    /\ cyc_end_date cycle = FeedbackAssigner.end_date cycleData
    /\ snd (FeedbackAssigner.getCycle (FeedbackAssigner.new_cycle_id now)
              (set_feedback_cycles (feedback_cycles db ++ [cycle]) db))
       = Ok (Some cycle).
Proof.
  unfold FeedbackAssigner.getCycle, gets. cbn [snd]. intros [= Hfree].
  unfold FeedbackAssigner.createCycle. rewrite existsb_find, Hfree.
  eexists. split; [reflexivity|]. cbn [cyc_id cyc_status cyc_end_date].
  repeat (split; [reflexivity|]).
  cbn [set_feedback_cycles feedback_cycles].
  rewrite find_snoc, Hfree. cbn [cyc_id]. rewrite String.eqb_refl. reflexivity.
Qed.

Lemma createCycle_taken (cycleData : FeedbackAssigner.CreateFeedbackCycleDTO) (db : DB)
    (cycle : FeedbackCycle) :
  snd (FeedbackAssigner.getCycle (FeedbackAssigner.new_cycle_id now) db)
  = Ok (Some cycle) ->
  FeedbackAssigner.createCycle now cycleData db
  = (db, Err "UNIQUE constraint failed: feedback_cycles.id").
Proof.
  unfold FeedbackAssigner.getCycle, gets. cbn [snd]. intros [= Htaken].
  unfold FeedbackAssigner.createCycle. rewrite existsb_find, Htaken. reflexivity.
Qed.
End CycleCreation.

(** X23.  When the handler of [POST /] on the cycles router answers with
    status 200, the id in the answer is [cycle_<now>], it was free and now
    names an active cycle; [assignments] are the requests created, each one
    stored pending for that cycle and due at the end date of the body, and
    [assignmentCount] is their number. *)
Theorem post_cycle_response
    (now : Z) (storage_rejects : FeedbackAssigner.CreateFeedbackRequestDTO -> bool)
    (cycleData : FeedbackAssigner.CreateFeedbackCycleDTO)
    (config : option CyclesRoute.Config) (db db' : DB) (response : CyclesRoute.Response) :
  CyclesRoute.post now storage_rejects cycleData config db = (db', Ok response) ->
  CyclesRoute.cycleId response = FeedbackAssigner.new_cycle_id now
  /\ snd (FeedbackAssigner.getCycle (CyclesRoute.cycleId response) db) = Ok None
  /\ (exists cycle,
        snd (FeedbackAssigner.getCycle (CyclesRoute.cycleId response) db')
        = Ok (Some cycle)
        /\ cyc_status cycle = "active")
  /\ feedback_requests db'
     = feedback_requests db
       ++ map (row_of_assignment now) (CyclesRoute.assignments response)
  /\ CyclesRoute.assignmentCount response
     = Z.of_nat (List.length (CyclesRoute.assignments response))
  /\ forall a, In a (CyclesRoute.assignments response) ->
       req_status (row_of_assignment now a) = "pending"
       /\ req_cycle_id (row_of_assignment now a) = CyclesRoute.cycleId response
       /\ req_due_date (row_of_assignment now a) = FeedbackAssigner.end_date cycleData.
Proof.
  unfold CyclesRoute.post. unfold bind at 1.
  destruct (find (fun c => String.eqb (cyc_id c) (FeedbackAssigner.new_cycle_id now))
              (feedback_cycles db)) as [taken|] eqn:Hfind.
  - rewrite (createCycle_taken now cycleData db taken)
      by (unfold FeedbackAssigner.getCycle, gets; cbn [snd]; now rewrite Hfind).
    discriminate.
  - assert (Hfree : snd (FeedbackAssigner.getCycle (FeedbackAssigner.new_cycle_id now) db)
                    = Ok None)
      by (unfold FeedbackAssigner.getCycle, gets; cbn [snd]; now rewrite Hfind).
    destruct (createCycle_run now cycleData db Hfree)
      as (cycle & -> & Hid & Hactive & Hend & Hget).
    set (db1 := set_feedback_cycles (feedback_cycles db ++ [cycle]) db) in *.
    unfold bind.
    destruct (CyclesRoute.auto_assign
                match config with
                | Some c => c
                | None => CyclesRoute.mkConfig None false false None
                end) as [[|]|];
      try (cbn [ret]; intros [= <- <-];
           cbn [CyclesRoute.cycleId CyclesRoute.assignments CyclesRoute.assignmentCount
                map List.length];
           split; [reflexivity|]; split; [exact Hfree|];
           split; [exists cycle; split; [exact Hget|exact Hactive]|];
           split; [subst db1; cbn; now rewrite app_nil_r|];
           split; [reflexivity|]; intros a []).
    all: match goal with
         | |- context [FeedbackAssigner.assignFeedbackRequests ?n ?s ?c ?k ?i ?d] =>
             pose proof (created_rows_of_run n s c k i d) as Hrows;
             pose proof (assignFeedbackRequests_cycles n s c k i d) as Hcycles;
             destruct (FeedbackAssigner.assignFeedbackRequests n s c k i d)
               as [db2 [created|msg]]
         end; try discriminate.
    all: cbn [ret]; intros [= <- <-];
         cbn [CyclesRoute.cycleId CyclesRoute.assignments CyclesRoute.assignmentCount];
         cbn [fst snd] in Hrows, Hcycles;
         destruct (Hrows created eq_refl) as (Hreqs & _ & cycle' & Hget' & Hshape);
         rewrite Hget in Hget'; injection Hget' as <-;
         (split; [reflexivity|]); (split; [exact Hfree|]);
         (split; [exists cycle; split; [|exact Hactive];
                  unfold FeedbackAssigner.getCycle, gets in *; cbn [snd] in *;
                  now rewrite Hcycles|]);
         (split; [exact Hreqs|]); (split; [reflexivity|]);
         intros a Ha; destruct (Hshape a Ha) as (H1 & H2 & H3 & _);
         rewrite <- Hend; tauto.
Qed.

Lemma post_cycle_response_witness :
  CyclesRoute.cycleId
    (match snd (CyclesRoute.post Scenario.now Scenario.storage_ok
                  (FeedbackAssigner.mkCycleDTO "Annual" (Some "360") 0
                     (Scenario.now + Scenario.day))
                  None Scenario.db) with
     | Ok response => response
     | Err _ => CyclesRoute.mkResponse "" [] 0
     end)
  = FeedbackAssigner.new_cycle_id Scenario.now.
Proof.
  assert (H : CyclesRoute.post Scenario.now Scenario.storage_ok
                (FeedbackAssigner.mkCycleDTO "Annual" (Some "360") 0
                   (Scenario.now + Scenario.day))
                None Scenario.db
              = (fst (CyclesRoute.post Scenario.now Scenario.storage_ok
                        (FeedbackAssigner.mkCycleDTO "Annual" (Some "360") 0
                           (Scenario.now + Scenario.day))
                        None Scenario.db),
                 Ok (match snd (CyclesRoute.post Scenario.now Scenario.storage_ok
                                  (FeedbackAssigner.mkCycleDTO "Annual" (Some "360") 0
                                     (Scenario.now + Scenario.day))
                                  None Scenario.db) with
                     | Ok response => response
                     | Err _ => CyclesRoute.mkResponse "" [] 0
                     end))) by (vm_compute; reflexivity).
  exact (proj1 (post_cycle_response Scenario.now Scenario.storage_ok _ _ _ _ _ H)).
Defined.

(** X24.  When the id [cycle_<now>] is taken, the handler of [POST /] on
    the cycles router answers with the error of [createCycle] and stops
    there: the database is as it was, no ranking is recomputed and no
    request is created. *)
Theorem post_cycle_id_taken
    (now : Z) (storage_rejects : FeedbackAssigner.CreateFeedbackRequestDTO -> bool)
    (cycleData : FeedbackAssigner.CreateFeedbackCycleDTO)
    (config : option CyclesRoute.Config) (db : DB) (cycle : FeedbackCycle) :
  snd (FeedbackAssigner.getCycle (FeedbackAssigner.new_cycle_id now) db)
  = Ok (Some cycle) ->
  exists msg,
    CyclesRoute.post now storage_rejects cycleData config db = (db, Err msg).
Proof.
  intros Htaken. unfold CyclesRoute.post. unfold bind at 1.
  rewrite (createCycle_taken now cycleData db cycle Htaken).
  eexists. reflexivity.
Qed.

Lemma post_cycle_id_taken_witness :
  exists msg,
    CyclesRoute.post Scenario.now Scenario.storage_ok
      (FeedbackAssigner.mkCycleDTO "Annual" (Some "360") 0 (Scenario.now + Scenario.day))
      None
      (fst (FeedbackAssigner.createCycle Scenario.now
              (FeedbackAssigner.mkCycleDTO "First" None 0 Scenario.now) Scenario.db))
    = (fst (FeedbackAssigner.createCycle Scenario.now
              (FeedbackAssigner.mkCycleDTO "First" None 0 Scenario.now) Scenario.db),
       Err msg).
Proof.
  eapply (post_cycle_id_taken Scenario.now Scenario.storage_ok).
  lazy. reflexivity.
Defined.

(** ** From a recorded interaction to the ranking *)

Lemma upsert_has_row (now e p : Z) (t : string) (count minutes : Z)
    (rows : list Collaboration) :
  exists c, In c (CollaborationTracker.upsert now e p t count minutes rows)
            /\ col_employee_id c = e /\ col_peer_id c = p.
Proof.
  pose proof (find_upsert_same now e p t count minutes rows) as Hfind.
  apply find_some in Hfind as [Hin _]. eexists. split; [exact Hin|].
  split; reflexivity.
Qed.

Lemma upsert_keeps_pair (now e p e' p' : Z) (t : string) (count minutes : Z)
    (rows : list Collaboration) :
  (exists c, In c rows /\ col_employee_id c = e' /\ col_peer_id c = p') ->
  exists c, In c (CollaborationTracker.upsert now e p t count minutes rows)
            /\ col_employee_id c = e' /\ col_peer_id c = p'.
Proof.
  intros (c & Hin & He & Hp). induction rows as [|x rows IH]; [destruct Hin|].
  cbn [CollaborationTracker.upsert].
  destruct (CollaborationTracker.same_pair_and_type e p t x) eqn:Hx.
  - destruct Hin as [->|Hin].
    + apply same_pair_and_type_key in Hx. unfold interaction_key in Hx.
      injection Hx as Hxe Hxp _. eexists. split; [left; reflexivity|].
      cbn. split; congruence.
    + exists c. split; [now right|tauto].
  - destruct Hin as [->|Hin].
    + exists c. split; [now left|tauto].
    + destruct (IH Hin) as (c' & Hin' & H'). exists c'. split; [now right|exact H'].
Qed.

Lemma ranked_when_row (now employeeId peerId : Z) (db : DB) :
  (exists c, In c (collaborations db)
             /\ col_employee_id c = employeeId /\ col_peer_id c = peerId) ->
  In peerId
    (map PeerRanker.rk_peer_id (PeerRanker.computeRankings now employeeId db)).
Proof.
  intros (c & Hin & He & Hp). apply computeRankings_has.
  apply aggregates_peers. unfold ScoreFormula.rows_with. intros Hnil.
  assert (Hc : In c (filter
                       (fun c => (col_employee_id c =? employeeId)
                                 && (col_peer_id c =? peerId))
                       (collaborations db))).
  { apply filter_In. split; [exact Hin|]. rewrite He, Hp, !Z.eqb_refl. reflexivity. }
  rewrite Hnil in Hc. destruct Hc.
Qed.

(** ** The requests of a requester *)

(** X26.  [getRequestsForRequester(requesterId, cycleId)] returns, in the
    order of their due dates, the rows made of a request of the requester and
    an employee row of its provider, and no other row, so none for a provider
    without row.  With a cycle id it keeps the requests of that cycle; an
    empty cycle id filters nothing, like an absent one. *)
Theorem getRequestsForRequester_spec (requesterId : Z) (cycleId : option string)
    (db : DB) :
  exists rows,
    FeedbackQueries.getRequestsForRequester requesterId cycleId db = (db, Ok rows)
    /\ (forall fr e,
          In (fr, e) rows
          <-> In fr (feedback_requests db)
              /\ req_requester_id fr = requesterId
              /\ match cycleId with
                 | Some id => id = "" \/ req_cycle_id fr = id
                 | None => True
                 end
              /\ In e (employees db) /\ emp_id e = req_provider_id fr)
    /\ StronglySorted (fun a b => req_due_date (fst a) <= req_due_date (fst b)) rows.
Proof.
  eexists. split; [reflexivity|]. split.
  - intros fr e.
    rewrite sql_order_by_asc_in, sql_join_in, filter_In, andb_true_iff, !Z.eqb_eq.
    destruct cycleId as [id|].
    + destruct (String.eqb id "") eqn:Hid.
      * apply String.eqb_eq in Hid. intuition.
      * apply String.eqb_neq in Hid. rewrite String.eqb_eq. intuition congruence.
    + intuition.
  - apply (sql_order_by_asc_by_key (fun row => req_due_date (fst row))).
Qed.

(** ** Aggregated metrics *)

Section Aggregates.
Import CollaborationTracker.
Variable now : Z.

Lemma filter_upsert_same (e p : Z) (t : string) (count minutes : Z)
    (rows : list Collaboration) :
  filter (fun c => col_employee_id c =? e) (upsert now e p t count minutes rows)
  = upsert now e p t count minutes (filter (fun c => col_employee_id c =? e) rows).
Proof.
  induction rows as [|x rows IH]; cbn [upsert filter].
  - cbn [col_employee_id]. rewrite Z.eqb_refl. reflexivity.
  - destruct (same_pair_and_type e p t x) eqn:Hx.
    + pose proof Hx as Hk. apply same_pair_and_type_key in Hk.
      unfold interaction_key in Hk. injection Hk as He _ _.
      cbn [filter col_employee_id]. rewrite He, Z.eqb_refl.
      cbn [upsert]. rewrite Hx. reflexivity.
    + cbn [filter]. destruct (col_employee_id x =? e).
      * cbn [upsert]. rewrite Hx, IH. reflexivity.
      * exact IH.
Qed.

Lemma filter_upsert_other (e e' p : Z) (t : string) (count minutes : Z)
    (rows : list Collaboration) :
  e' <> e ->
  filter (fun c => col_employee_id c =? e) (upsert now e' p t count minutes rows)
  = filter (fun c => col_employee_id c =? e) rows.
Proof.
  intros Hne. apply Z.eqb_neq in Hne.
  induction rows as [|x rows IH]; cbn [upsert filter].
  - cbn [col_employee_id]. now rewrite Hne.
  - destruct (same_pair_and_type e' p t x) eqn:Hx.
    + apply same_pair_and_type_key in Hx.
      unfold interaction_key in Hx. injection Hx as He _ _.
      cbn [filter col_employee_id]. now rewrite He, Hne.
    + cbn [filter]. now rewrite IH.
Qed.

Lemma fold_left_add (xs : list Z) (a : Z) :
  fold_left Z.add xs a = a + fold_left Z.add xs 0.
Proof.
  revert a. induction xs as [|x xs IH]; intros a; cbn [fold_left]; [lia|].
  rewrite (IH (a + x)), (IH (0 + x)). lia.
Qed.

Lemma sql_sum_total (xs : list Z) : or_zero (sql_sum xs) = fold_left Z.add xs 0.
Proof. destruct xs; reflexivity. Qed.

Lemma upsert_nonempty (e p : Z) (t : string) (count minutes : Z)
    (rows : list Collaboration) :
  upsert now e p t count minutes rows <> [].
Proof. destruct rows as [|x rows]; cbn [upsert]; [|destruct (_ : bool)]; discriminate. Qed.

Lemma sum_upsert (f : Collaboration -> Z) (e p : Z) (t : string) (count minutes : Z)
    (rows : list Collaboration) (added : Z) :
  (forall c, f (mkCollaboration e p t (col_interaction_count c + count)
                  (col_total_minutes c + minutes) now) = f c + added) ->
  f (mkCollaboration e p t count minutes now) = added ->
  fold_left Z.add (map f (upsert now e p t count minutes rows)) 0
  = fold_left Z.add (map f rows) 0 + added.
Proof.
  intros Hupdate Hnew. induction rows as [|x rows IH]; cbn [upsert map fold_left].
  - rewrite Hnew. lia.
  - destruct (same_pair_and_type e p t x); cbn [map fold_left].
    + rewrite fold_left_add, (fold_left_add _ (0 + f x)), Hupdate. lia.
    + rewrite fold_left_add, (fold_left_add _ (0 + f x)), IH. lia.
Qed.

Lemma upsert_peers (e p : Z) (t : string) (count minutes : Z)
    (rows : list Collaboration) :
  map col_peer_id (upsert now e p t count minutes rows)
  = if existsb (same_pair_and_type e p t) rows then map col_peer_id rows
    else map col_peer_id rows ++ [p].
Proof.
  induction rows as [|x rows IH]; cbn [upsert map existsb]; [reflexivity|].
  destruct (same_pair_and_type e p t x) eqn:Hx; cbn [map orb].
  - apply same_pair_and_type_key in Hx. unfold interaction_key in Hx.
    injection Hx as _ Hp _. cbn [col_peer_id]. now rewrite Hp.
  - rewrite IH. destruct (existsb _ rows); reflexivity.
Qed.

Lemma nodup_snoc_length (xs : list Z) (p : Z) :
  List.length (nodup Z.eq_dec (xs ++ [p]))
  = (List.length (nodup Z.eq_dec xs) + (if in_dec Z.eq_dec p xs then 0 else 1))%nat.
Proof.
  induction xs as [|x xs IH]; [reflexivity|].
  cbn [app nodup].
  destruct (in_dec Z.eq_dec x (xs ++ [p])) as [Hin|Hnin];
    destruct (in_dec Z.eq_dec x xs) as [Hin'|Hnin'];
    cbn [List.length]; rewrite ?IH;
    destruct (in_dec Z.eq_dec p (x :: xs)) as [Hp|Hnp];
    destruct (in_dec Z.eq_dec p xs) as [Hp'|Hnp'];
    try lia; exfalso;
    rewrite ?in_app_iff in *; cbn [In] in *; intuition (subst; auto).
Qed.
End Aggregates.

Lemma sql_sum_some (xs : list Z) :
  xs <> [] -> sql_sum xs = Some (fold_left Z.add xs 0).
Proof. destruct xs; [contradiction|reflexivity]. Qed.

Lemma peers_of_employee (employeeId peerId : Z) (db : DB) :
  In peerId
    (map col_peer_id
       (filter (fun c => col_employee_id c =? employeeId) (collaborations db)))
  <-> exists c, In c (collaborations db)
                /\ col_employee_id c = employeeId /\ col_peer_id c = peerId.
Proof.
  rewrite in_map_iff. split.
  - intros (c & Hp & Hin). apply filter_In in Hin as [Hin He].
    apply Z.eqb_eq in He. exists c. tauto.
  - intros (c & Hin & He & Hp). exists c. split; [exact Hp|].
    apply filter_In. split; [exact Hin|]. now apply Z.eqb_eq.
Qed.

(** X27.  [recordInteraction] and [getAggregatedMetrics] compose: for an
    employee and a different peer, the call adds the count to the
    [total_interactions] of the employee and the minutes to the
    [total_meeting_minutes] (a total that was NULL counting as 0), and raises
    [unique_collaborators] by one exactly when the employee had no row with
    that peer. *)
Theorem recordInteraction_adds_to_metrics (now employeeId peerId : Z) (type : string)
    (count minutes : Z) (db : DB) :
  employeeId <> peerId ->
  let db' :=
    fst (CollaborationTracker.recordInteraction now employeeId peerId type count
           minutes db) in
  let known :=
    exists c, In c (collaborations db)
              /\ col_employee_id c = employeeId /\ col_peer_id c = peerId in
  exists before after,
    snd (CollaborationQueries.getAggregatedMetrics employeeId db) = Ok [before]
    /\ snd (CollaborationQueries.getAggregatedMetrics employeeId db') = Ok [after]
    /\ CollaborationQueries.total_interactions after
       = Some (or_zero (CollaborationQueries.total_interactions before) + count)
    /\ CollaborationQueries.total_meeting_minutes after
       = Some (or_zero (CollaborationQueries.total_meeting_minutes before) + minutes)
    /\ (known ->
        CollaborationQueries.unique_collaborators after
        = CollaborationQueries.unique_collaborators before)
    /\ (~ known ->
        CollaborationQueries.unique_collaborators after
        = CollaborationQueries.unique_collaborators before + 1).
Proof.
  intros Hne. cbv zeta. rewrite recordInteraction_run. cbn [fst].
  unfold CollaborationQueries.getAggregatedMetrics, gets. cbn [snd].
  cbn [collaborations set_collaborations].
  rewrite filter_upsert_other by congruence. rewrite filter_upsert_same.
  set (rows := filter (fun c => col_employee_id c =? employeeId) (collaborations db)).
  do 2 eexists. split; [reflexivity|]. split; [reflexivity|].
  cbn [CollaborationQueries.total_interactions
       CollaborationQueries.total_meeting_minutes
       CollaborationQueries.unique_collaborators].
  assert (Hsome : forall f : Collaboration -> Z,
            map f (CollaborationTracker.upsert now employeeId peerId type count
                     minutes rows) <> []).
  { intros f H. apply map_eq_nil in H. revert H. apply upsert_nonempty. }
  rewrite (sql_sum_some (map col_interaction_count (CollaborationTracker.upsert _ _ _ _ _ _ _)))
    by apply Hsome.
  rewrite (sql_sum_some (map col_total_minutes (CollaborationTracker.upsert _ _ _ _ _ _ _)))
    by apply Hsome.
  rewrite !sql_sum_total.
  rewrite (sum_upsert now col_interaction_count employeeId peerId type count minutes
             rows count) by reflexivity.
  rewrite (sum_upsert now col_total_minutes employeeId peerId type count minutes
             rows minutes) by reflexivity.
  split; [reflexivity|]. split; [reflexivity|].
  unfold sql_count_distinct. rewrite upsert_peers.
  pose proof (peers_of_employee employeeId peerId db) as Hpeers. fold rows in Hpeers.
  destruct (existsb (CollaborationTracker.same_pair_and_type employeeId peerId type)
              rows) eqn:Hex.
  - split; [reflexivity|]. intros Hunknown. exfalso. apply Hunknown, Hpeers.
    apply existsb_exists in Hex as (c & Hin & Hc).
    apply same_pair_and_type_key in Hc. unfold interaction_key in Hc.
    injection Hc as _ Hp _. rewrite <- Hp. now apply in_map.
  - rewrite nodup_snoc_length.
    destruct (in_dec Z.eq_dec peerId (map col_peer_id rows)) as [Hin|Hnin].
    + split; [intros _; f_equal; lia|]. intros Hunknown. exfalso.
      apply Hunknown, Hpeers, Hin.
    + split; [|intros _; lia]. intros Hknown. exfalso. apply Hnin, Hpeers, Hknown.
Qed.

Lemma recordInteraction_adds_to_metrics_witness :
  exists before after,
    snd (CollaborationQueries.getAggregatedMetrics 1 Scenario.db) = Ok [before]
    /\ snd (CollaborationQueries.getAggregatedMetrics 1
              (fst (CollaborationTracker.recordInteraction Scenario.now 1 2 "task" 3 0
                      Scenario.db))) = Ok [after]
    /\ CollaborationQueries.total_interactions after
       = Some (or_zero (CollaborationQueries.total_interactions before) + 3).
Proof.
  assert (Hne : 1 <> 2) by lia.
  destruct (recordInteraction_adds_to_metrics Scenario.now 1 2 "task" 3 0 Scenario.db
              Hne) as (before & after & H1 & H2 & H3 & _).
  exists before, after. split; [exact H1|]. split; [exact H2|exact H3].
Defined.

(** ** The ranker on any interaction type *)

Section AnyType.
Variable now : Z.

Lemma numeric_weight (type : string) :
  has_numeric_weight type = true ->
  PeerRankerJs.or_1 (PeerRankerJs.WEIGHTS_get type)
  = PeerRankerJs.JsNumber (PeerRanker.weight_of type).
Proof.
  unfold has_numeric_weight, PeerRankerJs.WEIGHTS_get, PeerRanker.weight_of.
  destruct (PeerRanker.WEIGHTS type) as [w|].
  - cbn [PeerRankerJs.or_1]. destruct (w =? 0); reflexivity.
  - unfold PeerRankerJs.Object_prototype.
    destruct (existsb _ _); [discriminate|].
    destruct (String.eqb type "__proto__"); [discriminate|reflexivity].
Qed.

Lemma plus_NaN (ms : list PeerRanker.CollaborationMetric) :
  fold_left
    (fun (score : PeerRankerJs.JsNum) (metric : PeerRanker.CollaborationMetric) =>
       PeerRankerJs.plus score
         (PeerRankerJs.plus
            (PeerRankerJs.times (PeerRanker.interaction_count metric)
               (PeerRankerJs.or_1
                  (PeerRankerJs.WEIGHTS_get (PeerRanker.interaction_type metric))))
            (PeerRankerJs.Num (inject_Z (PeerRanker.total_minutes metric) / 10))))
    ms PeerRankerJs.NaN
  = PeerRankerJs.NaN.
Proof. induction ms as [|m ms IH]; [reflexivity|exact IH]. Qed.

(** The sum of the code is the sum of [PeerRanker] when every type has a
    number for its weight, and NaN otherwise. *)
Lemma sum_any_type (ms : list PeerRanker.CollaborationMetric) (acc : Q) :
  fold_left
    (fun (score : PeerRankerJs.JsNum) (metric : PeerRanker.CollaborationMetric) =>
       PeerRankerJs.plus score
         (PeerRankerJs.plus
            (PeerRankerJs.times (PeerRanker.interaction_count metric)
               (PeerRankerJs.or_1
                  (PeerRankerJs.WEIGHTS_get (PeerRanker.interaction_type metric))))
            (PeerRankerJs.Num (inject_Z (PeerRanker.total_minutes metric) / 10))))
    ms (PeerRankerJs.Num acc)
  = if forallb (fun m => has_numeric_weight (PeerRanker.interaction_type m)) ms
    then PeerRankerJs.Num
           (fold_left
              (fun (score : Q) (metric : PeerRanker.CollaborationMetric) =>
                 (score
                  + (inject_Z (PeerRanker.interaction_count metric
                               * PeerRanker.weight_of (PeerRanker.interaction_type metric))
                     + inject_Z (PeerRanker.total_minutes metric) / 10))%Q)
              ms acc)
    else PeerRankerJs.NaN.
Proof.
  revert acc. induction ms as [|m ms IH]; intros acc; [reflexivity|].
  cbn [fold_left forallb].
  destruct (has_numeric_weight (PeerRanker.interaction_type m)) eqn:Hm.
  - rewrite (numeric_weight _ Hm). cbn [PeerRankerJs.times PeerRankerJs.plus andb].
    apply IH.
  - cbn [andb]. unfold has_numeric_weight in Hm.
    destruct (PeerRankerJs.or_1
                (PeerRankerJs.WEIGHTS_get (PeerRanker.interaction_type m)));
      [discriminate| | |]; cbn [PeerRankerJs.times PeerRankerJs.plus];
      apply plus_NaN.
Qed.

Lemma calculateCollaborationScore_any_type (ms : list PeerRanker.CollaborationMetric) :
  PeerRankerJs.calculateCollaborationScore now ms
  = if forallb (fun m => has_numeric_weight (PeerRanker.interaction_type m)) ms
    then PeerRankerJs.Num (PeerRanker.calculateCollaborationScore now ms)
    else PeerRankerJs.NaN.
Proof.
  unfold PeerRankerJs.calculateCollaborationScore,
    PeerRanker.calculateCollaborationScore.
  cbv zeta. rewrite sum_any_type.
  destruct ms as [|m ms]; [reflexivity|].
  destruct (forallb _ (m :: ms)); reflexivity.
Qed.

(** *** The types of the aggregates are the types of the rows *)

Lemma group_add_types (c : Collaboration) (groups : list PeerRanker.CollaborationMetric)
    (k : Z) (t : string) :
  In (k, t)
    (map (fun g => (PeerRanker.peer_id g, PeerRanker.interaction_type g))
       (PeerRanker.group_add c groups))
  <-> (k, t) = (col_peer_id c, col_interaction_type c)
      \/ In (k, t)
           (map (fun g => (PeerRanker.peer_id g, PeerRanker.interaction_type g)) groups).
Proof.
  induction groups as [|g groups IH]; cbn [PeerRanker.group_add map In].
  - cbn. intuition.
  - destruct (PeerRanker.same_group c g) eqn:Hsame; cbn [map In].
    + unfold PeerRanker.same_group in Hsame. apply andb_prop in Hsame as [Hp Ht].
      apply Z.eqb_eq in Hp. apply String.eqb_eq in Ht.
      cbn [PeerRanker.peer_id PeerRanker.interaction_type].
      rewrite Hp, Ht. intuition.
    + rewrite IH. intuition.
Qed.

Lemma query_types (employeeId : Z) (db : DB) (k : Z) (t : string) :
  In (k, t)
    (map (fun g => (PeerRanker.peer_id g, PeerRanker.interaction_type g))
       (PeerRanker.query_collaborations employeeId db))
  <-> In (k, t)
        (map (fun c => (col_peer_id c, col_interaction_type c))
           (filter (fun c => col_employee_id c =? employeeId) (collaborations db))).
Proof.
  unfold PeerRanker.query_collaborations.
  assert (Hfold : forall rows groups,
            In (k, t)
              (map (fun g => (PeerRanker.peer_id g, PeerRanker.interaction_type g))
                 (fold_left (fun groups c => PeerRanker.group_add c groups) rows groups))
            <-> In (k, t) (map (fun c => (col_peer_id c, col_interaction_type c)) rows)
                \/ In (k, t)
                     (map (fun g => (PeerRanker.peer_id g,
                                     PeerRanker.interaction_type g)) groups)).
  { induction rows as [|c rows IH]; intros groups; cbn [fold_left map In].
    - intuition.
    - rewrite IH, group_add_types. intuition. }
  rewrite Hfold. cbn [map In]. intuition.
Qed.

Lemma forallb_false {A} (f : A -> bool) (l : list A) :
  forallb f l = false -> exists x, In x l /\ f x = false.
Proof.
  induction l as [|x l IH]; [discriminate|].
  cbn [forallb]. destruct (f x) eqn:Hx.
  - intros H. destruct (IH H) as (y & Hy & Hf). exists y. split; [now right|exact Hf].
  - intros _. exists x. split; [now left|exact Hx].
Qed.

(** The aggregates of a peer have numeric weights when the rows of the
    employee have. *)
Lemma metrics_numeric (employeeId : Z) (db : DB) (k : Z) :
  numeric_types employeeId db = true ->
  forallb (fun m => has_numeric_weight (PeerRanker.interaction_type m))
    (filter (fun g => PeerRanker.peer_id g =? k)
       (PeerRanker.query_collaborations employeeId db)) = true.
Proof.
  unfold numeric_types. intros Hnum. apply forallb_forall. intros g Hg.
  apply filter_In in Hg as [Hg _].
  assert (Hin : In (PeerRanker.peer_id g, PeerRanker.interaction_type g)
                  (map (fun g => (PeerRanker.peer_id g, PeerRanker.interaction_type g))
                     (PeerRanker.query_collaborations employeeId db)))
    by (apply in_map_iff; exists g; split; [reflexivity|exact Hg]).
  apply query_types in Hin. apply in_map_iff in Hin as (c & [= _ Ht] & Hc).
  rewrite <- Ht. rewrite forallb_forall in Hnum. now apply Hnum.
Qed.

(** *** The two rankers on numeric weights *)

Lemma sort_insert_map {A B} (f : A -> B) (cmp : A -> A -> Q) (cmp' : B -> B -> Q)
    (x : A) (l : list A) :
  (forall a b, cmp' (f a) (f b) = cmp a b) ->
  sort_insert cmp' (f x) (map f l) = map f (sort_insert cmp x l).
Proof.
  intros Hcmp. induction l as [|y l IH]; [reflexivity|].
  cbn [map sort_insert]. rewrite Hcmp.
  destruct (Qle_bool (cmp x y) 0); [reflexivity|].
  cbn [map]. now rewrite IH.
Qed.

Lemma Array_sort_map {A B} (f : A -> B) (cmp : A -> A -> Q) (cmp' : B -> B -> Q)
    (l : list A) :
  (forall a b, cmp' (f a) (f b) = cmp a b) ->
  Array_sort cmp' (map f l) = map f (Array_sort cmp l).
Proof.
  intros Hcmp. unfold Array_sort. induction l as [|x l IH]; [reflexivity|].
  cbn [map fold_right]. rewrite IH. now apply sort_insert_map.
Qed.

Lemma assign_rank_positions_of_number (index : Z) (l : list PeerRanker.PeerRanking) :
  PeerRankerJs.assign_rank_positions index (map of_number l)
  = map of_number (PeerRanker.assign_rank_positions index l).
Proof.
  revert index. induction l as [|r l IH]; intros index; [reflexivity|].
  cbn [map PeerRankerJs.assign_rank_positions PeerRanker.assign_rank_positions].
  now rewrite IH.
Qed.

Lemma computeRankings_numeric (employeeId : Z) (db : DB) :
  numeric_types employeeId db = true ->
  PeerRankerJs.computeRankings now employeeId db
  = map of_number (PeerRanker.computeRankings now employeeId db).
Proof.
  intros Hnum. unfold PeerRankerJs.computeRankings, PeerRanker.computeRankings.
  cbv zeta.
  rewrite <- assign_rank_positions_of_number. f_equal.
  rewrite <- (Array_sort_map of_number
                (fun a b => (PeerRanker.collaboration_score b
                             - PeerRanker.collaboration_score a)%Q)
                (fun a b =>
                   PeerRankerJs.comparator_value
                     (PeerRankerJs.minus (PeerRankerJs.collaboration_score b)
                        (PeerRankerJs.collaboration_score a))))
    by reflexivity.
  f_equal. rewrite map_map. apply map_ext_in. intros [k ms] Hin.
  unfold Object_entries in Hin.
  apply obj_in_get in Hin; [|apply grouped_NoDup].
  rewrite grouped_get in Hin.
  pose proof (metrics_numeric employeeId db k Hnum) as Hms.
  destruct (filter _ (PeerRanker.query_collaborations employeeId db)) as [|g gs];
    [discriminate|].
  injection Hin as <-.
  rewrite calculateCollaborationScore_any_type, Hms. reflexivity.
Qed.

Lemma saveRankings_numeric (employeeId : Z) (l : list PeerRanker.PeerRanking) (db : DB) :
  PeerRankerJs.saveRankings now employeeId (map of_number l) db
  = PeerRanker.saveRankings now employeeId l db.
Proof.
  unfold PeerRankerJs.saveRankings, PeerRanker.saveRankings, bind, modify.
  generalize (set_peer_rankings
                (filter (fun r => negb (pr_employee_id r =? employeeId))
                   (peer_rankings db)) db).
  induction l as [|r l IH]; intros db0; [reflexivity|].
  cbn [map for_of]. unfold bind.
  cbn [of_number PeerRankerJs.collaboration_score PeerRankerJs.rk_peer_id
       PeerRankerJs.rank_position].
  apply IH.
Qed.

(** On the interaction types with a numeric weight, the ranker of the code
    is [PeerRanker]. *)
Lemma rankPeers_numeric (employeeId : Z) (db : DB) :
  numeric_types employeeId db = true ->
  PeerRankerJs.rankPeers now employeeId db
  = (fst (PeerRanker.rankPeers now employeeId db),
     Ok (map of_number (PeerRanker.computeRankings now employeeId db))).
Proof.
  intros Hnum. unfold PeerRankerJs.rankPeers, PeerRanker.rankPeers.
  unfold bind at 1 3. unfold gets. rewrite (computeRankings_numeric _ _ Hnum).
  unfold bind. rewrite saveRankings_numeric.
  destruct (PeerRanker.saveRankings now employeeId
              (PeerRanker.computeRankings now employeeId db) db) as [db' [[]|msg]] eqn:Hs.
  - reflexivity.
  - exfalso. revert Hs. unfold PeerRanker.saveRankings, bind, modify.
    generalize (set_peer_rankings
                  (filter (fun r => negb (pr_employee_id r =? employeeId))
                     (peer_rankings db)) db).
    induction (PeerRanker.computeRankings now employeeId db) as [|r l IH];
      intros db0; cbn [for_of]; [discriminate|].
    unfold bind. apply IH.
Qed.

(** *** A weight that is not a number *)

Lemma insert_loop_rejects (employeeId : Z) (l : list PeerRankerJs.PeerRanking)
    (db : DB) :
  (exists r, In r l /\ PeerRankerJs.collaboration_score r = PeerRankerJs.NaN) ->
  exists db' msg,
    for_of l
      (fun (_ : unit) ranking =>
         match PeerRankerJs.collaboration_score ranking with
         | PeerRankerJs.Num score =>
             modify (fun db =>
               set_peer_rankings
                 (peer_rankings db
                  ++ [mkPeerRankingRow employeeId (PeerRankerJs.rk_peer_id ranking)
                        score (PeerRankerJs.rank_position ranking) now]) db)
         | PeerRankerJs.NaN =>
             throw
               "SQLITE_CONSTRAINT: NOT NULL constraint failed: peer_rankings.collaboration_score"
         end)
      tt db
    = (db', Err msg).
Proof.
  revert db. induction l as [|x l IH]; intros db (r & Hin & Hr); [destruct Hin|].
  cbn [for_of]. unfold bind.
  destruct (PeerRankerJs.collaboration_score x) as [score|] eqn:Hx.
  - unfold modify at 1. apply IH. destruct Hin as [->|Hin]; [congruence|].
    exists r. split; assumption.
  - unfold throw. eexists. eexists. reflexivity.
Qed.

Lemma assign_rank_positions_scores (index : Z) (l : list PeerRankerJs.PeerRanking) :
  map PeerRankerJs.collaboration_score (PeerRankerJs.assign_rank_positions index l)
  = map PeerRankerJs.collaboration_score l.
Proof.
  revert index. induction l as [|r l IH]; intros index; [reflexivity|].
  cbn [PeerRankerJs.assign_rank_positions map PeerRankerJs.collaboration_score].
  now rewrite IH.
Qed.

(** With an interaction row whose type has no numeric weight, [rankPeers]
    rejects. *)
Lemma rankPeers_rejects (employeeId : Z) (db : DB) :
  numeric_types employeeId db = false ->
  exists db' msg, PeerRankerJs.rankPeers now employeeId db = (db', Err msg).
Proof.
  intros Hnum. unfold numeric_types in Hnum.
  apply forallb_false in Hnum as (c & Hc & Hbad).
  assert (Hin : In (col_peer_id c, col_interaction_type c)
                  (map (fun g => (PeerRanker.peer_id g, PeerRanker.interaction_type g))
                     (PeerRanker.query_collaborations employeeId db))).
  { apply query_types. apply in_map_iff. exists c. split; [reflexivity|exact Hc]. }
  apply in_map_iff in Hin as (g & [= Hk Ht] & Hg).
  set (ms := filter (fun g0 => PeerRanker.peer_id g0 =? col_peer_id c)
               (PeerRanker.query_collaborations employeeId db)).
  assert (Hgms : In g ms).
  { apply filter_In. split; [exact Hg|]. now apply Z.eqb_eq. }
  assert (Hscore : PeerRankerJs.calculateCollaborationScore now ms = PeerRankerJs.NaN).
  { rewrite calculateCollaborationScore_any_type.
    destruct (forallb _ ms) eqn:Hall; [|reflexivity].
    rewrite forallb_forall in Hall. specialize (Hall g Hgms). congruence. }
  assert (Hentry : In (col_peer_id c, ms)
                     (Object_entries
                        (fold_left PeerRanker.group_by_peer
                           (PeerRanker.query_collaborations employeeId db) []))).
  { unfold Object_entries. apply obj_get_in. rewrite grouped_get. fold ms.
    destruct ms; [destruct Hgms|reflexivity]. }
  assert (Hnan : exists r,
            In r (PeerRankerJs.computeRankings now employeeId db)
            /\ PeerRankerJs.collaboration_score r = PeerRankerJs.NaN).
  { assert (Hin : In PeerRankerJs.NaN
                    (map PeerRankerJs.collaboration_score
                       (PeerRankerJs.computeRankings now employeeId db))).
    { unfold PeerRankerJs.computeRankings. cbv zeta.
      rewrite assign_rank_positions_scores.
      apply (Permutation_in _
               (Permutation_sym (Permutation_map _ (Array_sort_perm _ _)))).
      rewrite map_map. apply in_map_iff. exists (col_peer_id c, ms).
      split; [exact Hscore|exact Hentry]. }
    apply in_map_iff in Hin as (r & Hr & Hin). exists r. split; assumption. }
  unfold PeerRankerJs.rankPeers. unfold bind at 1. unfold gets.
  unfold bind at 1. unfold PeerRankerJs.saveRankings. unfold bind at 1.
  unfold modify at 1.
  destruct (insert_loop_rejects employeeId _
              (set_peer_rankings
                 (filter (fun r => negb (pr_employee_id r =? employeeId))
                    (peer_rankings db)) db) Hnan) as (db' & msg & Hloop).
  rewrite Hloop. exists db', msg. reflexivity.
Qed.

Lemma numeric_types_ext (employeeId : Z) (db db' : DB) :
  collaborations db' = collaborations db ->
  numeric_types employeeId db' = numeric_types employeeId db.
Proof. unfold numeric_types. now intros ->. Qed.

(** When [rankAllPeers] returns, every employee's types had numeric weights
    and the state is the one [PeerRanker.rankAllPeers] leaves. *)
Lemma rankAllPeers_returned (db db' : DB) :
  PeerRankerJs.rankAllPeers now db = (db', Ok tt) ->
  forallb (fun id => numeric_types id db) (map emp_id (employees db)) = true
  /\ db' = rerank now (map emp_id (employees db)) db.
Proof.
  unfold PeerRankerJs.rankAllPeers. unfold bind at 1. unfold gets.
  generalize (map emp_id (employees db)) as ids. intros ids.
  assert (Hloop : forall ids db0,
            collaborations db0 = collaborations db ->
            for_of ids (fun (_ : unit) id => PeerRankerJs.rankPeers now id ;;; ret tt)
              tt db0 = (db', Ok tt) ->
            forallb (fun id => numeric_types id db) ids = true
            /\ db' = rerank now ids db0).
  { clear ids. induction ids as [|i ids IH]; intros db0 Hc.
    - cbn [for_of ret forallb]. intros [= <-]. split; reflexivity.
    - cbn [for_of forallb]. unfold bind at 1. unfold bind at 1.
      destruct (numeric_types i db0) eqn:Hnum.
      + rewrite (rankPeers_numeric i db0 Hnum). unfold ret at 1.
        intros Hrest.
        assert (Hc1 : collaborations (fst (PeerRanker.rankPeers now i db0))
                      = collaborations db).
        { rewrite rankPeers_run. cbn [fst]. rewrite <- Hc. destruct db0; reflexivity. }
        destruct (IH _ Hc1 Hrest) as [Hall Hdb'].
        rewrite <- (numeric_types_ext i db db0 Hc), Hnum. split; [exact Hall|].
        exact Hdb'.
      + destruct (rankPeers_rejects i db0 Hnum) as (db1 & msg & ->). discriminate. }
  intros H. now apply (Hloop ids db).
Qed.
End AnyType.

(** X9.  When [rankAllPeers] returns, the stored rows of every id of the
    employees table are the ranking [rankPeers] computes for it from the
    interaction data, none of whose scores is NaN; the rows stored for an id
    that is not in the employees table are left as they were, and no other
    table has changed.  It does not return when an employee has an
    interaction row whose type has no numeric weight. *)
Theorem rankAllPeers_rows (now : Z) (db db' : DB) (employeeId : Z) :
  PeerRankerJs.rankAllPeers now db = (db', Ok tt) ->
  (if existsb (fun e => emp_id e =? employeeId) (employees db)
   then numeric_types employeeId db = true
        /\ PeerRankerJs.computeRankings now employeeId db
           = map of_number (PeerRanker.computeRankings now employeeId db)
        /\ rows_of employeeId (peer_rankings db')
           = map (ranking_row now employeeId)
               (PeerRanker.computeRankings now employeeId db)
   else rows_of employeeId (peer_rankings db') = rows_of employeeId (peer_rankings db))
  /\ set_peer_rankings (peer_rankings db) db' = db.
Proof.
  intros Hrun. apply rankAllPeers_returned in Hrun as [Hall ->].
  assert (Hex : existsb (Z.eqb employeeId) (map emp_id (employees db))
                = existsb (fun e => emp_id e =? employeeId) (employees db)).
  { clear Hall. induction (employees db) as [|e l IH]; [reflexivity|].
    cbn [map existsb]. rewrite IH, (Z.eqb_sym employeeId). reflexivity. }
  split.
  - rewrite rerank_rows, Hex.
    destruct (existsb (fun e => emp_id e =? employeeId) (employees db)) eqn:Hin;
      [|reflexivity].
    assert (Hnum : numeric_types employeeId db = true).
    { rewrite forallb_forall in Hall. apply Hall.
      apply existsb_exists in Hin as (e & He & Hid). apply Z.eqb_eq in Hid.
      rewrite <- Hid. now apply in_map. }
    split; [exact Hnum|]. split; [now apply computeRankings_numeric|reflexivity].
  - destruct (rerank_frame now (map emp_id (employees db)) db)
      as (H1 & H2 & H3 & H4 & H5 & H6).
    destruct (rerank now (map emp_id (employees db)) db) as [a b c d e f g].
    cbn in *. subst. destruct db; reflexivity.
Qed.

Lemma rankAllPeers_rows_witness :
  rows_of 1
    (peer_rankings (fst (PeerRankerJs.rankAllPeers Scenario.now Scenario.db)))
  = map (ranking_row Scenario.now 1)
      (PeerRanker.computeRankings Scenario.now 1 Scenario.db).
Proof.
  assert (H : PeerRankerJs.rankAllPeers Scenario.now Scenario.db
              = (fst (PeerRankerJs.rankAllPeers Scenario.now Scenario.db), Ok tt))
    by (vm_compute; reflexivity).
  exact (proj2 (proj2 (proj1 (rankAllPeers_rows Scenario.now Scenario.db _ 1 H)))).
Defined.

(** X25.  After [recordInteraction(employeeId, peerId, type, ...)], whatever
    the count and the minutes, a ranking that [rankPeers] returns for the
    employee contains the peer, and one it returns for the peer contains the
    employee, at any later clock value.  When the type has no numeric weight
    it returns neither: both calls reject. *)
Theorem recordInteraction_then_rankPeers (now later employeeId peerId : Z)
    (type : string) (count minutes : Z) (db : DB) :
  let db' :=
    fst (CollaborationTracker.recordInteraction now employeeId peerId type count
           minutes db) in
  (forall ranking,
     snd (PeerRankerJs.rankPeers later employeeId db') = Ok ranking ->
     In peerId (map PeerRankerJs.rk_peer_id ranking))
  /\ (forall ranking,
        snd (PeerRankerJs.rankPeers later peerId db') = Ok ranking ->
        In employeeId (map PeerRankerJs.rk_peer_id ranking))
  /\ (has_numeric_weight type = false ->
      (exists msg, snd (PeerRankerJs.rankPeers later employeeId db') = Err msg)
      /\ (exists msg, snd (PeerRankerJs.rankPeers later peerId db') = Err msg)).
Proof.
  cbv zeta. rewrite recordInteraction_run. cbn [fst].
  set (db' := set_collaborations
                (CollaborationTracker.upsert now peerId employeeId type count minutes
                   (CollaborationTracker.upsert now employeeId peerId type count
                      minutes (collaborations db))) db).
  assert (Hrow1 : exists c, In c (collaborations db')
                            /\ interaction_key c = (employeeId, peerId, type)).
  { unfold db'. cbn [collaborations set_collaborations].
    destruct (Z.eq_dec employeeId peerId) as [<-|Hne].
    - pose proof (find_upsert_same now employeeId employeeId type count minutes
                    (CollaborationTracker.upsert now employeeId employeeId type count
                       minutes (collaborations db))) as Hf.
      apply find_some in Hf as [Hin _]. eexists. split; [exact Hin|reflexivity].
    - pose proof (find_upsert_same now employeeId peerId type count minutes
                    (collaborations db)) as Hf.
      rewrite <- (find_upsert_other now peerId employeeId employeeId peerId type type
                    count minutes) in Hf by congruence.
      apply find_some in Hf as [Hin _]. eexists. split; [exact Hin|reflexivity]. }
  assert (Hrow2 : exists c, In c (collaborations db')
                            /\ interaction_key c = (peerId, employeeId, type)).
  { unfold db'. cbn [collaborations set_collaborations].
    pose proof (find_upsert_same now peerId employeeId type count minutes
                  (CollaborationTracker.upsert now employeeId peerId type count
                     minutes (collaborations db))) as Hf.
    apply find_some in Hf as [Hin _]. eexists. split; [exact Hin|reflexivity]. }
  assert (Hranked : forall e p ranking,
            (exists c, In c (collaborations db') /\ interaction_key c = (e, p, type)) ->
            snd (PeerRankerJs.rankPeers later e db') = Ok ranking ->
            In p (map PeerRankerJs.rk_peer_id ranking)).
  { intros e p ranking (c & Hin & Hk) Hok.
    unfold interaction_key in Hk. injection Hk as He Hp _.
    destruct (numeric_types e db') eqn:Hnum.
    - rewrite (rankPeers_numeric later e db' Hnum) in Hok. cbn [snd] in Hok.
      injection Hok as <-. rewrite map_map.
      change (map (fun x => PeerRankerJs.rk_peer_id (of_number x))
                (PeerRanker.computeRankings later e db'))
        with (map PeerRanker.rk_peer_id (PeerRanker.computeRankings later e db')).
      apply ranked_when_row. exists c. tauto.
    - destruct (rankPeers_rejects later e db' Hnum) as (db1 & msg & Hrej).
      rewrite Hrej in Hok. discriminate. }
  assert (Hrejects : forall e p,
            (exists c, In c (collaborations db') /\ interaction_key c = (e, p, type)) ->
            has_numeric_weight type = false ->
            exists msg, snd (PeerRankerJs.rankPeers later e db') = Err msg).
  { intros e p (c & Hin & Hk) Hbad.
    unfold interaction_key in Hk. injection Hk as He _ Ht.
    assert (Hnum : numeric_types e db' = false).
    { unfold numeric_types. destruct (forallb _ _) eqn:Hall; [|reflexivity].
      rewrite forallb_forall in Hall.
      assert (Hc : In c (filter (fun c => col_employee_id c =? e) (collaborations db'))).
      { apply filter_In. split; [exact Hin|]. now apply Z.eqb_eq. }
      specialize (Hall c Hc). rewrite Ht in Hall. congruence. }
    destruct (rankPeers_rejects later e db' Hnum) as (db1 & msg & Hrej).
    exists msg. now rewrite Hrej. }
  split; [|split].
  - intros ranking. now apply Hranked.
  - intros ranking. now apply Hranked.
  - intros Hbad. split; [now apply (Hrejects employeeId peerId)|].
    now apply (Hrejects peerId employeeId).
Qed.

(** ** The statuses of a cycle *)

(** X5.  Cycle status only moves from active to completed.  With cycle ids
    unique, every operation of the engine ([recordInteraction], [rankPeers],
    [rankAllPeers], [createCycle], [assignFeedbackRequests],
    [updateRequestStatus], [autoCloseCycles]) keeps them unique, leaves each
    cycle as it is or moves it from active to completed, and adds cycles as
    active only: no operation takes a cycle out of completed or archived,
    and none archives. *)
Theorem cycle_status_steps (now : Z)
    (storage_rejects : FeedbackAssigner.CreateFeedbackRequestDTO -> bool)
    (op : Operation) (db : DB) :
  NoDup (map cyc_id (feedback_cycles db)) ->
  NoDup (map cyc_id (feedback_cycles (perform now storage_rejects op db)))
  /\ cycles_step db (perform now storage_rejects op db).
Proof.
  intros Hnd. now apply perform_cycles.
Qed.

Lemma cycle_status_steps_witness :
  cycles_step Scenario.late_db
    (perform Scenario.now Scenario.storage_ok AutoCloseCycles Scenario.late_db).
Proof.
  assert (Hnd : NoDup (map cyc_id (feedback_cycles Scenario.late_db))).
  { simpl. constructor.
    - intros [H|[]]. discriminate.
    - constructor; [intros []|constructor]. }
  exact (proj2 (cycle_status_steps Scenario.now Scenario.storage_ok AutoCloseCycles
                  Scenario.late_db Hnd)).
Defined.
